(** * PiBridge hotspot manager

    A shallow embedding of [src/hotspot.py] (class [HotspotManager]) and of
    the parts of [src/config_manager.py] and [src/exceptions.py] it relies on.

    The manager drives the operating system through [subprocess.run], file
    writes and removals, and sleeps.  Each of these is a _system call_ of the
    model; a method of the class is a finite tree of system calls (type
    [prog]) that is run against an arbitrary host ([Class Host]).  Python
    exceptions are values of type [exn] carried by [result]. *)

From stdpp Require Import gmap strings list pretty.
From Stdlib Require Import ZArith String Ascii Lia.

Open Scope string_scope.
Open Scope Z_scope.

(** ** Python text primitives

    Text is modelled as byte strings; the commands, paths and lease files the
    manager handles are ASCII. *)

Module PyStr.

(** [sub in s] for two [str] operands. *)
Fixpoint contains (sub s : string) : bool :=
  String.prefix sub s ||
  match s with
  | EmptyString => false
  | String _ s' => contains sub s'
  end.

(** [str.isspace] on one ASCII character: TAB..CR, FS..US and space. *)
Definition is_space (c : ascii) : bool :=
  let n := nat_of_ascii c in
  ((9 <=? n) && (n <=? 13) || (28 <=? n) && (n <=? 32))%nat.

Definition push_word (w : string) (ws : list string) : list string :=
  match w with
  | EmptyString => ws
  | _ => w :: ws
  end.

(** The word that starts at the head of [s] and the words after it. *)
Fixpoint split_go (s : string) : string * list string :=
  match s with
  | EmptyString => (EmptyString, [])
  | String c s' =>
      let (w, ws) := split_go s' in
      if is_space c then (EmptyString, push_word w ws) else (String c w, ws)
  end.

(** [s.split()]: maximal runs of non-whitespace characters. *)
Definition split (s : string) : list string :=
  let (w, ws) := split_go s in push_word w ws.

(** [s.split(sep)] for a one-character separator: never empty, keeps
    empty fields. *)
Fixpoint split_on (sep : ascii) (s : string) : list string :=
  match s with
  | EmptyString => [EmptyString]
  | String c s' =>
      let r := split_on sep s' in
      if Ascii.eqb c sep then EmptyString :: r
      else match r with
           | w :: ws => String c w :: ws
           | [] => [String c EmptyString]
           end
  end.

Definition newline : ascii := ascii_of_nat 10.

Definition lines (s : string) : list string := split_on newline s.

Fixpoint lstrip (s : string) : string :=
  match s with
  | String c s' => if is_space c then lstrip s' else s
  | EmptyString => EmptyString
  end.

Fixpoint rstrip (s : string) : string :=
  match s with
  | EmptyString => EmptyString
  | String c s' =>
      match rstrip s' with
      | EmptyString => if is_space c then EmptyString else String c EmptyString
      | r => String c r
      end
  end.

(** [s.strip()] *)
Definition strip (s : string) : string := rstrip (lstrip s).

Definition is_digit_char (c : ascii) : bool :=
  let n := nat_of_ascii c in ((48 <=? n) && (n <=? 57))%nat.

Fixpoint all_digits (s : string) : bool :=
  match s with
  | EmptyString => true
  | String c s' => is_digit_char c && all_digits s'
  end.

(** [s.isdigit()]: at least one character, all of them digits. *)
Definition isdigit (s : string) : bool :=
  match s with
  | EmptyString => false
  | _ => all_digits s
  end.

Fixpoint int_acc (acc : Z) (s : string) : Z :=
  match s with
  | EmptyString => acc
  | String c s' => int_acc (10 * acc + (Z.of_nat (nat_of_ascii c) - 48)) s'
  end.

(** [int(s)] on a string for which [isdigit] holds. *)
Definition int (s : string) : Z := int_acc 0 s.

(** [sep.join(l)] *)
Fixpoint join (sep : string) (l : list string) : string :=
  match l with
  | [] => EmptyString
  | [x] => x
  | x :: l' => x +:+ sep +:+ join sep l'
  end.

(** [repr(s)] for a string without quotes, backslashes or control
    characters, which is what every command word of the manager is. *)
Definition repr (s : string) : string := "'" +:+ s +:+ "'".

(** [repr(l)] for a list of such strings. *)
Definition repr_list (l : list string) : string :=
  "[" +:+ join ", " (map repr l) +:+ "]".

End PyStr.

(** ** Python values held by the configuration and status dictionaries

    The hotspot configuration comes from a YAML document, so a field may hold
    a string, an integer, a boolean or nothing at all. *)

Inductive pyval : Type :=
| PNone
| PBool (b : bool)
| PInt (n : Z)
| PStr (s : string).

(** [str(v)], which is also what an f-string placeholder [{v}] renders. *)
Definition py_str (v : pyval) : string :=
  match v with
  | PNone => "None"
  | PBool true => "True"
  | PBool false => "False"
  | PInt n => pretty n
  | PStr s => s
  end.

Definition type_name (v : pyval) : string :=
  match v with
  | PNone => "NoneType"
  | PBool _ => "bool"
  | PInt _ => "int"
  | PStr _ => "str"
  end.

(** [d.get(k)] and [d.get(k, dflt)] on a dictionary with string keys. *)
Definition dict_get (d : gmap string pyval) (k : string) : pyval :=
  default PNone (d !! k).

Definition dict_get_or (d : gmap string pyval) (k : string) (dflt : pyval) : pyval :=
  default dflt (d !! k).

(** ** Exceptions

    [src/exceptions.py] declares [HotspotError]; the others are the library
    exceptions the manager's handlers meet.  All of them derive from
    [Exception], so [except Exception] and a bare [except] catch every [exn]. *)

Inductive exn : Type :=
| OSError (msg : string)
| TimeoutExpired (msg : string)
| CalledProcessError (returncode : Z) (cmd : list string) (output stderr : string)
| TypeError (msg : string)
| AttributeError (msg : string)
| HotspotError (msg : string).

Inductive result (A : Type) : Type :=
| Ok (a : A)
| Raise (e : exn).
Arguments Ok {A} a.
Arguments Raise {A} e.

(** ** The manager object *)

(** A [subprocess.Popen] handle. *)
Definition popen : Type := positive.

Record Manager : Type := mkManager {
  interface : string;
  hotspot_config : gmap string pyval;
  hostapd_process : option popen;
  dnsmasq_process : option popen
}.

Definition set_hostapd_process (v : option popen) (m : Manager) : Manager :=
  mkManager (interface m) (hotspot_config m) v (dnsmasq_process m).

Definition set_dnsmasq_process (v : option popen) (m : Manager) : Manager :=
  mkManager (interface m) (hotspot_config m) (hostapd_process m) v.

(** ** System calls

    What a library call may raise by itself: [subprocess.TimeoutExpired], or
    some other exception ([OSError] when a program cannot be launched or a
    file cannot be opened or removed).  [CalledProcessError] is not among
    them: [subprocess.run] raises it only under [check=True], which is part
    of the manager's code below. *)

Inductive os_fault : Type :=
| FaultError (msg : string)
| FaultTimeout (msg : string).

Definition exn_of_fault (f : os_fault) : exn :=
  match f with
  | FaultError msg => OSError msg
  | FaultTimeout msg => TimeoutExpired msg
  end.

Inductive outcome (A : Type) : Type :=
| Returned (a : A)
| Raised (f : os_fault).
Arguments Returned {A} a.
Arguments Raised {A} f.

(** [subprocess.CompletedProcess] with captured output. *)
Record completed : Type := Completed {
  returncode : Z;
  stdout : string;
  stderr : string
}.

Inductive syscall : Type :=
| Run (cmd : list string) (timeout : option Z)
      (** [subprocess.run(cmd, capture_output=True[, timeout=t])] *)
| WriteFile (path content : string)
      (** [with open(path, 'w') as f: f.write(content)] *)
| PathExists (path : string)   (** [os.path.exists(path)] *)
| Remove (path : string)       (** [os.remove(path)] *)
| Sleep (secs : Z)             (** [time.sleep(secs)] *)
| Terminate (p : popen)        (** [p.terminate()] *)
| Wait (p : popen) (timeout : Z)  (** [p.wait(timeout=t)] *)
| Kill (p : popen).            (** [p.kill()] *)

Definition ret_ty (c : syscall) : Type :=
  match c with
  | Run _ _ => outcome completed
  | WriteFile _ _ => outcome unit
  | PathExists _ => bool
  | Remove _ => outcome unit
  | Sleep _ => unit
  | Terminate _ => outcome unit
  | Wait _ _ => outcome Z
  | Kill _ => outcome unit
  end.

Inductive level : Type := INFO | WARNING | ERROR.

(** ** Programs

    A method body is a tree: it returns, performs a system call and goes on
    with the answer, reads or writes the fields of [self], or emits a log
    record. *)

Inductive prog (A : Type) : Type :=
| Ret (a : A)
| Sys (c : syscall) (k : ret_ty c -> prog A)
| GetSelf (k : Manager -> prog A)
| SetSelf (m : Manager) (k : prog A)
| Log (lvl : level) (msg : string) (k : prog A).
Arguments Ret {A} a.
Arguments Sys {A} c k.
Arguments GetSelf {A} k.
Arguments SetSelf {A} m k.
Arguments Log {A} lvl msg k.

Fixpoint bind {A B : Type} (p : prog A) (f : A -> prog B) : prog B :=
  match p with
  | Ret a => f a
  | Sys c k => Sys c (fun r => bind (k r) f)
  | GetSelf k => GetSelf (fun m => bind (k m) f)
  | SetSelf m k => SetSelf m (bind k f)
  | Log lvl msg k => Log lvl msg (bind k f)
  end.

(** A method that may raise. *)
Definition M (A : Type) : Type := prog (result A).

Definition ret {A : Type} (a : A) : M A := Ret (Ok a).

Definition raise {A : Type} (e : exn) : M A := Ret (Raise e).

Definition mbind {A B : Type} (p : M A) (f : A -> M B) : M B :=
  bind p (fun r => match r with
                   | Ok a => f a
                   | Raise e => Ret (Raise e)
                   end).

(** [try: p  except Exception as e: h e] *)
Definition try_except {A : Type} (p : M A) (h : exn -> M A) : M A :=
  bind p (fun r => match r with
                   | Ok a => Ret (Ok a)
                   | Raise e => h e
                   end).

Declare Scope py_scope.
Delimit Scope py_scope with py.
Notation "'let*' x := p 'in' k" := (mbind p (fun x => k))
  (at level 10, x pattern, p at level 100, k at level 200) : py_scope.
Notation "p ;; k" := (mbind p (fun _ => k))
  (at level 100, k at level 200, right associativity) : py_scope.
Open Scope py_scope.

Definition sys (c : syscall) : prog (ret_ty c) := Sys c Ret.

Definition get_self : M Manager := GetSelf (fun m => ret m).

Definition modify_self (f : Manager -> Manager) : M unit :=
  GetSelf (fun m => SetSelf (f m) (ret tt)).

Definition log (lvl : level) (msg : string) : M unit := Log lvl msg (ret tt).

Definition when (b : bool) (p : M unit) : M unit := if b then p else ret tt.

Fixpoint for_each {A : Type} (l : list A) (body : A -> M unit) : M unit :=
  match l with
  | [] => ret tt
  | x :: l' => body x ;; for_each l' body
  end.

(** ** The host

    Everything outside the program: the operating system, which answers
    system calls and changes as it pleases while doing so, and two facts of
    the Python runtime on that host, namely how [signal.Signals] prints a
    signal number ([None]: not a valid signal) and the offset of local time
    from UTC at a given instant, in seconds. *)

Class Host : Type := {
  world : Type;
  perform : forall c : syscall, world -> ret_ty c * world;
  signal_repr : Z -> option string;
  utc_offset : Z -> Z;
  utc_offset_bound : forall t : Z, -86400 < utc_offset t < 86400
}.

Inductive event : Type :=
| EvSys (c : syscall)
| EvLog (lvl : level) (msg : string).

(** The commands and file operations of a trace, log records dropped. *)
Fixpoint syscalls (t : list event) : list syscall :=
  match t with
  | [] => []
  | EvSys c :: t' => c :: syscalls t'
  | EvLog _ _ :: t' => syscalls t'
  end.

Section Execution.
Context `{H : Host}.

Record state : Type := mkState {
  os : world;
  self : Manager;
  trace : list event
}.

Definition record (ev : event) (s : state) : state :=
  mkState (os s) (self s) (trace s ++ [ev])%list.

(** Running a program: system calls are answered by the host, and every
    call and log record is appended to the trace. *)
Fixpoint exec {A : Type} (p : prog A) (s : state) : A * state :=
  match p with
  | Ret a => (a, s)
  | Sys c k =>
      let (r, w) := perform c (os s) in
      exec (k r) (mkState w (self s) (trace s ++ [EvSys c])%list)
  | GetSelf k => exec (k (self s)) s
  | SetSelf m k => exec k (mkState (os s) m (trace s))
  | Log lvl msg k => exec k (record (EvLog lvl msg) s)
  end.

End Execution.

(** ** [class HotspotManager] *)

Section HotspotManager.
Context `{H : Host}.

(** [str(e)].  [CalledProcessError.__str__] names the signal when the return
    code is negative. *)
Definition str_exn (e : exn) : string :=
  match e with
  | OSError msg | TimeoutExpired msg | TypeError msg
  | AttributeError msg | HotspotError msg => msg
  | CalledProcessError rc cmd _ _ =>
      if rc <? 0 then
        match signal_repr (- rc) with
        | Some sig =>
            "Command '" +:+ PyStr.repr_list cmd +:+ "' died with " +:+ sig +:+ "."
        | None =>
            "Command '" +:+ PyStr.repr_list cmd +:+ "' died with unknown signal "
            +:+ pretty (- rc) +:+ "."
        end
      else
        "Command '" +:+ PyStr.repr_list cmd +:+ "' returned non-zero exit status "
        +:+ pretty rc +:+ "."
  end.

(** [subprocess.run(cmd, capture_output=True, timeout=..., check=...)] *)
Definition subprocess_run (cmd : list string) (timeout : option Z) (check : bool)
  : M completed :=
  Sys (Run cmd timeout) (fun r =>
    match r with
    | Returned c =>
        if check && negb (returncode c =? 0)
        then raise (CalledProcessError (returncode c) cmd (stdout c) (stderr c))
        else ret c
    | Raised f => raise (exn_of_fault f)
    end).

Definition lift_outcome {A : Type} (r : outcome A) : M A :=
  match r with
  | Returned a => ret a
  | Raised f => raise (exn_of_fault f)
  end.

Definition write_file (path content : string) : M unit :=
  bind (sys (WriteFile path content)) lift_outcome.

Definition path_exists (path : string) : M bool :=
  bind (sys (PathExists path)) ret.

Definition os_remove (path : string) : M unit :=
  bind (sys (Remove path)) lift_outcome.

Definition sleep (secs : Z) : M unit :=
  bind (sys (Sleep secs)) ret.

Definition popen_terminate (p : popen) : M unit :=
  bind (sys (Terminate p)) lift_outcome.

Definition popen_wait (p : popen) (timeout : Z) : M Z :=
  bind (sys (Wait p timeout)) lift_outcome.

Definition popen_kill (p : popen) : M unit :=
  bind (sys (Kill p)) lift_outcome.

(** [v in s] where [s] is a [str]: a substring test, and a [TypeError] when
    the left operand is not a string. *)
Definition py_in (v : pyval) (s : string) : M bool :=
  match v with
  | PStr sub => ret (PyStr.contains sub s)
  | _ => raise (TypeError ("'in <string>' requires string as left operand, not "
                           +:+ type_name v))
  end.

(** What [ConfigManager.load_hotspot_config] handed back to [_load_config]. *)
Inductive load_result : Type :=
| Loaded (cfg : gmap string pyval)
| LoadFailed (e : exn).

Definition default_hotspot_config : gmap string pyval :=
  <["ssid" := PStr "pibridge"]>
  (<["password" := PStr "pibridge123"]>
  (<["interface" := PStr "wlan0"]>
  (<["ip_address" := PStr "192.168.4.1"]>
  (<["dhcp_start" := PStr "192.168.4.10"]>
  (<["dhcp_end" := PStr "192.168.4.50"]>
  (<["channel" := PInt 6]>
  (<["country_code" := PStr "US"]> ∅))))))).

Definition set_hotspot_config (cfg : gmap string pyval) (m : Manager) : Manager :=
  mkManager (interface m) cfg (hostapd_process m) (dnsmasq_process m).

Definition _load_config (r : load_result) : M unit :=
  match r with
  | Loaded cfg =>
      modify_self (set_hotspot_config cfg) ;;
      log INFO "Hotspot configuration loaded"
  | LoadFailed e =>
      log ERROR ("Failed to load hotspot config: " +:+ str_exn e) ;;
      modify_self (set_hotspot_config default_hotspot_config)
  end.

Definition __init__ (r : load_result) : M unit :=
  SetSelf (mkManager "wlan0" ∅ None None) (_load_config r).

Definition _check_sudo_access : M bool :=
  try_except
    (let* result := subprocess_run ["sudo"; "-n"; "true"] (Some 5) false in
     ret (returncode result =? 0))
    (fun _ => ret false).

Definition is_hotspot_active : M bool :=
  try_except
    (let* result := subprocess_run ["pgrep"; "-f"; "hostapd"] None false in
     if returncode result =? 0 then
       let* this := get_self in
       let* result := subprocess_run ["ip"; "addr"; "show"; interface this] None true in
       let* found := py_in (dict_get (hotspot_config this) "ip_address") (stdout result) in
       if found then ret true else ret false
     else ret false)
    (fun e =>
       log ERROR ("Error checking hotspot status: " +:+ str_exn e) ;;
       ret false).

Definition sudo_prefix (sudo_available : bool) : list string :=
  if sudo_available then ["sudo"] else [].

Definition _disconnect_wifi : M unit :=
  try_except
    (let* sudo_available := _check_sudo_access in
     let* this := get_self in
     let cmd := (sudo_prefix sudo_available ++ ["nmcli"; "dev"; "disconnect"; interface this])%list in
     let* _ := subprocess_run cmd (Some 10) false in
     log INFO "WiFi disconnected to free interface")
    (fun e =>
       match e with
       | TimeoutExpired _ => log WARNING "WiFi disconnect timeout"
       | _ => log WARNING ("Error disconnecting WiFi: " +:+ str_exn e)
       end).

Definition permission_denied_msg : string :=
  "Permission denied. Hotspot requires sudo privileges to configure network interfaces.".

Definition _configure_interface_ip : M unit :=
  try_except
    (let* sudo_available := _check_sudo_access in
     (if negb sudo_available then
        let error_msg :=
          "Hotspot startup requires sudo privileges. Please run with sudo or as root." in
        log ERROR ("✗ " +:+ error_msg) ;;
        raise (HotspotError error_msg)
      else ret tt) ;;
     let cmd_prefix := sudo_prefix sudo_available in
     let* this := get_self in
     let iface := interface this in
     let* result := subprocess_run ["ip"; "link"; "show"; iface] None false in
     (if negb (returncode result =? 0) then
        let error_msg := "Wireless interface " +:+ iface +:+ " not found" in
        log ERROR ("✗ " +:+ error_msg) ;;
        raise (HotspotError error_msg)
      else ret tt) ;;
     log INFO ("✓ Interface " +:+ iface +:+ " found") ;;
     let cmd := (cmd_prefix ++ ["ip"; "addr"; "flush"; "dev"; iface])%list in
     log INFO ("Executing: " +:+ PyStr.join " " cmd) ;;
     let* result := subprocess_run cmd None false in
     when (negb (returncode result =? 0))
          (log WARNING ("IP flush warning: " +:+ stderr result)) ;;
     let ip := dict_get_or (hotspot_config this) "ip_address" (PStr "192.168.4.1") in
     let cmd := (cmd_prefix ++ ["ip"; "addr"; "add"; py_str ip +:+ "/24"; "dev"; iface])%list in
     log INFO ("Executing: " +:+ PyStr.join " " cmd) ;;
     let* result := subprocess_run cmd None false in
     (if negb (returncode result =? 0) then
        let error_msg := "Failed to add IP address: " +:+ stderr result in
        log ERROR ("✗ " +:+ error_msg) ;;
        raise (HotspotError error_msg)
      else ret tt) ;;
     let cmd := (cmd_prefix ++ ["ip"; "link"; "set"; iface; "up"])%list in
     log INFO ("Executing: " +:+ PyStr.join " " cmd) ;;
     let* result := subprocess_run cmd None false in
     (if negb (returncode result =? 0) then
        let error_msg := "Failed to bring interface up: " +:+ stderr result in
        log ERROR ("✗ " +:+ error_msg) ;;
        raise (HotspotError error_msg)
      else ret tt) ;;
     let* result := subprocess_run ["ip"; "addr"; "show"; iface] None false in
     let* found := py_in ip (stdout result) in
     if found then
       log INFO ("✓ Interface " +:+ iface +:+ " configured with IP " +:+ py_str ip)
     else
       raise (HotspotError ("Interface configuration verification failed for IP "
                            +:+ py_str ip)))
    (fun e =>
       match e with
       | CalledProcessError _ _ _ _ =>
           let error_msg := PyStr.strip (str_exn e) in
           log ERROR ("✗ Failed to configure interface IP: " +:+ error_msg) ;;
           if PyStr.contains "Operation not permitted" error_msg
              || PyStr.contains "Permission denied" error_msg
           then raise (HotspotError permission_denied_msg)
           else raise (HotspotError ("Failed to configure interface: " +:+ error_msg))
       | _ => raise e
       end).

Definition nl : string := String PyStr.newline EmptyString.

Definition hostapd_conf_path : string := "/tmp/pibridge_hostapd.conf".
Definition dnsmasq_conf_path : string := "/tmp/pibridge_dnsmasq.conf".
Definition hostapd_log_path : string := "/tmp/hostapd.log".

(** The text of the f-string in [_create_hostapd_config]. *)
Definition hostapd_config_content (this : Manager) : string :=
  let cfg := hotspot_config this in
  "# PiBridge Hotspot Configuration" +:+ nl +:+
  "interface=" +:+ interface this +:+ nl +:+
  "driver=nl80211" +:+ nl +:+
  "ssid=" +:+ py_str (dict_get_or cfg "ssid" (PStr "pibridge")) +:+ nl +:+
  "hw_mode=g" +:+ nl +:+
  "channel=" +:+ py_str (dict_get_or cfg "channel" (PInt 6)) +:+ nl +:+
  "macaddr_acl=0" +:+ nl +:+
  "auth_algs=1" +:+ nl +:+
  "ignore_broadcast_ssid=0" +:+ nl +:+
  "wpa=2" +:+ nl +:+
  "wpa_passphrase=" +:+ py_str (dict_get_or cfg "password" (PStr "pibridge123")) +:+ nl +:+
  "wpa_key_mgmt=WPA-PSK" +:+ nl +:+
  "wpa_pairwise=TKIP" +:+ nl +:+
  "rsn_pairwise=CCMP" +:+ nl +:+
  "country_code=" +:+ py_str (dict_get_or cfg "country_code" (PStr "US")) +:+ nl.

(** The text of the f-string in [_create_dnsmasq_config]. *)
Definition dnsmasq_config_content (this : Manager) : string :=
  let cfg := hotspot_config this in
  "# PiBridge DHCP Configuration" +:+ nl +:+
  "interface=" +:+ interface this +:+ nl +:+
  "dhcp-range=" +:+ py_str (dict_get_or cfg "dhcp_start" (PStr "192.168.4.10")) +:+ ","
    +:+ py_str (dict_get_or cfg "dhcp_end" (PStr "192.168.4.50"))
    +:+ ",255.255.255.0,12h" +:+ nl +:+
  "dhcp-option=3," +:+ py_str (dict_get_or cfg "ip_address" (PStr "192.168.4.1")) +:+ nl +:+
  "dhcp-option=6," +:+ py_str (dict_get_or cfg "ip_address" (PStr "192.168.4.1")) +:+ nl +:+
  "server=8.8.8.8" +:+ nl +:+
  "log-queries" +:+ nl +:+
  "log-dhcp" +:+ nl.

Definition _create_hostapd_config : M unit :=
  try_except
    (let config_path := hostapd_conf_path in
     let* this := get_self in
     let config_content := hostapd_config_content this in
     write_file config_path config_content ;;
     log INFO ("Created hostapd config at " +:+ config_path))
    (fun e =>
       log ERROR ("Failed to create hostapd config: " +:+ str_exn e) ;;
       raise (HotspotError ("Failed to create hostapd config: " +:+ str_exn e))).

Definition _create_dnsmasq_config : M unit :=
  try_except
    (let config_path := dnsmasq_conf_path in
     let* this := get_self in
     let config_content := dnsmasq_config_content this in
     write_file config_path config_content ;;
     log INFO ("Created dnsmasq config at " +:+ config_path))
    (fun e =>
       log ERROR ("Failed to create dnsmasq config: " +:+ str_exn e) ;;
       raise (HotspotError ("Failed to create dnsmasq config: " +:+ str_exn e))).

(** [e.stderr.decode('utf-8', errors='replace')] where the captured stream
    is a [str] (the launch ran with [text=True]): [str] has no [decode]. *)
Definition str_decode (s : string) : M string :=
  raise (AttributeError "'str' object has no attribute 'decode'").

(** [x.decode(...).strip() if x else ''] on such a stream. *)
Definition decoded_text (x : string) : M string :=
  match x with
  | EmptyString => ret EmptyString
  | _ => let* d := str_decode x in ret (PyStr.strip d)
  end.

Definition nonempty (s : string) : bool :=
  match s with
  | EmptyString => false
  | _ => true
  end.

(** The first line of the probe's output, or ['unknown'] when it is blank
    ([pgrep] prints decimal process ids, one per line). *)
Definition first_pid (out : string) : string :=
  if nonempty (PyStr.strip out)
  then hd EmptyString (PyStr.lines (PyStr.strip out))
  else "unknown".

(** The common shape of [_start_hostapd] and [_start_dnsmasq]: [name] is the
    daemon, [args] its arguments. *)
Definition start_daemon (name : string) (args : list string) : M unit :=
  try_except
    (let* sudo_available := _check_sudo_access in
     let cmd := (sudo_prefix sudo_available ++ name :: args)%list in
     log INFO ("Executing: " +:+ PyStr.join " " cmd) ;;
     let* result := subprocess_run cmd None true in
     sleep 1 ;;
     let* check_result := subprocess_run ["pgrep"; "-f"; name] None false in
     (if negb (returncode check_result =? 0)
      then raise (HotspotError (name +:+ " process not found after startup command"))
      else ret tt) ;;
     let pid := first_pid (stdout check_result) in
     log INFO ("✓ " +:+ name +:+ " started successfully (PID: " +:+ pid +:+ ")"))
    (fun e =>
       match e with
       | CalledProcessError rc _ out err =>
           log ERROR ("✗ Failed to start " +:+ name +:+ " (return code: "
                      +:+ pretty rc +:+ ")") ;;
           let* stderr_text := decoded_text err in
           let* stdout_text := decoded_text out in
           when (nonempty stderr_text) (log ERROR ("stderr: " +:+ stderr_text)) ;;
           when (nonempty stdout_text) (log ERROR ("stdout: " +:+ stdout_text)) ;;
           raise (HotspotError ("Failed to start " +:+ name +:+ ": " +:+ str_exn e))
       | _ => raise e
       end).

Definition _start_hostapd : M unit :=
  start_daemon "hostapd" ["-B"; "-f"; hostapd_log_path; hostapd_conf_path].

Definition _start_dnsmasq : M unit :=
  start_daemon "dnsmasq" ["-C"; dnsmasq_conf_path].

Definition _cleanup_config_files : M unit :=
  try_except
    (let files := [hostapd_conf_path; dnsmasq_conf_path; hostapd_log_path] in
     for_each files (fun file_path =>
       let* present := path_exists file_path in
       when present (os_remove file_path)) ;;
     log INFO "Configuration files cleaned up")
    (fun e => log WARNING ("Error cleaning up config files: " +:+ str_exn e)).

(** [p.terminate()], [p.wait(timeout=5)], and [p.kill()] when the wait
    times out. *)
Definition terminate_handle (p : popen) : M unit :=
  popen_terminate p ;;
  try_except
    (let* _ := popen_wait p 5 in ret tt)
    (fun e =>
       match e with
       | TimeoutExpired _ => popen_kill p
       | _ => raise e
       end).

Definition stop_hotspot : M bool :=
  try_except
    (log INFO "Stopping WiFi hotspot..." ;;
     let* this := get_self in
     match hostapd_process this with
     | Some p => terminate_handle p ;; modify_self (set_hostapd_process None)
     | None => ret tt
     end ;;
     let* this := get_self in
     match dnsmasq_process this with
     | Some p => terminate_handle p ;; modify_self (set_dnsmasq_process None)
     | None => ret tt
     end ;;
     let* _ := subprocess_run ["pkill"; "-f"; "hostapd"] None false in
     let* _ := subprocess_run ["pkill"; "-f"; "dnsmasq"] None false in
     _cleanup_config_files ;;
     log INFO "Hotspot stopped successfully" ;;
     ret true)
    (fun e =>
       log ERROR ("Error stopping hotspot: " +:+ str_exn e) ;;
       ret false).

Definition sudo_required_msg : string :=
  "Hotspot functionality requires sudo privileges. Please run the web interface as root or with appropriate permissions.".

(** The body of the [try] block of [start_hotspot]. *)
Definition start_pipeline : M bool :=
  log INFO "=== Starting WiFi Hotspot Process ===" ;;
  let* active := is_hotspot_active in
  if active then
    log INFO "Hotspot is already running" ;;
    ret true
  else
    let* sudo_ok := _check_sudo_access in
    (if negb sudo_ok then
       log ERROR ("Access check failed: " +:+ sudo_required_msg) ;;
       raise (HotspotError sudo_required_msg)
     else ret tt) ;;
    log INFO "✓ Sudo access verified" ;;
    log INFO "Step 1/6: Disconnecting WiFi..." ;;
    _disconnect_wifi ;;
    log INFO "Step 2/6: Configuring interface IP..." ;;
    _configure_interface_ip ;;
    log INFO "Step 3/6: Creating configuration files..." ;;
    _create_hostapd_config ;;
    _create_dnsmasq_config ;;
    log INFO "Step 4/6: Starting hostapd..." ;;
    _start_hostapd ;;
    log INFO "Step 5/6: Starting dnsmasq..." ;;
    _start_dnsmasq ;;
    log INFO "Step 6/6: Verifying startup..." ;;
    sleep 3 ;;
    let* active := is_hotspot_active in
    if active then
      let* this := get_self in
      log INFO "✓ Hotspot started successfully" ;;
      log INFO ("  SSID: " +:+ py_str (dict_get (hotspot_config this) "ssid")) ;;
      log INFO ("  Interface: " +:+ interface this) ;;
      log INFO ("  IP Address: " +:+ py_str (dict_get (hotspot_config this) "ip_address")) ;;
      ret true
    else
      let error_msg := "Hotspot failed to start properly - verification failed" in
      log ERROR ("✗ " +:+ error_msg) ;;
      raise (HotspotError error_msg).

(** The [except Exception as e] block of [start_hotspot]. *)
Definition start_failed (e : exn) : M bool :=
  log ERROR ("✗ Failed to start hotspot: " +:+ str_exn e) ;;
  log INFO "Cleaning up failed startup..." ;;
  let* _ := stop_hotspot in
  raise (HotspotError ("Failed to start hotspot: " +:+ str_exn e)).

Definition start_hotspot : M bool :=
  try_except start_pipeline start_failed.

(** [len([line for line in lines if needle in line])] *)
Fixpoint count_lines_with (needle : pyval) (ls : list string) : M Z :=
  match ls with
  | [] => ret 0
  | line :: ls' =>
      let* hit := py_in needle line in
      let* n := count_lines_with needle ls' in
      ret (if hit then 1 + n else n)
  end.

Definition get_hotspot_info : M (gmap string pyval) :=
  try_except
    (let* active := is_hotspot_active in
     let* this := get_self in
     let cfg := hotspot_config this in
     if negb active then
       ret (<["active" := PBool false]>
            (<["ssid" := dict_get cfg "ssid"]>
            (<["interface" := PStr (interface this)]>
            (<["ip_address" := dict_get cfg "ip_address"]> ∅))))
     else
       let* clients_count :=
         try_except
           (let* result := subprocess_run ["arp"; "-an"] None true in
            count_lines_with (dict_get_or cfg "ip_address" (PStr "192.168.4."))
                             (PyStr.lines (stdout result)))
           (fun _ => ret 0) in
       ret (<["active" := PBool true]>
            (<["ssid" := dict_get cfg "ssid"]>
            (<["interface" := PStr (interface this)]>
            (<["ip_address" := dict_get cfg "ip_address"]>
            (<["channel" := dict_get cfg "channel"]>
            (<["clients_count" := PInt clients_count]> ∅)))))))
    (fun e =>
       log ERROR ("Error getting hotspot info: " +:+ str_exn e) ;;
       ret (<["active" := PBool false]> (<["error" := PStr (str_exn e)]> ∅))).

(** [class HotspotStatus].  Its attribute [interface] is [status_interface]
    here, the shorter name being the field of the manager. *)
Record HotspotStatus : Type := mkHotspotStatus {
  active : pyval;
  ssid : pyval;
  status_interface : pyval;
  ip_address : pyval;
  clients : pyval
}.

Definition get_status : M HotspotStatus :=
  let* info := get_hotspot_info in
  ret (mkHotspotStatus
         (dict_get_or info "active" (PBool false))
         (dict_get_or info "ssid" (PStr "pibridge"))
         (dict_get_or info "interface" (PStr "wlan0"))
         (dict_get_or info "ip_address" (PStr "192.168.4.1"))
         (dict_get_or info "clients_count" (PInt 0))).

(** *** Lease records *)

(** [datetime.datetime.fromtimestamp(t)]: days since 1970-01-01 to a civil
    date of the proleptic Gregorian calendar. *)
Definition civil_from_days (days : Z) : Z * Z * Z :=
  let z := days + 719468 in
  let era := z / 146097 in
  let doe := z - era * 146097 in
  let yoe := (doe - doe / 1460 + doe / 36524 - doe / 146096) / 365 in
  let doy := doe - (365 * yoe + yoe / 4 - yoe / 100) in
  let mp := (5 * doy + 2) / 153 in
  let d := doy - (153 * mp + 2) / 5 + 1 in
  let m := if mp <? 10 then mp + 3 else mp - 9 in
  let y := yoe + era * 400 + (if m <=? 2 then 1 else 0) in
  (y, m, d).

Definition digit (n : Z) : ascii := ascii_of_nat (48 + Z.to_nat (n mod 10)).

Definition two_digits (n : Z) : string :=
  String (digit (n / 10)) (String (digit n) EmptyString).

Definition four_digits (n : Z) : string :=
  String (digit (n / 1000)) (String (digit (n / 100)) (two_digits n)).

(** [fromtimestamp(timestamp).strftime('%Y-%m-%d %H:%M:%S')] in local time;
    [datetime] holds years 1 to 9999 and raises beyond, which the bare
    [except] turns into ['unknown']. *)
Definition _format_timestamp (timestamp : Z) : string :=
  let local := timestamp + utc_offset timestamp in
  let secs := local mod 86400 in
  let '(y, m, d) := civil_from_days (local / 86400) in
  if (1 <=? y) && (y <=? 9999) then
    four_digits y +:+ "-" +:+ two_digits m +:+ "-" +:+ two_digits d +:+ " " +:+
    two_digits (secs / 3600) +:+ ":" +:+ two_digits (secs mod 3600 / 60) +:+ ":" +:+
    two_digits (secs mod 60)
  else "unknown".

(** One element of the list [get_connected_clients] returns. *)
Record ClientLease : Type := mkClientLease {
  mac : string;
  ip : string;
  hostname : string;
  connected_since : string
}.

(** The body of [for lease in leases]: a record, or nothing for a line with
    fewer than three fields. *)
Definition parse_lease (lease : string) : option ClientLease :=
  match PyStr.split lease with
  | timestamp :: mac :: ip :: rest =>
      Some (mkClientLease mac ip
              (match rest with
               | hostname :: _ => hostname
               | [] => "unknown"
               end)
              (if PyStr.isdigit timestamp
               then _format_timestamp (PyStr.int timestamp)
               else "unknown"))
  | _ => None
  end.

Definition parse_leases (out : string) : list ClientLease :=
  omap parse_lease (List.filter nonempty (PyStr.lines out)).

Definition lease_files : list string :=
  ["/var/lib/misc/dnsmasq.leases"; "/tmp/dnsmasq.leases";
   "/var/run/dnsmasq/dnsmasq.leases"].

Inductive loop_ctl : Type := Break | Continue.

(** One turn of [for lease_file in lease_files]: [break] once a [cat] exits
    with 0, go on with the next file when it exits otherwise, [continue]
    when it raises. *)
Definition read_lease_file (lease_file : string) (clients : list ClientLease)
  : M (loop_ctl * list ClientLease) :=
  try_except
    (let* result := subprocess_run ["sudo"; "cat"; lease_file] (Some 5) false in
     if returncode result =? 0
     then ret (Break, (clients ++ parse_leases (stdout result))%list)
     else ret (Continue, clients))
    (fun _ => ret (Continue, clients)).

Fixpoint read_lease_files (files : list string) (clients : list ClientLease)
  : M (list ClientLease) :=
  match files with
  | [] => ret clients
  | lease_file :: files' =>
      let* (ctl, clients') := read_lease_file lease_file clients in
      match ctl with
      | Break => ret clients'
      | Continue => read_lease_files files' clients'
      end
  end.

Definition get_connected_clients : M (list ClientLease) :=
  try_except
    (read_lease_files lease_files [])
    (fun e =>
       log WARNING ("Could not get connected clients: " +:+ str_exn e) ;;
       ret []).

Definition get_interface : M string :=
  let* this := get_self in ret (interface this).

End HotspotManager.

(** [x in l] for a list of strings. *)
Definition mem (x : string) (l : list string) : bool :=
  existsb (String.eqb x) l.

(** ** A simulated host

    A small operating system to run the manager on: one wireless interface,
    a process table, a file system, and switches for the faults a real host
    shows (no password-less sudo, no right to change the interface, programs
    that cannot be launched, paths that cannot be written or removed). *)

Module Sim.

Record os_state : Type := mkOs {
  sudo_ok : bool;                  (** [sudo -n] works *)
  net_admin : bool;                (** addresses and links may be changed *)
  iface_present : bool;            (** [wlan0] exists *)
  addrs : list string;             (** addresses of [wlan0], as [a.b.c.d/len] *)
  procs : list (Z * string);       (** process id and command line *)
  next_pid : Z;
  files : gmap string string;      (** path and content *)
  arp_table : string;              (** what [arp -an] prints *)
  unlaunchable : list string;      (** programs whose launch raises *)
  locked : list string             (** paths that refuse writes and removals *)
}.

Definition with_addrs (a : list string) (w : os_state) : os_state :=
  mkOs (sudo_ok w) (net_admin w) (iface_present w) a (procs w) (next_pid w)
       (files w) (arp_table w) (unlaunchable w) (locked w).

Definition with_procs (p : list (Z * string)) (n : Z) (w : os_state) : os_state :=
  mkOs (sudo_ok w) (net_admin w) (iface_present w) (addrs w) p n
       (files w) (arp_table w) (unlaunchable w) (locked w).

Definition with_files (f : gmap string string) (w : os_state) : os_state :=
  mkOs (sudo_ok w) (net_admin w) (iface_present w) (addrs w) (procs w) (next_pid w)
       f (arp_table w) (unlaunchable w) (locked w).

Definition done (rc : Z) (out err : string) (w : os_state)
  : outcome completed * os_state :=
  (Returned (Completed rc out err), w).

Definition matching (pat : string) (w : os_state) : list (Z * string) :=
  List.filter (fun p => PyStr.contains pat (snd p)) (procs w).

Definition pid_lines (ps : list (Z * string)) : string :=
  String.concat EmptyString (map (fun p => pretty (fst p) +:+ nl) ps).

Definition inet_lines (w : os_state) : string :=
  "3: wlan0: <BROADCAST,MULTICAST,UP,LOWER_UP> mtu 1500" +:+ nl +:+
  String.concat EmptyString (map (fun a => "    inet " +:+ a +:+ " scope global wlan0" +:+ nl)
                        (addrs w)).

Definition not_permitted : string := "RTNETLINK answers: Operation not permitted" +:+ nl.

(** A daemon started in the background: it needs its configuration file,
    and [hostapd] opens the log file named after [-f]. *)
Definition spawn (cmd : list string) (conf : string) (logs : list string)
                 (w : os_state) : outcome completed * os_state :=
  match files w !! conf with
  | Some _ =>
      done 0 EmptyString EmptyString
           (with_procs (procs w ++ [(next_pid w, PyStr.join " " cmd)])%list
                       (next_pid w + 1)
                       (with_files (foldr (fun f => <[f := EmptyString]>) (files w) logs) w))
  | None => done 1 EmptyString ("Could not open configuration file " +:+ conf +:+ nl) w
  end.

(** [ip ...] *)
Definition run_ip (args : list string) (w : os_state) : outcome completed * os_state :=
  match args with
  | [obj; verb; dev] =>
      if String.eqb verb "show" then
        if iface_present w && String.eqb dev "wlan0" then
          done 0 (if String.eqb obj "addr" then inet_lines w
                  else "3: wlan0: <BROADCAST,MULTICAST> mtu 1500" +:+ nl) EmptyString w
        else done 1 EmptyString ("Device " +:+ dev +:+ " does not exist." +:+ nl) w
      else done 255 EmptyString ("Command line is not complete." +:+ nl) w
  | [obj; verb; a; b] =>
      if String.eqb verb "flush" then
        if net_admin w then done 0 EmptyString EmptyString (with_addrs [] w)
        else done 2 EmptyString not_permitted w
      else if String.eqb verb "set" then
        if net_admin w then done 0 EmptyString EmptyString w else done 2 EmptyString not_permitted w
      else done 255 EmptyString EmptyString w
  | [obj; verb; a; kw; dev] =>
      if String.eqb verb "add" then
        if negb (net_admin w) then done 2 EmptyString not_permitted w
        else if mem a (addrs w) then
          done 2 EmptyString ("RTNETLINK answers: File exists" +:+ nl) w
        else done 0 EmptyString EmptyString (with_addrs (addrs w ++ [a])%list w)
      else done 255 EmptyString EmptyString w
  | _ => done 255 EmptyString EmptyString w
  end.

(** A command line without its [sudo] prefix. *)
Definition run_plain (cmd : list string) (w : os_state) : outcome completed * os_state :=
  match cmd with
  | [] => (Raised (FaultError "list index out of range"), w)
  | name :: args =>
      if mem name (unlaunchable w) then
        (Raised (FaultError ("[Errno 2] No such file or directory: "
                             +:+ PyStr.repr name)), w)
      else if String.eqb name "true" then done 0 EmptyString EmptyString w
      else if String.eqb name "pgrep" then
        match matching (List.last args EmptyString) w with
        | [] => done 1 EmptyString EmptyString w
        | ps => done 0 (pid_lines ps) EmptyString w
        end
      else if String.eqb name "pkill" then
        match matching (List.last args EmptyString) w with
        | [] => done 1 EmptyString EmptyString w
        | _ =>
            done 0 EmptyString EmptyString
                 (with_procs
                    (List.filter (fun p => negb (PyStr.contains (List.last args EmptyString) (snd p)))
                                 (procs w))
                    (next_pid w) w)
        end
      else if String.eqb name "ip" then run_ip args w
      else if String.eqb name "nmcli" then done 0 EmptyString EmptyString w
      else if String.eqb name "hostapd" then
        spawn cmd (List.last args EmptyString) [hostapd_log_path] w
      else if String.eqb name "dnsmasq" then
        spawn cmd (List.last args EmptyString) [] w
      else if String.eqb name "arp" then done 0 (arp_table w) EmptyString w
      else if String.eqb name "cat" then
        match files w !! List.last args EmptyString with
        | Some content => done 0 content EmptyString w
        | None => done 1 EmptyString ("cat: " +:+ List.last args EmptyString
                             +:+ ": No such file or directory" +:+ nl) w
        end
      else (Raised (FaultError ("[Errno 2] No such file or directory: "
                                +:+ PyStr.repr name)), w)
  end.

Definition run (cmd : list string) (w : os_state) : outcome completed * os_state :=
  match cmd with
  | name :: rest =>
      if String.eqb name "sudo" then
        if mem "sudo" (unlaunchable w) then
          (Raised (FaultError "[Errno 2] No such file or directory: 'sudo'"), w)
        else if sudo_ok w then
          match rest with
          | flag :: rest' => if String.eqb flag "-n" then run_plain rest' w
                             else run_plain rest w
          | [] => done 1 EmptyString EmptyString w
          end
        else done 1 EmptyString ("sudo: a password is required" +:+ nl) w
      else run_plain cmd w
  | [] => run_plain cmd w
  end.

Definition denied (path : string) : os_fault :=
  FaultError ("[Errno 13] Permission denied: " +:+ PyStr.repr path).

Definition answer (c : syscall) : os_state -> ret_ty c * os_state :=
  match c with
  | Run cmd _ => run cmd
  | WriteFile path content => fun w =>
      if mem path (locked w) then (Raised (denied path), w)
      else (Returned tt, with_files (<[path := content]> (files w)) w)
  | PathExists path => fun w => (bool_decide (is_Some (files w !! path)), w)
  | Remove path => fun w =>
      if mem path (locked w) then (Raised (denied path), w)
      else match files w !! path with
           | Some _ => (Returned tt, with_files (delete path (files w)) w)
           | None => (Raised (FaultError ("[Errno 2] No such file or directory: "
                                          +:+ PyStr.repr path)), w)
           end
  | Sleep _ => fun w => (tt, w)
  | Terminate _ => fun w => (Returned tt, w)
  | Wait _ _ => fun w => (Returned 0, w)
  | Kill _ => fun w => (Returned tt, w)
  end.

(** How Python prints the signals a daemon is usually stopped with. *)
Definition signals (n : Z) : option string :=
  if n =? 1 then Some "<Signals.SIGHUP: 1>"
  else if n =? 2 then Some "<Signals.SIGINT: 2>"
  else if n =? 9 then Some "<Signals.SIGKILL: 9>"
  else if n =? 15 then Some "<Signals.SIGTERM: 15>"
  else None.

(** A host whose clock runs on UTC. *)
#[export] Instance host : Host := {|
  world := os_state;
  perform := answer;
  signal_repr := signals;
  utc_offset := fun _ => 0;
  utc_offset_bound := fun _ => conj eq_refl eq_refl
|}.

(** A freshly booted device: nothing running, no address, nothing in [/tmp]. *)
Definition fresh : os_state :=
  mkOs true true true [] [] 500 ∅ EmptyString [] [].

(** The manager right after construction with this configuration. *)
Definition boot (cfg : gmap string pyval) (w : os_state) : state :=
  mkState w (mkManager "wlan0" cfg None None) [].

(** The device while the hotspot is up. *)
Definition up : os_state :=
  os (snd (exec start_hotspot (boot default_hotspot_config fresh))).

(** Nothing running, and the two configuration files of an earlier run
    still lying in [/tmp]. *)
Definition stale : os_state :=
  with_files (<[hostapd_conf_path := "interface=wlan0"]>
              (<[dnsmasq_conf_path := "interface=wlan0"]> ∅)) fresh.

Definition without_programs (names : list string) (w : os_state) : os_state :=
  mkOs (sudo_ok w) (net_admin w) (iface_present w) (addrs w) (procs w) (next_pid w)
       (files w) (arp_table w) names (locked w).

Definition with_locked (paths : list string) (w : os_state) : os_state :=
  mkOs (sudo_ok w) (net_admin w) (iface_present w) (addrs w) (procs w) (next_pid w)
       (files w) (arp_table w) (unlaunchable w) paths.

Definition without_net_admin (w : os_state) : os_state :=
  mkOs (sudo_ok w) false (iface_present w) (addrs w) (procs w) (next_pid w)
       (files w) (arp_table w) (unlaunchable w) (locked w).

End Sim.

(** ** The manager as a state machine

    A state of the system is reached by constructing a manager and then
    calling methods on it, while the host may change on its own between two
    calls.  Every method of the class is a possible call, the ones with a
    leading underscore included. *)

Inductive method : Type :=
| m_load_config (r : load_result)
| m_is_hotspot_active
| m_start_hotspot
| m_stop_hotspot
| m_disconnect_wifi
| m_configure_interface_ip
| m_check_sudo_access
| m_create_hostapd_config
| m_create_dnsmasq_config
| m_start_hostapd
| m_start_dnsmasq
| m_cleanup_config_files
| m_get_hotspot_info
| m_get_status
| m_get_connected_clients
| m_get_interface.

Section Machine.
Context `{H : Host}.

(** The state a call leaves behind; its result goes to the caller. *)
Definition invoke (c : method) (s : state) : state :=
  match c with
  | m_load_config r => snd (exec (_load_config r) s)
  | m_is_hotspot_active => snd (exec is_hotspot_active s)
  | m_start_hotspot => snd (exec start_hotspot s)
  | m_stop_hotspot => snd (exec stop_hotspot s)
  | m_disconnect_wifi => snd (exec _disconnect_wifi s)
  | m_configure_interface_ip => snd (exec _configure_interface_ip s)
  | m_check_sudo_access => snd (exec _check_sudo_access s)
  | m_create_hostapd_config => snd (exec _create_hostapd_config s)
  | m_create_dnsmasq_config => snd (exec _create_dnsmasq_config s)
  | m_start_hostapd => snd (exec _start_hostapd s)
  | m_start_dnsmasq => snd (exec _start_dnsmasq s)
  | m_cleanup_config_files => snd (exec _cleanup_config_files s)
  | m_get_hotspot_info => snd (exec get_hotspot_info s)
  | m_get_status => snd (exec get_status s)
  | m_get_connected_clients => snd (exec get_connected_clients s)
  | m_get_interface => snd (exec get_interface s)
  end.

Inductive reachable : state -> Prop :=
| reach_init (w : world) (m0 : Manager) (r : load_result) :
    reachable (snd (exec (__init__ r) (mkState w m0 [])))
| reach_call (s : state) (c : method) :
    reachable s -> reachable (invoke c s)
| reach_host (s : state) (w : world) :
    reachable s -> reachable (mkState w (self s) (trace s)).

(** *** Overlapping calls

    Two calls in flight on the same manager, as two threads of the web
    server have them: each thread runs its own program, one operation at a
    time, on the shared state.  A schedule says which thread moves next. *)

Definition step {A : Type} (p : prog A) (s : state) : prog A * state :=
  match p with
  | Ret a => (Ret a, s)
  | Sys c k =>
      let (r, w) := perform c (os s) in
      (k r, mkState w (self s) (trace s ++ [EvSys c])%list)
  | GetSelf k => (k (self s), s)
  | SetSelf m k => (k, mkState (os s) m (trace s))
  | Log lvl msg k => (k, record (EvLog lvl msg) s)
  end.

(** What the next operation of a program shows to the outside, if anything. *)
Definition next_event {A : Type} (p : prog A) : option event :=
  match p with
  | Sys c _ => Some (EvSys c)
  | Log lvl msg _ => Some (EvLog lvl msg)
  | _ => None
  end.

Inductive thread : Type := T1 | T2.

Record pool (A B : Type) : Type := mkPool {
  first : prog A;
  second : prog B;
  shared : state;
  journal : list (thread * event)   (** who did what, in order *)
}.
Arguments mkPool {A B} first second shared journal.
Arguments first {A B} p.
Arguments second {A B} p.
Arguments shared {A B} p.
Arguments journal {A B} p.

Definition note (t : thread) (ev : option event) (j : list (thread * event))
  : list (thread * event) :=
  match ev with
  | Some e => (j ++ [(t, e)])%list
  | None => j
  end.

Definition move {A B : Type} (t : thread) (c : pool A B) : pool A B :=
  match t with
  | T1 => let (p', s') := step (first c) (shared c) in
          mkPool p' (second c) s' (note T1 (next_event (first c)) (journal c))
  | T2 => let (q', s') := step (second c) (shared c) in
          mkPool (first c) q' s' (note T2 (next_event (second c)) (journal c))
  end.

Definition interleave {A B : Type} (sched : list thread) (c : pool A B) : pool A B :=
  fold_left (fun c t => move t c) sched c.

(** The commands of one thread in a journal. *)
Definition commands_of (t : thread) (j : list (thread * event)) : list syscall :=
  syscalls (map snd (List.filter (fun te => match fst te, t with
                                            | T1, T1 | T2, T2 => true
                                            | _, _ => false
                                            end) j)).

End Machine.

Arguments mkPool {H A B} first second shared journal.
Arguments first {H A B} p.
Arguments second {H A B} p.
Arguments shared {H A B} p.
Arguments journal {H A B} p.

(** The commands of a journal, each with the thread that issued it. *)
Fixpoint tagged_syscalls (j : list (thread * event)) : list (thread * syscall) :=
  match j with
  | [] => []
  | (t, EvSys c) :: j' => (t, c) :: tagged_syscalls j'
  | (_, EvLog _ _) :: j' => tagged_syscalls j'
  end.

(** The schedule that lets the two threads move in turn. *)
Fixpoint alternate (n : nat) : list thread :=
  match n with
  | O => []
  | S n' => T1 :: T2 :: alternate n'
  end.

(** ** What the probes report

    The two conditions of the activity check, as read off the host's answers
    to the probes: the name-pattern probe for the access-point daemon exits
    with 0, and the address listing of the interface exits with 0 and its
    text holds the configured address. *)

Definition pgrep_hostapd : syscall := Run ["pgrep"; "-f"; "hostapd"] None.

Definition ip_addr_show (iface : string) : syscall :=
  Run ["ip"; "addr"; "show"; iface] None.

Definition arp_an : syscall := Run ["arp"; "-an"] None.

Section Probes.
Context `{H : Host}.

Definition ap_daemon_found (w : world) : bool :=
  match fst (perform pgrep_hostapd w) with
  | Returned c => returncode c =? 0
  | Raised _ => false
  end.

Definition address_on_interface (this : Manager) (w : world) : bool :=
  match fst (perform (ip_addr_show (interface this)) w),
        dict_get (hotspot_config this) "ip_address" with
  | Returned c, PStr addr => (returncode c =? 0) && PyStr.contains addr (stdout c)
  | _, _ => false
  end.

End Probes.

(** ** Process handles

    A manager holds no handle when both process fields are [None]; a call of
    a handle's method is one of [terminate], [wait], [kill]. *)

Definition no_handle (m : Manager) : Prop :=
  hostapd_process m = None /\ dnsmasq_process m = None.

Definition handle_call (c : syscall) : bool :=
  match c with
  | Terminate _ | Wait _ _ | Kill _ => true
  | _ => false
  end.

(** A program that, on a manager that holds no handle, stores none and calls
    no method of one. *)
Fixpoint handle_free {A : Type} (p : prog A) : Prop :=
  match p with
  | Ret _ => True
  | Sys c k => handle_call c = false /\ forall r, handle_free (k r)
  | GetSelf k => forall m, no_handle m -> handle_free (k m)
  | SetSelf m k => no_handle m /\ handle_free k
  | Log _ _ k => handle_free k
  end.

(** The commands of [_configure_interface_ip], in the order of the source. *)
Definition configure_commands (this : Manager) : list syscall :=
  let iface := interface this in
  let addr := py_str (dict_get_or (hotspot_config this) "ip_address" (PStr "192.168.4.1")) in
  [Run ["sudo"; "-n"; "true"] (Some 5);
   Run ["ip"; "link"; "show"; iface] None;
   Run ["sudo"; "ip"; "addr"; "flush"; "dev"; iface] None;
   Run ["sudo"; "ip"; "addr"; "add"; addr +:+ "/24"; "dev"; iface] None;
   Run ["sudo"; "ip"; "link"; "set"; iface; "up"] None;
   Run ["ip"; "addr"; "show"; iface] None].

(** ** Configuration fields

    The fields of the hotspot configuration that the two documents render:
    the key, and the text right before and right after the value. *)

Definition hostapd_fields : list (string * string * string) :=
  [("ssid", "ssid=", nl);
   ("channel", "channel=", nl);
   ("password", "wpa_passphrase=", nl);
   ("country_code", "country_code=", nl)].

Definition dnsmasq_fields : list (string * string * string) :=
  [("dhcp_start", "dhcp-range=", ",");
   ("dhcp_end", ",", ",255.255.255.0,12h");
   ("ip_address", "dhcp-option=3,", nl);
   ("ip_address", "dhcp-option=6,", nl)].

(** ** Lease files

    The records of the first candidate file that [sudo cat] reads with exit
    code 0, the candidates being tried in order; nothing when none is read. *)

Fixpoint first_readable `{H : Host} (files : list string) (w : world)
  : list ClientLease :=
  match files with
  | [] => []
  | lease_file :: files' =>
      match perform (Run ["sudo"; "cat"; lease_file] (Some 5)) w with
      | (Returned c, w') =>
          if returncode c =? 0 then parse_leases (stdout c)
          else first_readable files' w'
      | (Raised _, w') => first_readable files' w'
      end
  end.

Definition lease_line : string :=
  "1700000000 aa:bb:cc:dd:ee:ff 192.168.4.23 my-phone".

Definition short_line : string := "1700000000 aa:bb:cc:dd:ee:ff".

(** ** Status probes

    The commands a status query may issue, all of them read-only queries of
    the host, and the host after a sequence of calls. *)

Definition probes (this : Manager) : list syscall :=
  [pgrep_hostapd; ip_addr_show (interface this); arp_an].

Definition run_calls `{H : Host} (calls : list syscall) (w : world) : world :=
  fold_left (fun w c => snd (perform c w)) calls w.

(** The client-count probe succeeds: [arp -an] runs and exits with 0. *)
Definition clients_probe_ok `{H : Host} (w : world) : bool :=
  match fst (perform arp_an w) with
  | Returned c => returncode c =? 0
  | Raised _ => false
  end.

(** ** Teardown

    The two name-based kill sweeps, the calls the removal of the ephemeral
    files consists of, and the calls [terminate_handle] makes on a handle:
    [terminate], then a wait of five seconds if that returned, then [kill]
    if the wait timed out. *)

Definition pkill_hostapd : syscall := Run ["pkill"; "-f"; "hostapd"] None.

Definition pkill_dnsmasq : syscall := Run ["pkill"; "-f"; "dnsmasq"] None.

Definition ephemeral_files : list string :=
  [hostapd_conf_path; dnsmasq_conf_path; hostapd_log_path].

(** The removal pass over [files]: each file is looked for and removed when
    it is there; the pass ends at the first removal that raises. *)
Fixpoint cleanup_calls `{H : Host} (files : list string) (w : world) : list syscall :=
  match files with
  | [] => []
  | p :: files' =>
      PathExists p ::
      match perform (PathExists p) w with
      | (true, w1) =>
          Remove p ::
          match perform (Remove p) w1 with
          | (Returned _, w2) => cleanup_calls files' w2
          | (Raised _, _) => []
          end
      | (false, w1) => cleanup_calls files' w1
      end
  end.

Definition terminate_calls `{H : Host} (p : popen) (w : world) : list syscall :=
  Terminate p ::
  match perform (Terminate p) w with
  | (Raised _, _) => []
  | (Returned _, w1) =>
      Wait p 5 ::
      match fst (perform (Wait p 5) w1) with
      | Raised (FaultTimeout _) => [Kill p]
      | _ => []
      end
  end.

(** What holds of every state of the system, as shown below: the manager
    holds no handle and no method of a handle has ever been called. *)
Definition handle_inv `{H : Host} (s : state) : Prop :=
  no_handle (self s) /\ Forall (fun c => handle_call c = false) (syscalls (trace s)).

(** ** Host answers

    What the host says to the commands of the smaller methods: whether a
    command runs and exits with 0, and the command lines that depend on the
    outcome of the [sudo] check. *)

Definition sudo_probe : syscall := Run ["sudo"; "-n"; "true"] (Some 5).

Definition exits_zero `{H : Host} (c : syscall) (w : world) : bool :=
  match c as c0 return ret_ty c0 -> bool with
  | Run _ _ => fun r => match r with
                        | Returned c => returncode c =? 0
                        | Raised _ => false
                        end
  | _ => fun _ => false
  end (fst (perform c w)).

Definition nmcli_disconnect (sudo : bool) (iface : string) : syscall :=
  Run (sudo_prefix sudo ++ ["nmcli"; "dev"; "disconnect"; iface])%list (Some 10).

(** The log record [_disconnect_wifi] ends with, by the answer to [nmcli]. *)
Definition disconnect_record (r : outcome completed) : event :=
  match r with
  | Returned _ => EvLog INFO "WiFi disconnected to free interface"
  | Raised (FaultTimeout _) => EvLog WARNING "WiFi disconnect timeout"
  | Raised (FaultError msg) => EvLog WARNING ("Error disconnecting WiFi: " +:+ msg)
  end.

(** The launch of a daemon and the probe that looks for it afterwards. *)
Definition launch (sudo : bool) (name : string) (args : list string) : syscall :=
  Run (sudo_prefix sudo ++ name :: args)%list None.

Definition pgrep (name : string) : syscall := Run ["pgrep"; "-f"; name] None.

(** What [str_decode] raises. *)
Definition no_decode : exn := AttributeError "'str' object has no attribute 'decode'".

(** A device without password-less [sudo]. *)
Definition no_sudo : Sim.os_state :=
  Sim.mkOs false true true [] [] 500 ∅ EmptyString [] [].

(** ** Contracts

    A program meets the contract [(C, I, Q)] when, whatever the host
    answers, every system call it issues satisfies [C], every manager it
    stores satisfies [I] as long as the ones it reads do, and every result
    it ends with satisfies [Q]. *)

Fixpoint meets {A : Type} (C : syscall -> Prop) (I : Manager -> Prop) (Q : A -> Prop)
                (p : prog A) : Prop :=
  match p with
  | Ret a => Q a
  | Sys c k => C c /\ forall r, meets C I Q (k r)
  | GetSelf k => forall m, I m -> meets C I Q (k m)
  | SetSelf m k => I m /\ meets C I Q k
  | Log _ _ k => meets C I Q k
  end.

Definition anything {A : Type} (_ : A) : Prop := True.

(** The programs the manager runs, [sudo] and its [-n] flag set aside. *)
Definition programs : list string :=
  ["true"; "pgrep"; "pkill"; "ip"; "nmcli"; "hostapd"; "dnsmasq"; "arp"; "cat"].

Definition program_of (cmd : list string) : string :=
  match cmd with
  | [] => EmptyString
  | name :: rest =>
      if String.eqb name "sudo" then
        match rest with
        | [] => name
        | flag :: rest' => if String.eqb flag "-n" then hd flag rest' else flag
        end
      else name
  end.

(** The footprint of the manager on the host: the programs above, writes to
    its two configuration files, existence checks and removals of its three
    ephemeral files, sleeps, and calls on its own process handles. *)
Definition within_footprint (c : syscall) : bool :=
  match c with
  | Run cmd _ => mem (program_of cmd) programs
  | WriteFile path _ => mem path [hostapd_conf_path; dnsmasq_conf_path]
  | PathExists path | Remove path => mem path ephemeral_files
  | Sleep _ | Terminate _ | Wait _ _ | Kill _ => true
  end.

Definition footprint (c : syscall) : Prop := within_footprint c = true.

(** The configuration has no address the activity check could look for: the
    [ip_address] entry is missing or is not a string. *)
Definition no_address (m : Manager) : Prop :=
  forall addr : string, dict_get (hotspot_config m) "ip_address" <> PStr addr.

(** ** Reading the lease files

    The reads [get_connected_clients] issues: the candidates in order, up to
    and including the first one that is read with exit code 0. *)

Definition sudo_cat (lease_file : string) : syscall :=
  Run ["sudo"; "cat"; lease_file] (Some 5).

Fixpoint lease_reads `{H : Host} (files : list string) (w : world) : list syscall :=
  match files with
  | [] => []
  | lease_file :: files' =>
      sudo_cat lease_file ::
      match perform (sudo_cat lease_file) w with
      | (Returned c, w') => if returncode c =? 0 then [] else lease_reads files' w'
      | (Raised _, w') => lease_reads files' w'
      end
  end.

(** ** Words and timestamps

    A word: at least one character and no whitespace, which is what
    [str.split()] yields. *)
Fixpoint spaceless (s : string) : bool :=
  match s with
  | EmptyString => true
  | String c s' => negb (PyStr.is_space c) && spaceless s'
  end.

Definition is_word (s : string) : bool := nonempty s && spaceless s.

(** A text of the shape of [pattern], where [d] stands for any decimal digit
    and every other character for itself. *)
Fixpoint has_shape (pattern s : string) : bool :=
  match pattern, s with
  | EmptyString, EmptyString => true
  | String p pattern', String c s' =>
      (if Ascii.eqb p "d" then PyStr.is_digit_char c else Ascii.eqb p c)
      && has_shape pattern' s'
  | _, _ => false
  end.

(** ** [ConfigManager.load_hotspot_config]

    The hotspot file as [yaml.safe_load] hands it over: a mapping, with the
    value under the key [hotspot] when there is one (a flat mapping of
    scalars), or something that is no mapping: a scalar ([None] for an empty
    file) or a sequence.  Opening or parsing the file may raise instead. *)

Inductive yaml_document : Type :=
| YMapping (hotspot : option (gmap string pyval))
| YScalar (v : pyval)
| YSequence.

Inductive read_outcome : Type :=
| Parsed (data : yaml_document)
| ReadRaised (e : exn).

Section ConfigManager.
Context `{H : Host}.

(** [data.get('hotspot', {})] *)
Definition get_hotspot (data : yaml_document) : M (gmap string pyval) :=
  match data with
  | YMapping hotspot => ret (default ∅ hotspot)
  | YScalar v =>
      raise (AttributeError ("'" +:+ type_name v +:+ "' object has no attribute 'get'"))
  | YSequence => raise (AttributeError "'list' object has no attribute 'get'")
  end.

Definition load_hotspot_config (f : read_outcome) : M (gmap string pyval) :=
  try_except
    (let* data := match f with
                  | Parsed data => ret data
                  | ReadRaised e => raise e
                  end in
     get_hotspot data)
    (fun e =>
       log ERROR ("Failed to load hotspot config: " +:+ str_exn e) ;;
       ret ∅).

(** [HotspotManager()] on a device whose configuration directory and files
    exist, so that [ConfigManager()] has nothing to create: the fields are
    set, then [_load_config] receives what [load_hotspot_config] hands
    back. *)
Definition construct (f : read_outcome) : M unit :=
  SetSelf (mkManager "wlan0" ∅ None None)
    (bind (load_hotspot_config f) (fun r =>
       _load_config (match r with
                     | Ok cfg => Loaded cfg
                     | Raise e => LoadFailed e
                     end))).

End ConfigManager.

(** The configuration a manager holds after construction. *)
Definition configured (f : read_outcome) : gmap string pyval :=
  match f with
  | Parsed (YMapping (Some cfg)) => cfg
  | _ => ∅
  end.

(** ** [src/rfkill_checker.py]

    The callers of the checker meet two more exceptions: the [KeyError] of a
    subscript and [RfkillBlockedException]. *)

Inductive raised : Type :=
| KeyError (key : string)
| RfkillBlockedException (msg : string)
| Other (e : exn).

Inductive reply (A : Type) : Type :=
| Fine (a : A)
| Failed (e : raised).
Arguments Fine {A} a.
Arguments Failed {A} e.

(** Truth value of a scalar. *)
Definition truthy (v : pyval) : bool :=
  match v with
  | PNone => false
  | PBool b => b
  | PInt n => negb (n =? 0)
  | PStr s => nonempty s
  end.

Definition rfkill_list : syscall := Run ["rfkill"; "list"; "wifi"] None.

Definition initial_status : gmap string pyval :=
  <["exists" := PBool false]>
  (<["blocked" := PBool false]>
  (<["blocked_type" := PNone]>
  (<["hard_blocked" := PBool false]>
  (<["soft_blocked" := PBool false]> ∅)))).

(** The body of [for line in lines]. *)
Definition scan_line (status : gmap string pyval) (line : string) : gmap string pyval :=
  if String.prefix "0:" line then
    let status := <["exists" := PBool true]> status in
    if PyStr.contains "Soft blocked: yes" line then
      <["soft_blocked" := PBool true]>
      (<["blocked_type" := PStr "soft"]>
      (<["blocked" := PBool true]> status))
    else if PyStr.contains "Hard blocked: yes" line then
      <["hard_blocked" := PBool true]>
      (<["blocked_type" := PStr "hard"]>
      (<["blocked" := PBool true]> status))
    else status
  else status.

Definition unavailable (error : string) : gmap string pyval :=
  <["exists" := PBool false]>
  (<["blocked" := PBool false]>
  (<["error" := PStr error]> ∅)).

Module RfkillChecker.
Section RfkillChecker.
Context `{H : Host}.

Definition check_wifi_status : M (gmap string pyval) :=
  try_except
    (let* result := subprocess_run ["rfkill"; "list"; "wifi"] None true in
     let lines := PyStr.lines (PyStr.strip (stdout result)) in
     ret (fold_left scan_line lines initial_status))
    (fun e =>
       match e with
       | CalledProcessError _ _ _ _ => ret (unavailable "rfkill not available")
       | _ =>
           log ERROR ("Error checking rfkill status: " +:+ str_exn e) ;;
           ret (unavailable (str_exn e))
       end).

(** [status[key]] *)
Definition subscript (status : gmap string pyval) (key : string) : prog (reply pyval) :=
  match status !! key with
  | Some v => Ret (Fine v)
  | None => Ret (Failed (KeyError key))
  end.

Definition lift {A : Type} (p : M A) : prog (reply A) :=
  bind p (fun r => match r with
                   | Ok a => Ret (Fine a)
                   | Raise e => Ret (Failed (Other e))
                   end).

Definition rbind {A B : Type} (p : prog (reply A)) (f : A -> prog (reply B))
  : prog (reply B) :=
  bind p (fun r => match r with
                   | Fine a => f a
                   | Failed e => Ret (Failed e)
                   end).

(** [status['exists'] and not status['blocked']] *)
Definition is_wifi_available : prog (reply pyval) :=
  rbind (lift check_wifi_status) (fun status =>
  rbind (subscript status "exists") (fun present =>
  if truthy present then
    rbind (subscript status "blocked") (fun blocked =>
    Ret (Fine (PBool (negb (truthy blocked)))))
  else Ret (Fine present))).

(** The module-level [check_rfkill] of [rfkill_checker.py]. *)
Definition check_rfkill : prog (reply (gmap string pyval)) :=
  rbind (lift check_wifi_status) (fun status =>
  rbind (subscript status "hard_blocked") (fun hard =>
  if truthy hard then
    Ret (Failed (RfkillBlockedException "WiFi is hard-blocked (physical switch)"))
  else
    rbind (subscript status "soft_blocked") (fun soft =>
    if truthy soft then
      Ret (Failed (RfkillBlockedException "WiFi is soft-blocked"))
    else Ret (Fine status)))).

End RfkillChecker.
End RfkillChecker.

(** [check_rfkill] of [hotspot.py]: the status as the checker returns it. *)
Definition check_rfkill `{H : Host} : M (gmap string pyval) :=
  RfkillChecker.check_wifi_status.

(** What the scan of the checker looks for: the line of device 0, and the
    two flags on that very line. *)
Definition device_line (line : string) : bool := String.prefix "0:" line.

Definition soft_line (line : string) : bool :=
  device_line line && PyStr.contains "Soft blocked: yes" line.

Definition hard_line (line : string) : bool :=
  device_line line && negb (PyStr.contains "Soft blocked: yes" line)
  && PyStr.contains "Hard blocked: yes" line.

Definition rfkill_lines (c : completed) : list string :=
  PyStr.lines (PyStr.strip (stdout c)).

(** The status of a scan: the three flags it has found so far, [blocked]
    being their disjunction, and no [error] entry. *)
Definition status_holds (status : gmap string pyval) (present soft hard : bool) : Prop :=
  status !! "exists" = Some (PBool present)
  /\ status !! "blocked" = Some (PBool (soft || hard))
  /\ status !! "soft_blocked" = Some (PBool soft)
  /\ status !! "hard_blocked" = Some (PBool hard)
  /\ status !! "error" = None.

(** ** The start endpoint of the web interface

    [start_hotspot] of [src/pibridge_web/api/hotspot.py]: a JSON document and
    an HTTP status code. *)

#[local] Unset Elimination Schemes.
Inductive json : Type :=
| JNull
| JBool (b : bool)
| JInt (n : Z)
| JStr (s : string)
| JObj (fields : list (string * json)).
#[local] Set Elimination Schemes.

Definition json_of (v : pyval) : json :=
  match v with
  | PNone => JNull
  | PBool b => JBool b
  | PInt n => JInt n
  | PStr s => JStr s
  end.

(** [str(e)] *)
Definition str_raised `{H : Host} (e : raised) : string :=
  match e with
  | KeyError key => PyStr.repr key
  | RfkillBlockedException msg => msg
  | Other e => str_exn e
  end.

Definition lower_char (c : ascii) : ascii :=
  let n := nat_of_ascii c in
  if ((65 <=? n) && (n <=? 90))%nat then ascii_of_nat (n + 32) else c.

(** [s.lower()] *)
Fixpoint lower (s : string) : string :=
  match s with
  | EmptyString => EmptyString
  | String c s' => String (lower_char c) (lower s')
  end.

Definition privileges_message : string :=
  "Hotspot functionality requires administrator privileges. Please run the web interface as root or contact your system administrator.".

Definition blocked_message : string :=
  "Wireless adapter is blocked. Please unblock it using 'sudo rfkill unblock wifi' and try again.".

Definition running_message : string :=
  "Hotspot is already running. Stop it first before starting again.".

(** The user message and status code the handler picks for [str(e)]. *)
Definition classify (error_msg : string) : string * Z :=
  if PyStr.contains "sudo" (lower error_msg)
     || PyStr.contains "permission" (lower error_msg)
     || PyStr.contains "operation not permitted" (lower error_msg)
  then (privileges_message, 403)
  else if PyStr.contains "hard_blocked" (lower error_msg)
          || PyStr.contains "soft_blocked" (lower error_msg)
  then (blocked_message, 400)
  else if PyStr.contains "already running" (lower error_msg)
  then (running_message, 409)
  else ("Failed to start hotspot: " +:+ error_msg, 500).

Section Endpoint.
Context `{H : Host}.

(** The [except Exception as e] block of the endpoint. *)
Definition start_error (error_msg : string) : prog (json * Z) :=
  Log ERROR ("API: Error starting hotspot: " +:+ error_msg)
    (let (user_message, status_code) := classify error_msg in
     Ret (JObj [("success", JBool false);
                ("error", JStr user_message);
                ("debug_info", if status_code =? 500 then JStr error_msg else JNull)],
          status_code)).

Definition api_start_hotspot (f : read_outcome) : prog (json * Z) :=
  Log INFO "API: Starting WiFi hotspot..."
    (bind RfkillChecker.check_rfkill (fun checked =>
     match checked with
     | Failed (RfkillBlockedException msg) =>
         Ret (JObj [("success", JBool false);
                    ("error", JStr ("Wireless is blocked: " +:+ msg))], 400)
     | Failed e => start_error (str_raised e)
     | Fine _ =>
         bind (construct f) (fun made =>
         match made with
         | Raise e => start_error (str_exn e)
         | Ok _ =>
             bind start_hotspot (fun started =>
             match started with
             | Raise e => start_error (str_exn e)
             | Ok true =>
                 bind get_status (fun got =>
                 match got with
                 | Raise e => start_error (str_exn e)
                 | Ok status =>
                     Log INFO "API: Hotspot started successfully"
                       (Ret (JObj [("success", JBool true);
                                   ("message", JStr "Hotspot started successfully");
                                   ("hotspot",
                                    JObj [("ssid", json_of (ssid status));
                                          ("interface", json_of (status_interface status));
                                          ("ip_address", json_of (ip_address status));
                                          ("active", JBool true)])],
                             200))
                 end)
             | Ok false =>
                 Log ERROR "API: Failed to start hotspot"
                   (Ret (JObj [("success", JBool false);
                               ("error", JStr "Failed to start hotspot")], 500))
             end)
         end)
     end)).

End Endpoint.

(** ** The stop endpoint of the web interface

    [stop_hotspot] of [src/pibridge_web/api/hotspot.py]. *)

Definition stopped_response : json * Z :=
  (JObj [("success", JBool true);
         ("message", JStr "Hotspot stopped successfully");
         ("interface_ready", JBool true)], 200).

Definition not_stopped_response : json * Z :=
  (JObj [("success", JBool false); ("error", JStr "Failed to stop hotspot")], 500).

Section StopEndpoint.
Context `{H : Host}.

(** The [except Exception as e] block of the endpoint. *)
Definition stop_error (error_msg : string) : prog (json * Z) :=
  Log ERROR ("API: Error stopping hotspot: " +:+ error_msg)
    (Ret (JObj [("success", JBool false);
                ("error", JStr ("Failed to stop hotspot: " +:+ error_msg))], 500)).

Definition api_stop_hotspot (f : read_outcome) : prog (json * Z) :=
  Log INFO "API: Stopping WiFi hotspot..."
    (bind (construct f) (fun made =>
     match made with
     | Raise e => stop_error (str_exn e)
     | Ok _ =>
         bind stop_hotspot (fun stopped =>
         match stopped with
         | Raise e => stop_error (str_exn e)
         | Ok true =>
             Log INFO "API: Hotspot stopped successfully" (Ret stopped_response)
         | Ok false =>
             Log ERROR "API: Failed to stop hotspot" (Ret not_stopped_response)
         end)
     end)).

End StopEndpoint.

(** ** [src/logger.py]

    The logger named [pibridge] of the [logging] library: its level and the
    levels of the stream handlers attached to it, in the order they were
    added.  Levels are the numbers of the library. *)

Definition DEBUG_no : Z := 10.

Definition levelno (l : level) : Z :=
  match l with
  | INFO => 20
  | WARNING => 30
  | ERROR => 40
  end.

Record Logger : Type := mkLogger {
  logger_level : Z;
  handlers : list Z
}.

(** [setup_logger(verbose, debug)]: the level is set, and a new stream
    handler with that level is added. *)
Definition setup_logger (verbose debug : bool) (lg : Logger) : Logger :=
  let lvl := if debug then DEBUG_no else (if verbose then levelno INFO else levelno INFO) in
  mkLogger lvl (handlers lg ++ [lvl])%list.

(** How many lines a record of level [l] gives on the standard output: the
    record has to reach the level of the logger, and goes to every handler
    whose level it reaches. *)
Definition lines_written (lg : Logger) (l : level) : nat :=
  if levelno l <? logger_level lg then O
  else List.length (List.filter (fun h => h <=? levelno l) (handlers lg)).

(** The logger after a sequence of calls of [setup_logger]. *)
Definition after_setups (calls : list (bool * bool)) (lg : Logger) : Logger :=
  fold_left (fun lg (c : bool * bool) => setup_logger (fst c) (snd c) lg) calls lg.

(** ** A scripted host

    A host that answers the commands it is given with the outcomes of a
    script, one after the other, and cannot launch anything once the script
    is used up.  It has no files. *)

Module Replay.

Definition used_up : os_fault := FaultError "[Errno 2] No such file or directory".

Definition answer (c : syscall)
  : list (outcome completed) -> ret_ty c * list (outcome completed) :=
  match c with
  | Run _ _ => fun w => match w with
                        | r :: w' => (r, w')
                        | [] => (Raised used_up, [])
                        end
  | WriteFile _ _ => fun w => (Returned tt, w)
  | PathExists _ => fun w => (false, w)
  | Remove _ => fun w => (Raised used_up, w)
  | Sleep _ => fun w => (tt, w)
  | Terminate _ => fun w => (Returned tt, w)
  | Wait _ _ => fun w => (Returned 0, w)
  | Kill _ => fun w => (Returned tt, w)
  end.

#[export] Instance host : Host := {|
  world := list (outcome completed);
  perform := answer;
  signal_repr := fun _ => None;
  utc_offset := fun _ => 0;
  utc_offset_bound := fun _ => conj eq_refl eq_refl
|}.

Definition exited (rc : Z) (out : string) : outcome completed :=
  Returned (Completed rc out EmptyString).

(** What [rfkill list wifi] prints for a soft-blocked adapter. *)
Definition soft_blocked_listing : string :=
  "0: phy0: Wireless LAN" +:+ nl +:+
  String (ascii_of_nat 9) "Soft blocked: yes" +:+ nl +:+
  String (ascii_of_nat 9) "Hard blocked: no" +:+ nl.

Definition unblocked_listing : string :=
  "0: phy0: Wireless LAN" +:+ nl +:+
  String (ascii_of_nat 9) "Soft blocked: no" +:+ nl +:+
  String (ascii_of_nat 9) "Hard blocked: no" +:+ nl.

(** A manager with the default configuration on a host with this script. *)
Definition replay (script : list (outcome completed)) : state :=
  mkState script (mkManager "wlan0" default_hotspot_config None None) [].

End Replay.

(** * Properties *)

Open Scope list_scope.

Section Running.
Context `{H : Host}.

Lemma exec_bind {A B : Type} (p : prog A) (f : A -> prog B) (s : state) :
  exec (bind p f) s = let (a, s') := exec p s in exec (f a) s'.
Proof.
  revert s. induction p as [a | c k IH | k IH | m k IH | lvl msg k IH];
    intros s; simpl; auto.
  destruct (perform c (os s)) as [r w]. apply IH.
Qed.

Lemma exec_mbind {A B : Type} (p : M A) (f : A -> M B) (s : state) :
  exec (mbind p f) s =
  match exec p s with
  | (Ok a, s') => exec (f a) s'
  | (Raise e, s') => (Raise e, s')
  end.
Proof.
  unfold mbind. rewrite exec_bind.
  destruct (exec p s) as [[a | e] s']; reflexivity.
Qed.

Lemma exec_try_except {A : Type} (p : M A) (h : exn -> M A) (s : state) :
  exec (try_except p h) s =
  match exec p s with
  | (Ok a, s') => (Ok a, s')
  | (Raise e, s') => exec (h e) s'
  end.
Proof.
  unfold try_except. rewrite exec_bind.
  destruct (exec p s) as [[a | e] s']; reflexivity.
Qed.

(** A program only ever appends to the trace, and what it does and appends
    does not depend on what the trace held before. *)
Lemma exec_trace {A : Type} (p : prog A) (w : world) (m : Manager) (t : list event) :
  exec p (mkState w m t) =
  let (a, s') := exec p (mkState w m []) in
  (a, mkState (os s') (self s') (t ++ trace s')).
Proof.
  revert w m t. induction p as [a | c k IH | k IH | m' k IH | lvl msg k IH];
    intros w m t; simpl.
  - by rewrite app_nil_r.
  - destruct (perform c w) as [r w']. rewrite (IH r w' m (t ++ [EvSys c])).
    rewrite (IH r w' m [EvSys c]).
    destruct (exec (k r) (mkState w' m [])) as [a s']. simpl.
    by rewrite <- app_assoc.
  - apply IH.
  - apply IH.
  - unfold record. simpl. rewrite (IH w m (t ++ [EvLog lvl msg])).
    rewrite (IH w m [EvLog lvl msg]).
    destruct (exec k (mkState w m [])) as [a s']. simpl.
    by rewrite <- app_assoc.
Qed.

(** So the trace after a run extends the trace before it. *)
Lemma exec_extends {A : Type} (p : prog A) (s : state) :
  exists e, trace (snd (exec p s)) = trace s ++ e.
Proof.
  destruct s as [w m t]. rewrite exec_trace.
  destruct (exec p (mkState w m [])) as [a s']. by exists (trace s').
Qed.

Lemma syscalls_app (t1 t2 : list event) :
  syscalls (t1 ++ t2) = syscalls t1 ++ syscalls t2.
Proof.
  induction t1 as [| [c | lvl msg] t1 IH]; simpl; [done | by rewrite IH | done].
Qed.

End Running.

(** Closes the side conditions about what a run left in the trace. *)
Ltac trace_facts :=
  cbn; rewrite ?syscalls_app; cbn [syscalls];
  rewrite ?app_nil_r, <- ?app_assoc; cbn [app]; repeat split; auto.

(** ** The activity check *)

Section Activity.
Context `{H : Host}.

(** What [is_hotspot_active] answers and what it leaves behind: it never
    raises, issues the name-pattern probe, and the address listing only when
    that probe found the daemon. *)
Lemma is_hotspot_active_run (s : state) :
  exists s',
    exec is_hotspot_active s =
    (Ok (ap_daemon_found (os s)
         && address_on_interface (self s) (snd (perform pgrep_hostapd (os s)))), s')
    /\ self s' = self s
    /\ syscalls (trace s') =
       syscalls (trace s) ++
       pgrep_hostapd :: (if ap_daemon_found (os s)
                         then [ip_addr_show (interface (self s))] else [])
    /\ os s' = (if ap_daemon_found (os s)
                then snd (perform (ip_addr_show (interface (self s)))
                                  (snd (perform pgrep_hostapd (os s))))
                else snd (perform pgrep_hostapd (os s))).
Proof.
  unfold ap_daemon_found, address_on_interface, pgrep_hostapd, ip_addr_show.
  unfold is_hotspot_active. cbn.
  destruct (perform (Run ["pgrep"; "-f"; "hostapd"] None) (os s)) as [[c | f] w]; cbn.
  2: { eexists; split; [reflexivity |]. trace_facts. }
  destruct (returncode c =? 0) eqn:E; cbn.
  2: { eexists; split; [reflexivity |]. trace_facts. }
  destruct (perform (Run ["ip"; "addr"; "show"; interface (self s)] None) w)
    as [[c' | f'] w']; cbn.
  2: { eexists; split; [reflexivity |]. trace_facts. }
  destruct (returncode c' =? 0) eqn:E'; cbn.
  2: { eexists; split; [destruct (dict_get _ _); reflexivity |]. trace_facts. }
  destruct (dict_get (hotspot_config (self s)) "ip_address"); cbn;
    try (eexists; split; [reflexivity |]; trace_facts).
  destruct (PyStr.contains _ _); eexists; (split; [reflexivity |]); trace_facts.
Qed.


End Activity.

(** ** Starting *)

Section Starting.
Context `{H : Host}.

Lemma exec_log (lvl : level) (msg : string) (s : state) :
  exec (log lvl msg) s = (Ok tt, record (EvLog lvl msg) s).
Proof. reflexivity. Qed.

(** C2.  When the activity check reports the hotspot active, [start_hotspot]
    returns [True] at once: it leaves the host as the check left it, does
    not touch the manager, and the only commands it has issued are the two
    probes of the check (no interface change, no file write, no daemon
    launch). *)
Theorem start_hotspot_idempotent_when_active (s : state) :
  fst (exec is_hotspot_active s) = Ok true ->
  fst (exec start_hotspot s) = Ok true
  /\ os (snd (exec start_hotspot s)) = os (snd (exec is_hotspot_active s))
  /\ self (snd (exec start_hotspot s)) = self s
  /\ syscalls (trace (snd (exec start_hotspot s))) =
     syscalls (trace s) ++ [pgrep_hostapd; ip_addr_show (interface (self s))].
Proof.
  intros Hact.
  destruct (is_hotspot_active_run s) as (s1 & E1 & _ & _ & Hos1).
  set (s0 := record (EvLog INFO "=== Starting WiFi Hotspot Process ===") s).
  destruct (is_hotspot_active_run s0) as (s2 & E2 & Hself & Htr & Hos2).
  change (os s0) with (os s) in *. change (self s0) with (self s) in *.
  unfold start_hotspot. rewrite exec_try_except.
  unfold start_pipeline. rewrite exec_mbind, exec_log. fold s0.
  rewrite exec_mbind, E2. rewrite E1 in Hact |- *. cbn [fst] in Hact.
  destruct (ap_daemon_found (os s)); [| discriminate Hact].
  destruct (address_on_interface _ _); [| discriminate Hact].
  cbn. repeat split; [congruence | assumption |].
  rewrite syscalls_app, Htr. unfold s0. cbn. rewrite syscalls_app. cbn.
  by rewrite !app_nil_r.
Qed.

(** [stop_hotspot] always returns: whatever its body raises is caught,
    logged, and turned into [False]. *)
Lemma stop_hotspot_returns (s : state) :
  exists b : bool, fst (exec stop_hotspot s) = Ok b.
Proof.
  unfold stop_hotspot. rewrite exec_try_except.
  match goal with |- context [exec ?p s] => destruct (exec p s) as [[b | e] s'] end.
  - by exists b.
  - exists false. reflexivity.
Qed.

End Starting.

(** ** Process handles are never held *)

Section Handles.
Context `{H : Host}.

Lemma handle_free_bind {A B : Type} (p : prog A) (f : A -> prog B) :
  handle_free p -> (forall a, handle_free (f a)) -> handle_free (bind p f).
Proof.
  intros Hp Hf. induction p as [a | c k IH | k IH | m k IH | lvl msg k IH]; simpl in *.
  - apply Hf.
  - destruct Hp as [Hc Hk]. split; [exact Hc |]. intros r. apply IH, Hk.
  - intros m Hm. apply IH, Hp, Hm.
  - destruct Hp as [Hm Hk]. split; [exact Hm |]. apply IH, Hk.
  - apply IH, Hp.
Qed.

Lemma handle_free_mbind {A B : Type} (p : M A) (f : A -> M B) :
  handle_free p -> (forall a, handle_free (f a)) -> handle_free (mbind p f).
Proof.
  intros Hp Hf. apply handle_free_bind; [exact Hp |].
  intros [a | e]; [apply Hf | exact I].
Qed.

Lemma handle_free_try_except {A : Type} (p : M A) (h : exn -> M A) :
  handle_free p -> (forall e, handle_free (h e)) -> handle_free (try_except p h).
Proof.
  intros Hp Hh. apply handle_free_bind; [exact Hp |].
  intros [a | e]; [exact I | apply Hh].
Qed.

Lemma handle_free_exec {A : Type} (p : prog A) (s : state) :
  handle_free p -> handle_inv s -> handle_inv (snd (exec p s)).
Proof.
  revert s. induction p as [a | c k IH | k IH | m k IH | lvl msg k IH];
    intros s Hp [Hm Ht]; simpl in *.
  - by split.
  - destruct Hp as [Hc Hk]. destruct (perform c (os s)) as [r w].
    apply IH; [apply Hk |]. split; [exact Hm |]. simpl.
    rewrite syscalls_app. apply Forall_app. split; [exact Ht |].
    simpl. by constructor.
  - apply IH; [by apply Hp |]. by split.
  - destruct Hp as [Hm' Hk]. apply IH; [exact Hk |]. by split.
  - apply IH; [exact Hp |]. split; [exact Hm |]. simpl.
    rewrite syscalls_app. simpl. by rewrite app_nil_r.
Qed.

Lemma handle_free_keeps_no_handle {A : Type} (p : prog A) (s : state) :
  handle_free p -> no_handle (self s) -> no_handle (self (snd (exec p s))).
Proof.
  revert s. induction p as [a | c k IH | k IH | m k IH | lvl msg k IH];
    intros s Hp Hm; simpl in *.
  - exact Hm.
  - destruct Hp as [_ Hk]. destruct (perform c (os s)) as [r w]. by apply IH.
  - apply IH; [by apply Hp | exact Hm].
  - destruct Hp as [Hm' Hk]. by apply IH.
  - by apply IH.
Qed.

Lemma handle_free_get_self {A : Type} (f : Manager -> M A) :
  (forall m, no_handle m -> handle_free (f m)) -> handle_free (mbind get_self f).
Proof. intros Hf m Hm. simpl. by apply Hf. Qed.

Lemma handle_free_modify_self (f : Manager -> Manager) :
  (forall m, no_handle m -> no_handle (f m)) -> handle_free (modify_self f).
Proof. intros Hf m Hm. simpl. split; [by apply Hf | exact I]. Qed.

Lemma handle_free_for_each {A : Type} (l : list A) (body : A -> M unit) :
  (forall x, handle_free (body x)) -> handle_free (for_each l body).
Proof.
  intros Hb. induction l as [| x l IH]; simpl; [exact I |].
  apply handle_free_mbind; [apply Hb | intros _; exact IH].
Qed.

End Handles.

Create HintDb hf.

(** Walks through a method body, one statement at a time. *)
Ltac handle_free_step :=
  match goal with
  | Hn : no_handle ?m |- context [hostapd_process ?m] => rewrite (proj1 Hn)
  | Hn : no_handle ?m |- context [dnsmasq_process ?m] => rewrite (proj2 Hn)
  | |- handle_free (mbind get_self _) => apply handle_free_get_self; intros ? ?
  | |- handle_free (mbind _ _) => apply handle_free_mbind; [| intros]
  | |- handle_free (try_except _ _) => apply handle_free_try_except; [| intros]
  | |- handle_free (bind _ _) => apply handle_free_bind; [| intros]
  | |- handle_free (if ?b then _ else _) => destruct b
  | |- handle_free (when ?b _) => destruct b; unfold when
  | |- handle_free (match ?x with _ => _ end) => destruct x
  | |- handle_free (ret _) => exact I
  | |- handle_free (raise _) => exact I
  | |- handle_free (log _ _ _) => exact I
  | |- handle_free (log _ _) => exact I
  | |- handle_free _ => solve [auto with hf]
  end.

Ltac handle_free_walk := cbv zeta; repeat (handle_free_step; cbv zeta).

Section HandleFreeMethods.
Context `{H : Host}.

Lemma hf_subprocess_run cmd timeout check : handle_free (subprocess_run cmd timeout check).
Proof.
  unfold subprocess_run. simpl. split; [reflexivity |].
  intros [c | f]; [destruct (check && _) |]; exact I.
Qed.

Lemma hf_write_file path content : handle_free (write_file path content).
Proof. simpl. split; [reflexivity |]. intros [[] | f]; exact I. Qed.

Lemma hf_path_exists path : handle_free (path_exists path).
Proof. simpl. split; [reflexivity |]. intros b; exact I. Qed.

Lemma hf_os_remove path : handle_free (os_remove path).
Proof. simpl. split; [reflexivity |]. intros [[] | f]; exact I. Qed.

Lemma hf_sleep secs : handle_free (sleep secs).
Proof. simpl. split; [reflexivity |]. intros u; exact I. Qed.

Lemma hf_get_self : handle_free get_self.
Proof. simpl. intros m _. exact I. Qed.

Lemma hf_py_in v s : handle_free (py_in v s).
Proof. destruct v; exact I. Qed.

Hint Resolve hf_subprocess_run hf_write_file hf_path_exists hf_os_remove hf_sleep
  hf_get_self hf_py_in : hf.

Lemma hf_check_sudo_access : handle_free _check_sudo_access.
Proof. unfold _check_sudo_access. handle_free_walk. Qed.
Hint Resolve hf_check_sudo_access : hf.

Lemma hf_is_hotspot_active : handle_free is_hotspot_active.
Proof. unfold is_hotspot_active. handle_free_walk. Qed.
Hint Resolve hf_is_hotspot_active : hf.

Lemma hf_load_config r : handle_free (_load_config r).
Proof.
  destruct r as [cfg | e]; unfold _load_config; handle_free_walk;
    apply handle_free_modify_self; intros m Hm; exact Hm.
Qed.
Hint Resolve hf_load_config : hf.

Lemma hf_init r : handle_free (__init__ r).
Proof. unfold __init__. simpl. split; [by split | apply hf_load_config]. Qed.

Lemma hf_disconnect_wifi : handle_free _disconnect_wifi.
Proof. unfold _disconnect_wifi. handle_free_walk. Qed.

Lemma hf_configure_interface_ip : handle_free _configure_interface_ip.
Proof. unfold _configure_interface_ip. handle_free_walk. Qed.

Lemma hf_create_hostapd_config : handle_free _create_hostapd_config.
Proof. unfold _create_hostapd_config. handle_free_walk. Qed.

Lemma hf_create_dnsmasq_config : handle_free _create_dnsmasq_config.
Proof. unfold _create_dnsmasq_config. handle_free_walk. Qed.

Lemma hf_decoded_text x : handle_free (decoded_text x).
Proof. destruct x; exact I. Qed.
Hint Resolve hf_decoded_text : hf.

Lemma hf_start_daemon name args : handle_free (start_daemon name args).
Proof. unfold start_daemon. handle_free_walk. Qed.

Lemma hf_cleanup_config_files : handle_free _cleanup_config_files.
Proof.
  unfold _cleanup_config_files. handle_free_walk.
  apply handle_free_for_each. intros x. handle_free_walk.
Qed.

Hint Resolve hf_disconnect_wifi hf_configure_interface_ip hf_create_hostapd_config
  hf_create_dnsmasq_config hf_start_daemon hf_cleanup_config_files : hf.

Lemma hf_stop_hotspot : handle_free stop_hotspot.
Proof. unfold stop_hotspot. handle_free_walk. Qed.
Hint Resolve hf_stop_hotspot : hf.

Lemma hf_start_pipeline : handle_free start_pipeline.
Proof.
  unfold start_pipeline, _start_hostapd, _start_dnsmasq. handle_free_walk.
Qed.
Hint Resolve hf_start_pipeline : hf.

Lemma hf_start_hotspot : handle_free start_hotspot.
Proof. unfold start_hotspot, start_failed. handle_free_walk. Qed.

Lemma hf_count_lines_with needle ls : handle_free (count_lines_with needle ls).
Proof. induction ls as [| line ls IH]; cbn [count_lines_with]; handle_free_walk. Qed.
Hint Resolve hf_count_lines_with : hf.

Lemma hf_get_hotspot_info : handle_free get_hotspot_info.
Proof. unfold get_hotspot_info. handle_free_walk. Qed.
Hint Resolve hf_get_hotspot_info : hf.

Lemma hf_get_status : handle_free get_status.
Proof. unfold get_status. handle_free_walk. Qed.

Lemma hf_read_lease_file f clients : handle_free (read_lease_file f clients).
Proof. unfold read_lease_file. handle_free_walk. Qed.
Hint Resolve hf_read_lease_file : hf.

Lemma hf_read_lease_files files clients : handle_free (read_lease_files files clients).
Proof.
  revert clients. induction files as [| f files IH]; intros clients;
    cbn [read_lease_files]; handle_free_walk.
Qed.
Hint Resolve hf_read_lease_files : hf.

Lemma hf_get_connected_clients : handle_free get_connected_clients.
Proof. unfold get_connected_clients. handle_free_walk. Qed.

Lemma hf_get_interface : handle_free get_interface.
Proof. unfold get_interface. handle_free_walk. Qed.

End HandleFreeMethods.

(** ** Stopping *)

(** Asks the host for the answer to the next system call of the run. *)
Ltac run_sys :=
  match goal with
  | |- context [perform ?c ?w] =>
      let r := fresh "r" in
      let w' := fresh "w" in
      destruct (perform c w) as [r w']; cbn in r; try destruct r;
      repeat match goal with f : os_fault |- _ => destruct f end; cbn
  end.

(** Decides the next test of the run. *)
Ltac branch :=
  match goal with
  | |- context [returncode ?c =? 0] => destruct (returncode c =? 0); cbn
  | |- context [match ?v with PNone => _ | _ => _ end] => destruct v; cbn
  | |- context [if ?b then _ else _] => destruct b; cbn
  end.

Section Stopping.
Context `{H : Host}.

(** The removal of the ephemeral files never raises, does not touch the
    manager, and consists of existence checks and removals of those files. *)
Lemma cleanup_config_files_run (s : state) :
  exists s',
    exec _cleanup_config_files s = (Ok tt, s')
    /\ self s' = self s
    /\ syscalls (trace s') =
       syscalls (trace s) ++ cleanup_calls ephemeral_files (os s).
Proof.
  unfold _cleanup_config_files. cbn.
  repeat run_sys; (eexists; split; [reflexivity |]); trace_facts.
Qed.

(** What [stop_hotspot] does on a manager that holds no handle. *)
Lemma stop_hotspot_sweeps (s : state) :
  no_handle (self s) ->
  match perform pkill_hostapd (os s) with
  | (Raised _, _) =>
      fst (exec stop_hotspot s) = Ok false
      /\ syscalls (trace (snd (exec stop_hotspot s))) =
         syscalls (trace s) ++ [pkill_hostapd]
  | (Returned _, w1) =>
      match perform pkill_dnsmasq w1 with
      | (Raised _, _) =>
          fst (exec stop_hotspot s) = Ok false
          /\ syscalls (trace (snd (exec stop_hotspot s))) =
             syscalls (trace s) ++ [pkill_hostapd; pkill_dnsmasq]
      | (Returned _, w2) =>
          fst (exec stop_hotspot s) = Ok true
          /\ self (snd (exec stop_hotspot s)) = self s
          /\ syscalls (trace (snd (exec stop_hotspot s))) =
             syscalls (trace s) ++
             pkill_hostapd :: pkill_dnsmasq :: cleanup_calls ephemeral_files w2
      end
  end.
Proof.
  intros [Hh Hd]. unfold pkill_hostapd, pkill_dnsmasq.
  unfold stop_hotspot. cbn -[_cleanup_config_files].
  rewrite Hh. cbn -[_cleanup_config_files]. rewrite Hd. cbn -[_cleanup_config_files].
  destruct (perform (Run ["pkill"; "-f"; "hostapd"] None) (os s)) as [[c1 | f1] w1];
    cbn -[_cleanup_config_files]; [| trace_facts].
  destruct (perform (Run ["pkill"; "-f"; "dnsmasq"] None) w1) as [[c2 | f2] w2];
    cbn -[_cleanup_config_files]; [| trace_facts].
  rewrite exec_bind, exec_mbind.
  match goal with |- context [exec _cleanup_config_files ?s0] =>
    destruct (cleanup_config_files_run s0) as (s3 & E & Hself & Htr)
  end.
  rewrite E. cbn. repeat split; [exact Hself |].
  rewrite syscalls_app, Htr. cbn. rewrite !syscalls_app. cbn.
  rewrite !app_nil_r, <- !app_assoc. reflexivity.
Qed.

(** A held handle is terminated first. *)
Lemma stop_hotspot_terminates_hostapd (s : state) (p : popen) :
  hostapd_process (self s) = Some p ->
  exists rest,
    syscalls (trace (snd (exec stop_hotspot s))) =
    syscalls (trace s) ++ terminate_calls p (os s) ++ rest.
Proof.
  intros Hh. unfold terminate_calls, stop_hotspot. cbn. rewrite Hh. cbn.
  destruct (perform (Terminate p) (os s)) as [[[] | f] w1]; cbn.
  2: { exists []. trace_facts. }
  destruct (perform (Wait p 5) w1) as [[rc | [msg | msg]] w2]; cbn.
  2: { exists []. trace_facts. }
  - match goal with |- context [exec ?q ?s0] =>
      pose proof (exec_extends q s0) as [e He]; rewrite He end.
    exists (syscalls e). trace_facts.
  - destruct (perform (Kill p) w2) as [[[] | f] w3]; cbn.
    2: { exists []. trace_facts. }
    match goal with |- context [exec ?q ?s0] =>
      pose proof (exec_extends q s0) as [e He]; rewrite He end.
    exists (syscalls e). trace_facts.
Qed.

Lemma stop_hotspot_terminates_dnsmasq (s : state) (p : popen) :
  hostapd_process (self s) = None ->
  dnsmasq_process (self s) = Some p ->
  exists rest,
    syscalls (trace (snd (exec stop_hotspot s))) =
    syscalls (trace s) ++ terminate_calls p (os s) ++ rest.
Proof.
  intros Hh Hd. unfold terminate_calls, stop_hotspot. cbn -[subprocess_run]. rewrite Hh. cbn -[subprocess_run].
  rewrite Hd. cbn -[subprocess_run].
  destruct (perform (Terminate p) (os s)) as [[[] | f] w1]; cbn -[subprocess_run].
  2: { exists []. trace_facts. }
  destruct (perform (Wait p 5) w1) as [[rc | [msg | msg]] w2]; cbn -[subprocess_run].
  2: { exists []. trace_facts. }
  - match goal with |- context [exec ?q ?s0] =>
      pose proof (exec_extends q s0) as [e He]; rewrite He end.
    exists (syscalls e). trace_facts.
  - destruct (perform (Kill p) w2) as [[[] | f] w3]; cbn -[subprocess_run].
    2: { exists []. trace_facts. }
    match goal with |- context [exec ?q ?s0] =>
      pose proof (exec_extends q s0) as [e He]; rewrite He end.
    exists (syscalls e). trace_facts.
Qed.

(** C6, as amended.  [stop_hotspot] never raises.  On a manager that holds
    no handle it issues the kill sweep for [hostapd], then the one for
    [dnsmasq], then the removal pass over the three ephemeral files, and
    returns [True]; the removal pass ends at the first removal that raises.
    When a sweep command cannot be launched the steps after it are skipped
    and the answer is [False].  A held handle is terminated first:
    [terminate], a wait of at most five seconds, [kill] on timeout.  The
    manager is left as it was, so a second call behaves the same way. *)
Theorem stop_hotspot_teardown (s : state) :
  (exists b : bool, fst (exec stop_hotspot s) = Ok b)
  /\ (no_handle (self s) ->
      match perform pkill_hostapd (os s) with
      | (Raised _, _) =>
          fst (exec stop_hotspot s) = Ok false
          /\ syscalls (trace (snd (exec stop_hotspot s))) =
             syscalls (trace s) ++ [pkill_hostapd]
      | (Returned _, w1) =>
          match perform pkill_dnsmasq w1 with
          | (Raised _, _) =>
              fst (exec stop_hotspot s) = Ok false
              /\ syscalls (trace (snd (exec stop_hotspot s))) =
                 syscalls (trace s) ++ [pkill_hostapd; pkill_dnsmasq]
          | (Returned _, w2) =>
              fst (exec stop_hotspot s) = Ok true
              /\ self (snd (exec stop_hotspot s)) = self s
              /\ syscalls (trace (snd (exec stop_hotspot s))) =
                 syscalls (trace s) ++
                 pkill_hostapd :: pkill_dnsmasq :: cleanup_calls ephemeral_files w2
          end
      end)
  /\ (forall p : popen,
        hostapd_process (self s) = Some p
        \/ (hostapd_process (self s) = None /\ dnsmasq_process (self s) = Some p) ->
        exists rest,
          syscalls (trace (snd (exec stop_hotspot s))) =
          syscalls (trace s) ++ terminate_calls p (os s) ++ rest).
Proof.
  split; [apply stop_hotspot_returns |].
  split; [apply stop_hotspot_sweeps |].
  intros p [Hh | [Hh Hd]].
  - by apply stop_hotspot_terminates_hostapd.
  - by apply stop_hotspot_terminates_dnsmasq.
Qed.

End Stopping.

Section StoppingExamples.
Import Sim.

(** Stopping the running hotspot of the simulated device: both sweeps, the
    three removals, and a second call that finds nothing left to do.  And
    stopping a manager that holds a handle for [hostapd]: the handle is
    terminated and waited for before anything else. *)
Lemma stop_hotspot_teardown_witness :
  (let s := boot default_hotspot_config up in
   no_handle (self s)
   /\ fst (exec stop_hotspot s) = Ok true
   /\ syscalls (trace (snd (exec stop_hotspot s))) =
      [pkill_hostapd; pkill_dnsmasq;
       PathExists hostapd_conf_path; Remove hostapd_conf_path;
       PathExists dnsmasq_conf_path; Remove dnsmasq_conf_path;
       PathExists hostapd_log_path; Remove hostapd_log_path]
   /\ fst (exec stop_hotspot (snd (exec stop_hotspot s))) = Ok true)
  /\
  (let s := mkState up (mkManager "wlan0" default_hotspot_config (Some 7%positive) None) [] in
   hostapd_process (self s) = Some 7%positive
   /\ exists rest,
        syscalls (trace (snd (exec stop_hotspot s))) =
        Terminate 7%positive :: Wait 7%positive 5 :: rest).
Proof.
  split.
  - intros s.
    assert (Hn : no_handle (self s)) by (split; reflexivity).
    split; [exact Hn |].
    generalize (proj1 (proj2 (stop_hotspot_teardown s)) Hn).
    vm_compute. intros (Hok & _ & Htr).
    split; [exact Hok |]. split; [exact Htr | reflexivity].
  - intros s.
    assert (Hh : hostapd_process (self s) = Some 7%positive) by reflexivity.
    split; [exact Hh |].
    destruct (proj2 (proj2 (stop_hotspot_teardown s)) 7%positive (or_introl Hh))
      as [rest Hrest].
    exists rest. rewrite Hrest. reflexivity.
Defined.

(** C6, the claim as stated fails.  On a device where [pkill] cannot be
    launched, [stop_hotspot] returns [False] after the first sweep: the
    second sweep is not issued and the stale configuration files stay.  On
    a device where the first configuration file cannot be removed, it
    returns [True] and leaves both configuration files in place. *)
Lemma stop_hotspot_can_skip_cleanup :
  (let s := boot default_hotspot_config (without_programs ["pkill"] stale) in
   fst (exec stop_hotspot s) = Ok false
   /\ syscalls (trace (snd (exec stop_hotspot s))) = [pkill_hostapd]
   /\ is_Some (files (os (snd (exec stop_hotspot s))) !! hostapd_conf_path)
   /\ is_Some (files (os (snd (exec stop_hotspot s))) !! dnsmasq_conf_path))
  /\
  (let s := boot default_hotspot_config (with_locked [hostapd_conf_path] stale) in
   fst (exec stop_hotspot s) = Ok true
   /\ syscalls (trace (snd (exec stop_hotspot s))) =
      [pkill_hostapd; pkill_dnsmasq;
       PathExists hostapd_conf_path; Remove hostapd_conf_path]
   /\ is_Some (files (os (snd (exec stop_hotspot s))) !! hostapd_conf_path)
   /\ is_Some (files (os (snd (exec stop_hotspot s))) !! dnsmasq_conf_path)).
Proof.
  split; vm_compute; repeat split; eauto.
Qed.

End StoppingExamples.

(** ** The invariant of the process fields *)

Section Invariant.
Context `{H : Host}.

Lemma invoke_keeps_handle_inv (c : method) (s : state) :
  handle_inv s -> handle_inv (invoke c s).
Proof.
  intros Hs. destruct c; cbn [invoke]; apply handle_free_exec; try exact Hs.
  - apply hf_load_config.
  - apply hf_is_hotspot_active.
  - apply hf_start_hotspot.
  - apply hf_stop_hotspot.
  - apply hf_disconnect_wifi.
  - apply hf_configure_interface_ip.
  - apply hf_check_sudo_access.
  - apply hf_create_hostapd_config.
  - apply hf_create_dnsmasq_config.
  - unfold _start_hostapd. apply hf_start_daemon.
  - unfold _start_dnsmasq. apply hf_start_daemon.
  - apply hf_cleanup_config_files.
  - apply hf_get_hotspot_info.
  - apply hf_get_status.
  - apply hf_get_connected_clients.
  - apply hf_get_interface.
Qed.

Lemma reachable_handle_inv (s : state) : reachable s -> handle_inv s.
Proof.
  induction 1 as [w m0 r | s c _ IH | s w _ IH].
  - unfold __init__. cbn [exec].
    apply handle_free_exec; [apply hf_load_config |].
    split; [by split | constructor].
  - by apply invoke_keeps_handle_inv.
  - exact IH.
Qed.

(** C10.  In every reachable state both process fields are [None] and no
    method of a process handle has ever been called; a call of
    [stop_hotspot] in such a state goes straight to the name-based kill
    sweep and calls no handle method either. *)
Theorem process_handles_always_none (s : state) :
  reachable s ->
  hostapd_process (self s) = None
  /\ dnsmasq_process (self s) = None
  /\ Forall (fun c => handle_call c = false) (syscalls (trace s))
  /\ exists rest,
       syscalls (trace (snd (exec stop_hotspot s))) =
       syscalls (trace s) ++ pkill_hostapd :: rest
       /\ Forall (fun c => handle_call c = false) rest.
Proof.
  intros Hr. destruct (reachable_handle_inv s Hr) as [[Hh Hd] Ht].
  split; [exact Hh |]. split; [exact Hd |]. split; [exact Ht |].
  assert (Hstop : handle_inv (invoke m_stop_hotspot s))
    by (apply reachable_handle_inv; by constructor).
  destruct Hstop as [_ Hall]. cbn [invoke] in Hall.
  pose proof (stop_hotspot_sweeps s (conj Hh Hd)) as Hs.
  destruct (perform pkill_hostapd (os s)) as [[c1 | f1] w1].
  - destruct (perform pkill_dnsmasq w1) as [[c2 | f2] w2].
    + destruct Hs as (_ & _ & Htr). rewrite Htr in Hall |- *.
      eexists. split; [reflexivity |].
      apply Forall_app in Hall as [_ Hall]. by inversion Hall.
    + destruct Hs as (_ & Htr). rewrite Htr in Hall |- *.
      eexists. split; [reflexivity |].
      apply Forall_app in Hall as [_ Hall]. by inversion Hall.
  - destruct Hs as (_ & Htr). rewrite Htr in Hall |- *.
    eexists. split; [reflexivity |]. constructor.
Qed.

End Invariant.

Section InvariantExamples.
Import Sim.

(** A manager constructed on the simulated device, started, asked for its
    status and stopped: a reachable state. *)
Lemma process_handles_always_none_witness :
  let s := invoke m_stop_hotspot
             (invoke m_get_status
                (invoke m_start_hotspot
                   (snd (exec (__init__ (Loaded default_hotspot_config))
                              (mkState fresh (mkManager EmptyString ∅ None None) []))))) in
  reachable s
  /\ hostapd_process (self s) = None
  /\ dnsmasq_process (self s) = None.
Proof.
  intros s.
  assert (Hr : reachable s) by (repeat apply reach_call; apply reach_init).
  split; [exact Hr |].
  destruct (process_handles_always_none s Hr) as (Hh & Hd & _).
  split; [exact Hh | exact Hd].
Defined.

End InvariantExamples.

(** ** Rollback *)

Section Rollback.
Context `{H : Host}.


End Rollback.

Section StartingExamples.
Import Sim.

(** Starting the hotspot a second time on the simulated device. *)
Lemma start_hotspot_idempotent_when_active_witness :
  let s := boot default_hotspot_config up in
  fst (exec is_hotspot_active s) = Ok true
  /\ fst (exec start_hotspot s) = Ok true
  /\ syscalls (trace (snd (exec start_hotspot s))) =
     [pgrep_hostapd; ip_addr_show "wlan0"].
Proof.
  intros s.
  assert (Ha : fst (exec is_hotspot_active s) = Ok true) by (vm_compute; reflexivity).
  split; [exact Ha |].
  destruct (start_hotspot_idempotent_when_active s Ha) as (Hok & _ & _ & Htr).
  split; [exact Hok | exact Htr].
Defined.


(** What that start leaves behind: nothing running, nothing in [/tmp]. *)
Example start_hotspot_without_net_admin :
  let s := boot default_hotspot_config (without_net_admin fresh) in
  syscalls (trace (snd (exec start_pipeline s))) =
  [pgrep_hostapd; Run ["sudo"; "-n"; "true"] (Some 5);
   Run ["sudo"; "-n"; "true"] (Some 5);
   Run ["sudo"; "nmcli"; "dev"; "disconnect"; "wlan0"] (Some 10)]
  ++ take 4 (configure_commands (self s))
  /\ (forall p, files (os (snd (exec start_hotspot s))) !! p = None)
  /\ procs (os (snd (exec start_hotspot s))) = [].
Proof. vm_compute. repeat split. Qed.

End StartingExamples.

(** ** Configuring the interface *)

Section Configuring.
Context `{H : Host}.

(** Whatever the host answers, the commands issued are an initial part of
    that sequence, and the permission-denied error of the handler is never
    what comes out: no call in the [try] block runs with [check=True], so
    no [CalledProcessError] reaches the handler. *)
Lemma configure_interface_ip_run (s : state) :
  (exists n,
     syscalls (trace (snd (exec _configure_interface_ip s))) =
     syscalls (trace s) ++ take n (configure_commands (self s)))
  /\ fst (exec _configure_interface_ip s) <> Raise (HotspotError permission_denied_msg).
Proof.
  unfold _configure_interface_ip, configure_commands, when, py_in. cbn.
  repeat (run_sys; repeat branch);
    (split; [| discriminate]);
    first [ exists 1%nat; by trace_facts | exists 2%nat; by trace_facts
          | exists 3%nat; by trace_facts | exists 4%nat; by trace_facts
          | exists 5%nat; by trace_facts | exists 6%nat; by trace_facts ].
Qed.

End Configuring.

Section ConfiguringExamples.
Import Sim.

(** On a device that answers, the six commands run in order and the address
    is found on the interface afterwards. *)
Example configure_interface_ip_on_fresh_device :
  let s := boot default_hotspot_config fresh in
  fst (exec _configure_interface_ip s) = Ok tt
  /\ syscalls (trace (snd (exec _configure_interface_ip s))) = configure_commands (self s)
  /\ addrs (os (snd (exec _configure_interface_ip s))) = ["192.168.4.1/24"].
Proof. vm_compute. repeat split. Qed.

(** An absent interface ends the method after the existence check. *)
Example configure_interface_ip_without_interface :
  let s := boot default_hotspot_config
             (mkOs true true false [] [] 500 ∅ EmptyString [] []) in
  fst (exec _configure_interface_ip s) =
  Raise (HotspotError "Wireless interface wlan0 not found")
  /\ syscalls (trace (snd (exec _configure_interface_ip s))) =
     take 2 (configure_commands (self s)).
Proof. vm_compute. repeat split. Qed.

(** C4.  The device refuses changes to the interface with
    [Operation not permitted].  The flush fails first and is only logged.
    The address assignment fails next, and what is raised is the plain
    failure of that command: the permission-denied error that the handler
    of the method holds for this case is not the one raised. *)
Theorem configure_interface_ip_permission_problem_not_mapped :
  let s := boot default_hotspot_config (without_net_admin fresh) in
  fst (exec _configure_interface_ip s) =
  Raise (HotspotError ("Failed to add IP address: " +:+ not_permitted))
  /\ PyStr.contains "Operation not permitted" not_permitted = true
  /\ fst (exec _configure_interface_ip s) <> Raise (HotspotError permission_denied_msg)
  /\ In (EvLog WARNING ("IP flush warning: " +:+ not_permitted))
        (trace (snd (exec _configure_interface_ip s)))
  /\ syscalls (trace (snd (exec _configure_interface_ip s))) =
     take 4 (configure_commands (self s)).
Proof.
  vm_compute. repeat split; [discriminate |]. auto 20.
Qed.

End ConfiguringExamples.

(** ** Rendering the configuration documents *)

Section Rendering.

#[local] Arguments append : simpl nomatch.

Lemma append_assoc (a b c : string) : (a +:+ b) +:+ c = a +:+ b +:+ c.
Proof. induction a as [| x a IH]; simpl; [reflexivity | by rewrite IH]. Qed.

Lemma prefix_append (x r : string) : String.prefix x (x +:+ r) = true.
Proof.
  induction x as [| c x IH]; simpl; [by destruct r |].
  destruct (ascii_dec c c) as [_ | Hne]; [exact IH | by destruct Hne].
Qed.

Lemma contains_here (x r : string) : PyStr.contains x (x +:+ r) = true.
Proof.
  assert (Hpre : forall s, String.prefix x s = true -> PyStr.contains x s = true).
  { intros s Hs. destruct s; cbn [PyStr.contains]; by rewrite Hs. }
  apply Hpre, prefix_append.
Qed.

Lemma contains_refl (x : string) : PyStr.contains x x = true.
Proof.
  assert (Hpre : String.prefix x x = true).
  { induction x as [| c x IH]; simpl; [reflexivity |].
    destruct (ascii_dec c c) as [_ | Hne]; [exact IH | by destruct Hne]. }
  destruct x; cbn [PyStr.contains]; by rewrite Hpre.
Qed.

Lemma contains_skip (x a s : string) :
  PyStr.contains x s = true -> PyStr.contains x (a +:+ s) = true.
Proof.
  intros Hs. induction a as [| c a IH]; simpl; [exact Hs |].
  rewrite IH. apply orb_true_r.
Qed.

Lemma contains_field (b v a r : string) :
  PyStr.contains (b +:+ v +:+ a) (b +:+ v +:+ a +:+ r) = true.
Proof.
  replace (b +:+ v +:+ a +:+ r) with ((b +:+ v +:+ a) +:+ r)
    by (by rewrite !append_assoc).
  apply contains_here.
Qed.

Lemma dict_get_or_union (cfg d : gmap string pyval) (k : string) (dflt : pyval) :
  d !! k = Some dflt -> dict_get_or (cfg ∪ d) k dflt = dict_get_or cfg k dflt.
Proof.
  intros Hd. unfold dict_get_or. destruct (cfg !! k) as [v |] eqn:E.
  - by rewrite (lookup_union_Some_l _ _ _ _ E).
  - by rewrite lookup_union_r, Hd.
Qed.

End Rendering.

(** Finds the field in the text of a document. *)
Ltac find_field :=
  repeat first [ apply contains_field | apply contains_refl | apply contains_skip ].


Section RenderingExamples.
Import Sim.



End RenderingExamples.

(** ** Connected clients *)

Section Leases.
Context `{H : Host}.

#[local] Arguments append : simpl nomatch.

Lemma read_lease_files_run (files : list string) (clients : list ClientLease) (s : state) :
  fst (exec (read_lease_files files clients) s) =
  Ok (clients ++ first_readable files (os s)).
Proof.
  revert clients s. induction files as [| f files IH]; intros clients s.
  - cbn. by rewrite app_nil_r.
  - cbn [read_lease_files first_readable]. rewrite exec_mbind.
    unfold read_lease_file. cbn.
    destruct (perform (Run ["sudo"; "cat"; f] (Some 5)) (os s)) as [[c | flt] w]; cbn.
    + destruct (returncode c =? 0); cbn; [reflexivity | apply IH].
    + apply IH.
Qed.

(** The instant 1700000000 falls in the year 2023 whatever the offset of
    local time, so formatting it succeeds. *)
Lemma format_timestamp_of_lease_line : _format_timestamp 1700000000 <> "unknown".
Proof.
  unfold _format_timestamp.
  pose proof (utc_offset_bound 1700000000) as Hb.
  set (off := utc_offset 1700000000) in *.
  assert (Hd : (1700000000 + off) / 86400 = 19674
               \/ (1700000000 + off) / 86400 = 19675
               \/ (1700000000 + off) / 86400 = 19676).
  { pose proof (Z.div_mod (1700000000 + off) 86400 ltac:(lia)) as Hdm.
    pose proof (Z.mod_pos_bound (1700000000 + off) 86400 ltac:(lia)) as Hm.
    lia. }
  destruct Hd as [-> | [-> | ->]].
  - replace (civil_from_days 19674) with (2023, 11, 13) by (vm_compute; reflexivity).
    cbn. discriminate.
  - replace (civil_from_days 19675) with (2023, 11, 14) by (vm_compute; reflexivity).
    cbn. discriminate.
  - replace (civil_from_days 19676) with (2023, 11, 15) by (vm_compute; reflexivity).
    cbn. discriminate.
Qed.

Lemma parse_lease_short (line : string) :
  (List.length (PyStr.split line) < 3)%nat -> parse_lease line = None.
Proof.
  unfold parse_lease. destruct (PyStr.split line) as [| t [| m [| i rest]]];
    simpl; intros Hlen; [reflexivity | reflexivity | reflexivity | lia].
Qed.

Lemma parse_lease_fields (line : string) :
  (3 <= List.length (PyStr.split line))%nat ->
  exists r,
    parse_lease line = Some r
    /\ mac r = nth 1 (PyStr.split line) EmptyString
    /\ ip r = nth 2 (PyStr.split line) EmptyString
    /\ hostname r = nth 3 (PyStr.split line) "unknown".
Proof.
  unfold parse_lease. destruct (PyStr.split line) as [| t [| m [| i rest]]];
    simpl; intros Hlen; try lia.
  eexists. split; [reflexivity |]. by destruct rest.
Qed.


End Leases.

Section LeaseExamples.
Import Sim.


End LeaseExamples.

(** ** Status *)

(** Closes the side conditions of the status lemmas. *)
Ltac probes_only :=
  unfold probes; repeat (apply List.Forall_cons; [cbn; auto 10 |]); apply List.Forall_nil.

Ltac info_facts :=
  first [ exact I | assumption | probes_only | intros; reflexivity ].

Section Status.
Context `{H : Host}.

Lemma exec_result_independent_of_trace {A : Type} (p : prog A) (s1 s2 : state) :
  os s1 = os s2 -> self s1 = self s2 -> fst (exec p s1) = fst (exec p s2).
Proof.
  destruct s1 as [w1 m1 t1], s2 as [w2 m2 t2]. simpl. intros -> ->.
  rewrite (exec_trace p w2 m2 t1), (exec_trace p w2 m2 t2).
  by destruct (exec p (mkState w2 m2 [])).
Qed.

Lemma count_lines_with_pure (needle : pyval) (ls : list string) (s : state) :
  snd (exec (count_lines_with needle ls) s) = s.
Proof.
  induction ls as [| line ls IH]; [reflexivity |].
  cbn [count_lines_with]. rewrite exec_mbind.
  destruct needle; try reflexivity. cbn [py_in ret exec].
  rewrite exec_mbind. destruct (exec (count_lines_with (PStr s0) ls) s) as [[n | e] s'];
    simpl in IH; subst s'; reflexivity.
Qed.

Lemma run_calls_probes (this : Manager) (calls : list syscall) (w : world) :
  (forall c, In c (probes this) -> snd (perform c w) = w) ->
  Forall (fun c => In c (probes this)) calls ->
  run_calls calls w = w.
Proof.
  intros Hro Hall. induction Hall as [| c calls Hc _ IH]; [reflexivity |].
  unfold run_calls. simpl. rewrite (Hro c Hc). exact IH.
Qed.

Lemma get_hotspot_info_run (s : state) :
  let b := ap_daemon_found (os s)
           && address_on_interface (self s) (snd (perform pgrep_hostapd (os s))) in
  exists info s' calls n,
    exec get_hotspot_info s = (Ok info, s')
    /\ self s' = self s
    /\ syscalls (trace s') = syscalls (trace s) ++ calls
    /\ Forall (fun c => In c (probes (self s))) calls
    /\ os s' = run_calls calls (os s)
    /\ info !! "active" = Some (PBool b)
    /\ info !! "error" = None
    /\ dict_get_or info "clients_count" (PInt 0) = PInt n
    /\ (b = false -> n = 0)
    /\ (clients_probe_ok
         (run_calls [pgrep_hostapd; ip_addr_show (interface (self s))] (os s)) = false ->
       n = 0)
    /\ dict_get_or info "ssid" (PStr "pibridge") = dict_get (hotspot_config (self s)) "ssid"
    /\ dict_get_or info "interface" (PStr "wlan0") = PStr (interface (self s))
    /\ dict_get_or info "ip_address" (PStr "192.168.4.1") =
       dict_get (hotspot_config (self s)) "ip_address".
Proof.
  destruct (is_hotspot_active_run s) as (s1 & E1 & Hself & Htr & Hos).
  unfold get_hotspot_info. rewrite exec_try_except, exec_mbind, E1.
  destruct (ap_daemon_found (os s)) eqn:Hfound; cbn [andb].
  2: { cbn. eexists _, _, [pgrep_hostapd], 0. split; [reflexivity |]. rewrite Hself.
       split_and!; info_facts. }
  destruct (address_on_interface _ _) eqn:Haddr.
  2: { cbn. eexists _, _, [pgrep_hostapd; ip_addr_show (interface (self s))], 0.
       split; [reflexivity |]. rewrite Hself.
       split_and!; info_facts. }
  assert (Hw : run_calls [pgrep_hostapd; ip_addr_show (interface (self s))] (os s) = os s1)
    by (by rewrite Hos).
  rewrite Hw. unfold clients_probe_ok.
  cbn -[count_lines_with]. unfold arp_an in *.
  destruct (perform (Run ["arp"; "-an"] None) (os s1)) as [[c | flt] w3] eqn:Earp;
    cbn -[count_lines_with].
  2: { eexists _, _, [pgrep_hostapd; ip_addr_show (interface (self s)); Run ["arp"; "-an"] None], 0.
       split; [reflexivity |]. rewrite Hself. cbn. rewrite syscalls_app, Htr.
       split_and!; try info_facts.
       - cbn. by rewrite <- app_assoc.
       - change (w3 = snd (perform (Run ["arp"; "-an"] None)
                              (run_calls [pgrep_hostapd; ip_addr_show (interface (self s))]
                                         (os s)))).
         rewrite Hw, Earp. reflexivity. }
  destruct (returncode c =? 0) eqn:Hrc; cbn -[count_lines_with].
  2: { eexists _, _, [pgrep_hostapd; ip_addr_show (interface (self s)); Run ["arp"; "-an"] None], 0.
       split; [reflexivity |]. rewrite Hself. cbn. rewrite syscalls_app, Htr.
       split_and!; try info_facts.
       - cbn. by rewrite <- app_assoc.
       - change (w3 = snd (perform (Run ["arp"; "-an"] None)
                              (run_calls [pgrep_hostapd; ip_addr_show (interface (self s))]
                                         (os s)))).
         rewrite Hw, Earp. reflexivity. }
  rewrite !exec_bind.
  match goal with |- context [exec (count_lines_with ?v ?ls) ?st] =>
    pose proof (count_lines_with_pure v ls st) as Hpure;
    destruct (exec (count_lines_with v ls) st) as [[n | e] st'] end;
    simpl in Hpure; subst st'; cbn.
  - eexists _, _, [pgrep_hostapd; ip_addr_show (interface (self s)); Run ["arp"; "-an"] None], n.
    split; [reflexivity |]. rewrite Hself. cbn. rewrite syscalls_app, Htr.
    split_and!; try info_facts.
    + cbn. by rewrite <- app_assoc.
    + change (w3 = snd (perform (Run ["arp"; "-an"] None)
                              (run_calls [pgrep_hostapd; ip_addr_show (interface (self s))]
                                         (os s)))).
         rewrite Hw, Earp. reflexivity.
    + discriminate.
    + discriminate.
  - eexists _, _, [pgrep_hostapd; ip_addr_show (interface (self s)); Run ["arp"; "-an"] None], 0.
    split; [reflexivity |]. rewrite Hself. cbn. rewrite syscalls_app, Htr.
    split_and!; try info_facts.
    + cbn. by rewrite <- app_assoc.
    + change (w3 = snd (perform (Run ["arp"; "-an"] None)
                              (run_calls [pgrep_hostapd; ip_addr_show (interface (self s))]
                                         (os s)))).
         rewrite Hw, Earp. reflexivity.
Qed.

(** C8, as amended.  [get_status] never raises and leaves the manager as it
    was; the only commands it issues are the three read-only probes.  The
    status it returns has five fields and nothing else: [active] is the
    outcome of the activity check, the client count is 0 when the check
    says inactive or when the client probe fails (the status then stays
    active), and no diagnostic is attached.  On a host where the probes
    change nothing, the host is left as it was and asking again gives the
    same status. *)
Theorem get_status_reads_only (s : state) :
  let b := ap_daemon_found (os s)
           && address_on_interface (self s) (snd (perform pgrep_hostapd (os s))) in
  exists st s' calls,
    exec get_status s = (Ok st, s')
    /\ self s' = self s
    /\ syscalls (trace s') = syscalls (trace s) ++ calls
    /\ Forall (fun c => In c (probes (self s))) calls
    /\ active st = PBool b
    /\ (b = false -> clients st = PInt 0)
    /\ (clients_probe_ok
         (run_calls [pgrep_hostapd; ip_addr_show (interface (self s))] (os s)) = false ->
       clients st = PInt 0)
    /\ ssid st = dict_get (hotspot_config (self s)) "ssid"
    /\ status_interface st = PStr (interface (self s))
    /\ ip_address st = dict_get (hotspot_config (self s)) "ip_address"
    /\ ((forall c, In c (probes (self s)) -> snd (perform c (os s)) = os s) ->
        os s' = os s /\ fst (exec get_status s') = Ok st).
Proof.
  intros b.
  destruct (get_hotspot_info_run s)
    as (info & s' & calls & n & E & Hself & Htr & Hall & Hos & Hact & _ & Hn & Hb & Hp
        & Hssid & Hif & Hip).
  assert (Hrun : exec get_status s =
                 (Ok (mkHotspotStatus (PBool b)
                        (dict_get (hotspot_config (self s)) "ssid")
                        (PStr (interface (self s)))
                        (dict_get (hotspot_config (self s)) "ip_address")
                        (PInt n)), s')).
  { unfold get_status. rewrite exec_mbind, E. cbn [exec ret].
    rewrite Hssid, Hif, Hip, Hn. unfold dict_get_or at 1. fold b in Hact. by rewrite Hact. }
  eexists _, s', calls. split; [exact Hrun |]. cbn [active clients ssid status_interface ip_address].
  split_and!; try done.
  - intros Hb'. by rewrite (Hb Hb').
  - intros Hp'. by rewrite (Hp Hp').
  - intros Hro.
    assert (Hos' : os s' = os s) by (rewrite Hos; by apply (run_calls_probes (self s))).
    split; [exact Hos' |].
    rewrite (exec_result_independent_of_trace get_status s' s Hos' Hself).
    by rewrite Hrun.
Qed.

End Status.

Section StatusExamples.
Import Sim.

(** Asking the running device for its status, twice; asking a freshly
    booted device; and asking a running device without [arp]. *)
Lemma get_status_reads_only_witness :
  (let s := boot default_hotspot_config up in
   (forall c, In c (probes (self s)) -> snd (perform c (os s)) = os s)
   /\ exists st s',
        exec get_status s = (Ok st, s')
        /\ active st = PBool true
        /\ os s' = os s
        /\ fst (exec get_status s') = Ok st)
  /\
  (let s := boot default_hotspot_config fresh in
   ap_daemon_found (os s)
   && address_on_interface (self s) (snd (perform pgrep_hostapd (os s))) = false
   /\ exists st, fst (exec get_status s) = Ok st /\ clients st = PInt 0)
  /\
  (let s := boot default_hotspot_config (without_programs ["arp"] up) in
   clients_probe_ok
     (run_calls [pgrep_hostapd; ip_addr_show (interface (self s))] (os s)) = false
   /\ exists st,
        fst (exec get_status s) = Ok st /\ active st = PBool true /\ clients st = PInt 0).
Proof.
  split; [| split].
  - intros s.
    assert (Hro : forall c, In c (probes (self s)) -> snd (perform c (os s)) = os s).
    { intros c [<- | [<- | [<- | []]]]; vm_compute; reflexivity. }
    split; [exact Hro |].
    destruct (get_status_reads_only s)
      as (st & s' & calls & Hrun & _ & _ & _ & Hact & _ & _ & _ & _ & _ & Hpure).
    exists st, s'. split; [exact Hrun |].
    split; [rewrite Hact; vm_compute; reflexivity |].
    exact (Hpure Hro).
  - intros s.
    assert (Hb : ap_daemon_found (os s)
                 && address_on_interface (self s) (snd (perform pgrep_hostapd (os s)))
                 = false) by (vm_compute; reflexivity).
    split; [exact Hb |].
    destruct (get_status_reads_only s)
      as (st & s' & calls & Hrun & _ & _ & _ & _ & Hinactive & _).
    exists st. split; [by rewrite Hrun | exact (Hinactive Hb)].
  - intros s.
    assert (Hp : clients_probe_ok
                   (run_calls [pgrep_hostapd; ip_addr_show (interface (self s))] (os s))
                 = false) by (vm_compute; reflexivity).
    split; [exact Hp |].
    destruct (get_status_reads_only s)
      as (st & s' & calls & Hrun & _ & _ & _ & Hact & _ & Hprobe & _).
    exists st. split; [by rewrite Hrun |].
    split; [rewrite Hact; vm_compute; reflexivity | exact (Hprobe Hp)].
Defined.

(** C8, the claim as stated fails.  When the process probe cannot be
    launched, the activity check swallows the failure: the information
    dictionary says inactive and has no [error] entry.  When only the client
    probe cannot be launched, the status is not even inactive-looking: it
    stays active, with a client count of 0. *)
Lemma status_probe_failure_without_diagnostic :
  (let s := boot default_hotspot_config (without_programs ["pgrep"] up) in
   exists info,
     fst (exec get_hotspot_info s) = Ok info
     /\ info !! "active" = Some (PBool false)
     /\ info !! "error" = None)
  /\
  (let s := boot default_hotspot_config (without_programs ["arp"] up) in
   fst (exec get_status s) =
   Ok (mkHotspotStatus (PBool true) (PStr "pibridge") (PStr "wlan0")
                       (PStr "192.168.4.1") (PInt 0))).
Proof.
  split.
  - exists (<["active" := PBool false]>
            (<["ssid" := PStr "pibridge"]>
            (<["interface" := PStr "wlan0"]>
            (<["ip_address" := PStr "192.168.4.1"]> ∅)))).
    vm_compute. repeat split.
  - vm_compute. reflexivity.
Qed.

End StatusExamples.

(** ** Overlapping calls *)

Section Overlap.
Context `{H : Host}.

(** A thread that is left alone runs its call to the end, and ends as a
    call made alone on the same state would. *)
Lemma second_runs_to_completion {A B : Type} (p : prog A) (q : prog B)
      (s : state) (j : list (thread * event)) :
  exists n j',
    interleave (List.repeat T2 n) (mkPool p q s j) =
    mkPool p (Ret (fst (exec q s))) (snd (exec q s)) j'.
Proof.
  revert s j. induction q as [b | c k IH | k IH | m k IH | lvl msg k IH]; intros s j.
  - exists 0%nat, j. reflexivity.
  - destruct (perform c (os s)) as [r w] eqn:E.
    destruct (IH r (mkState w (self s) (trace s ++ [EvSys c])) (j ++ [(T2, EvSys c)]))
      as (n & j' & Hn).
    exists (S n), j'. cbn [List.repeat interleave fold_left].
    unfold move at 2. cbn [second shared first journal step next_event note].
    rewrite E. cbn [exec]. rewrite E. exact Hn.
  - destruct (IH (self s) s j) as (n & j' & Hn).
    exists (S n), j'. exact Hn.
  - destruct (IH (mkState (os s) m (trace s)) j) as (n & j' & Hn).
    exists (S n), j'. exact Hn.
  - destruct (IH (record (EvLog lvl msg) s) (j ++ [(T2, EvLog lvl msg)])) as (n & j' & Hn).
    exists (S n), j'. exact Hn.
Qed.


End Overlap.

Section OverlapExamples.
Import Sim.


End OverlapExamples.

(** * Further properties

    What the code shows beyond the properties above: the smaller methods of
    the manager, what holds of every call, the lease text, and the callers
    and callees of the manager in [src/config_manager.py],
    [src/rfkill_checker.py], [src/logger.py] and
    [src/pibridge_web/api/hotspot.py]. *)

(** ** The smaller methods *)

Section Privileges.
Context `{H : Host}.

Lemma check_sudo_access_run (s : state) :
  exec _check_sudo_access s =
  (Ok (exits_zero sudo_probe (os s)),
   mkState (snd (perform sudo_probe (os s))) (self s) (trace s ++ [EvSys sudo_probe])).
Proof.
  unfold exits_zero, sudo_probe, _check_sudo_access. cbn.
  destruct (perform (Run ["sudo"; "-n"; "true"] (Some 5)) (os s)) as [[c | f] w]; reflexivity.
Qed.

(** X1.  [_check_sudo_access] never raises.  It answers [True] exactly when
    [sudo -n true] runs and exits with 0, and [False] when the command exits
    otherwise, overruns its five seconds or cannot be launched.  It issues
    that one command, writes no log record and leaves the manager as it
    was. *)
Theorem check_sudo_access_never_raises (s : state) :
  fst (exec _check_sudo_access s) = Ok (exits_zero sudo_probe (os s))
  /\ os (snd (exec _check_sudo_access s)) = snd (perform sudo_probe (os s))
  /\ self (snd (exec _check_sudo_access s)) = self s
  /\ trace (snd (exec _check_sudo_access s)) = trace s ++ [EvSys sudo_probe].
Proof. by rewrite check_sudo_access_run. Qed.

(** X2.  [_disconnect_wifi] is best effort: it never raises and leaves the
    manager as it was.  It issues the [sudo] check and then one
    [nmcli dev disconnect] of the interface with a timeout of ten seconds,
    prefixed with [sudo] exactly when the check succeeded.  The exit code of
    [nmcli] is not looked at: once the command has returned, the disconnect
    is logged as done; a timeout and a launch failure are logged as
    warnings. *)
Theorem disconnect_wifi_best_effort (s : state) :
  let sudo := exits_zero sudo_probe (os s) in
  let cmd := nmcli_disconnect sudo (interface (self s)) in
  let w1 := snd (perform sudo_probe (os s)) in
  exec _disconnect_wifi s =
  (Ok tt,
   mkState (snd (perform cmd w1)) (self s)
           (trace s ++ [EvSys sudo_probe; EvSys cmd; disconnect_record (fst (perform cmd w1))])).
Proof.
  unfold exits_zero, sudo_probe, nmcli_disconnect, _disconnect_wifi. cbn.
  destruct (perform (Run ["sudo"; "-n"; "true"] (Some 5)) (os s)) as [[c | f] w]; cbn.
  - destruct (perform _ w) as [[c' | [msg | msg]] w']; cbn;
      unfold record; cbn; rewrite <- ?app_assoc; reflexivity.
  - destruct (perform _ w) as [[c' | [msg | msg]] w']; cbn;
      unfold record; cbn; rewrite <- ?app_assoc; reflexivity.
Qed.

End Privileges.

Section Files.
Context `{H : Host}.


End Files.

Section Daemons.
Context `{H : Host}.

(** X4.  A daemon launch that exits with a non-zero code, in
    [_start_hostapd] and [_start_dnsmasq].  When the launch printed nothing,
    the method raises [HotspotError] with the text of the
    [CalledProcessError].  When it printed anything on either stream, the
    handler calls [decode] on captured text and what comes out is an
    [AttributeError]: the launch failure is masked.  In both cases the
    daemon is not looked for: the only commands are the [sudo] check and the
    launch. *)
Theorem start_daemon_launch_failure (name : string) (args : list string)
    (s : state) (c : completed) :
  let cmd := launch (exits_zero sudo_probe (os s)) name args in
  fst (perform cmd (run_calls [sudo_probe] (os s))) = Returned c ->
  returncode c <> 0 ->
  fst (exec (start_daemon name args) s) =
    (if nonempty (stderr c) || nonempty (stdout c)
     then Raise no_decode
     else Raise (HotspotError
                   ("Failed to start " +:+ name +:+ ": " +:+
                    str_exn (CalledProcessError (returncode c)
                               (sudo_prefix (exits_zero sudo_probe (os s)) ++ name :: args)
                               (stdout c) (stderr c)))))
  /\ syscalls (trace (snd (exec (start_daemon name args) s))) =
     syscalls (trace s) ++ [sudo_probe; cmd].
Proof.
  intros cmd Hret Hrc. revert Hret. unfold cmd, launch, run_calls, exits_zero, sudo_probe.
  cbn [fold_left]. unfold start_daemon.
  rewrite exec_try_except, exec_mbind.
  pose proof (check_sudo_access_run s) as Hs. unfold exits_zero, sudo_probe in Hs.
  rewrite Hs. clear Hs.
  set (sudo := match fst (perform (Run ["sudo"; "-n"; "true"] (Some 5)) (os s)) with
               | Returned c0 => returncode c0 =? 0 | Raised _ => false end).
  cbn -[str_exn]. intros Hret.
  destruct (perform (Run (sudo_prefix sudo ++ name :: args) None) _) as [r w].
  cbn [fst] in Hret. subst r. cbn -[str_exn].
  apply Z.eqb_neq in Hrc. rewrite Hrc. cbn -[str_exn].
  destruct (stderr c) as [| a err]; cbn -[str_exn].
  - destruct (stdout c) as [| b out]; cbn -[str_exn]; split; try reflexivity; by trace_facts.
  - split; [reflexivity | by trace_facts].
Qed.

(** X5.  [_start_hostapd] and [_start_dnsmasq] return normally exactly when
    the launch command exits with 0 and, one second later, the name-pattern
    probe for the daemon exits with 0.  When the launch succeeded and the
    probe ran but found nothing, the method raises [HotspotError] with the
    text [<name> process not found after startup command].  After a
    successful launch the commands issued are the [sudo] check, the launch,
    the sleep and the probe. *)
Theorem start_daemon_succeeds_iff (name : string) (args : list string) (s : state) :
  let cmd := launch (exits_zero sudo_probe (os s)) name args in
  let launched := exits_zero cmd (run_calls [sudo_probe] (os s)) in
  let found := exits_zero (pgrep name) (run_calls [sudo_probe; cmd; Sleep 1] (os s)) in
  (fst (exec (start_daemon name args) s) = Ok tt <-> launched = true /\ found = true)
  /\ (launched = true ->
      (exists c, fst (perform (pgrep name) (run_calls [sudo_probe; cmd; Sleep 1] (os s)))
                 = Returned c) ->
      found = false ->
      fst (exec (start_daemon name args) s) =
      Raise (HotspotError (name +:+ " process not found after startup command")))
  /\ (launched = true ->
      syscalls (trace (snd (exec (start_daemon name args) s))) =
      syscalls (trace s) ++ [sudo_probe; cmd; Sleep 1; pgrep name]).
Proof.
  unfold launch, pgrep, run_calls, exits_zero, sudo_probe.
  cbn [fold_left]. unfold start_daemon.
  rewrite exec_try_except, exec_mbind.
  pose proof (check_sudo_access_run s) as Hs. unfold exits_zero, sudo_probe in Hs.
  rewrite Hs. clear Hs.
  set (sudo := match fst (perform (Run ["sudo"; "-n"; "true"] (Some 5)) (os s)) with
               | Returned c0 => returncode c0 =? 0 | Raised _ => false end).
  cbn -[str_exn].
  destruct (perform (Run (sudo_prefix sudo ++ name :: args) None) _) as [[c | [f | f]] w];
    cbn -[str_exn].
  2, 3: split; [split; [discriminate | intros [? _]; discriminate] |];
        split; intros Hl; discriminate Hl.
  destruct (returncode c =? 0) eqn:Hrc; cbn -[str_exn].
  2: { split; [| split; intros Hl; discriminate Hl].
       split; [| intros [? _]; discriminate].
       destruct (stderr c); cbn -[str_exn]; [destruct (stdout c); cbn -[str_exn] |]; discriminate. }
  destruct (perform (Sleep 1) w) as [[] w1]; cbn -[str_exn].
  destruct (perform (Run ["pgrep"; "-f"; name] None) w1) as [[c' | [f' | f']] w2];
    cbn -[str_exn].
  2, 3: split; [split; [discriminate | intros [_ ?]; discriminate] |];
        (split; [intros _ [c' Hc']; discriminate Hc' | intros _; by trace_facts]).
  destruct (returncode c' =? 0) eqn:Hrc'; cbn -[str_exn].
  - split; [split; auto |]. split; [intros _ _ Hf; discriminate Hf | intros _; by trace_facts].
  - split; [split; [discriminate | intros [_ ?]; discriminate] |].
    split; [intros; reflexivity | intros _; by trace_facts].
Qed.

End Daemons.

Section SudoRequired.
Context `{H : Host}.

(** What [start_hotspot] raises once its pipeline has failed. *)
Lemma start_hotspot_wraps (s s1 : state) (e : exn) :
  exec start_pipeline s = (Raise e, s1) ->
  fst (exec start_hotspot s) =
  Raise (HotspotError ("Failed to start hotspot: " +:+ str_exn e)).
Proof.
  intros Hpipe. unfold start_hotspot. rewrite exec_try_except, Hpipe.
  unfold start_failed. rewrite exec_mbind, exec_log, exec_mbind, exec_log, exec_mbind.
  match goal with |- context [exec stop_hotspot ?s2] =>
    destruct (stop_hotspot_returns s2) as [b Hb];
    destruct (exec stop_hotspot s2) as [r s3] end.
  simpl in Hb. subst r. reflexivity.
Qed.

Lemma start_pipeline_without_sudo (s : state) :
  fst (exec is_hotspot_active s) = Ok false ->
  exits_zero sudo_probe (os (snd (exec is_hotspot_active s))) = false ->
  exists s1,
    exec start_pipeline s = (Raise (HotspotError sudo_required_msg), s1)
    /\ syscalls (trace s1) = syscalls (trace (snd (exec is_hotspot_active s))) ++ [sudo_probe].
Proof.
  intros Hact Hsudo.
  destruct (is_hotspot_active_run s) as (s1 & E1 & Hself1 & Htr1 & Hos1).
  set (s0 := record (EvLog INFO "=== Starting WiFi Hotspot Process ===") s).
  destruct (is_hotspot_active_run s0) as (s2 & E2 & Hself2 & Htr2 & Hos2).
  change (os s0) with (os s) in *. change (self s0) with (self s) in *.
  rewrite E1 in Hact, Hsudo. cbn [fst snd] in Hact, Hsudo.
  assert (Hb : ap_daemon_found (os s)
               && address_on_interface (self s) (snd (perform pgrep_hostapd (os s))) = false)
    by congruence.
  rewrite Hb in E2.
  assert (Hos : os s2 = os s1) by congruence.
  eexists. split.
  - unfold start_pipeline. rewrite exec_mbind, exec_log. fold s0.
    rewrite exec_mbind, E2. rewrite exec_mbind, check_sudo_access_run.
    rewrite Hos, Hsudo. reflexivity.
  - rewrite E1. cbn. rewrite !syscalls_app, Htr2, Htr1. unfold s0. cbn.
    rewrite syscalls_app. cbn. by rewrite !app_nil_r.
Qed.

(** X6.  Without password-less [sudo], the start of a hotspot that is not
    already active fails before anything is changed: the pipeline raises the
    sudo-required [HotspotError] right after the [sudo] check, the only
    commands issued up to then being the probes of the activity check and
    that check; [start_hotspot] raises it wrapped. *)
Theorem start_hotspot_requires_sudo (s : state) :
  fst (exec is_hotspot_active s) = Ok false ->
  exits_zero sudo_probe (os (snd (exec is_hotspot_active s))) = false ->
  fst (exec start_pipeline s) = Raise (HotspotError sudo_required_msg)
  /\ fst (exec start_hotspot s) =
     Raise (HotspotError ("Failed to start hotspot: " +:+ sudo_required_msg))
  /\ syscalls (trace (snd (exec start_pipeline s))) =
     syscalls (trace (snd (exec is_hotspot_active s))) ++ [sudo_probe].
Proof.
  intros Hact Hsudo.
  destruct (start_pipeline_without_sudo s Hact Hsudo) as (s1 & Hpipe & Htr).
  split; [by rewrite Hpipe |].
  split; [exact (start_hotspot_wraps s s1 _ Hpipe) | by rewrite Hpipe].
Qed.

End SudoRequired.

(** ** Contracts of the methods *)

Section Contracts.
Context `{H : Host}.
Context (C : syscall -> Prop) (I : Manager -> Prop).

Lemma meets_bind {A B : Type} (Qp : A -> Prop) (Q : B -> Prop) (p : prog A) (f : A -> prog B) :
  meets C I Qp p -> (forall a, Qp a -> meets C I Q (f a)) -> meets C I Q (bind p f).
Proof.
  intros Hp Hf. induction p as [a | c k IH | k IH | m k IH | lvl msg k IH]; simpl in *.
  - by apply Hf.
  - destruct Hp as [Hc Hk]. split; [exact Hc |]. intros r. apply IH, Hk.
  - intros m Hm. apply IH, Hp, Hm.
  - destruct Hp as [Hm Hk]. split; [exact Hm |]. apply IH, Hk.
  - apply IH, Hp.
Qed.

Lemma meets_mbind {A B : Type} (Qp : result A -> Prop) (Q : result B -> Prop)
    (p : M A) (f : A -> M B) :
  meets C I Qp p ->
  (forall a, Qp (Ok a) -> meets C I Q (f a)) ->
  (forall e, Qp (Raise e) -> Q (Raise e)) ->
  meets C I Q (mbind p f).
Proof.
  intros Hp Hf He. apply (meets_bind Qp); [exact Hp |].
  intros [a | e] Hr; [by apply Hf | by apply He].
Qed.

Lemma meets_try_except {A : Type} (Qp Q : result A -> Prop) (p : M A) (h : exn -> M A) :
  meets C I Qp p ->
  (forall a, Qp (Ok a) -> Q (Ok a)) ->
  (forall e, Qp (Raise e) -> meets C I Q (h e)) ->
  meets C I Q (try_except p h).
Proof.
  intros Hp Ha Hh. apply (meets_bind Qp); [exact Hp |].
  intros [a | e] Hr; [by apply Ha | by apply Hh].
Qed.

(** What a contract says of a run. *)
Lemma meets_exec {A : Type} (Q : A -> Prop) (p : prog A) (s : state) :
  meets C I Q p -> I (self s) ->
  Q (fst (exec p s))
  /\ I (self (snd (exec p s)))
  /\ exists calls,
       syscalls (trace (snd (exec p s))) = syscalls (trace s) ++ calls
       /\ Forall C calls.
Proof.
  revert s. induction p as [a | c k IH | k IH | m k IH | lvl msg k IH];
    intros s Hp Hs; simpl in *.
  - split; [exact Hp |]. split; [exact Hs |]. exists []. by rewrite app_nil_r.
  - destruct Hp as [Hc Hk]. destruct (perform c (os s)) as [r w].
    destruct (IH r (mkState w (self s) (trace s ++ [EvSys c])) (Hk r) Hs)
      as (HQ & HI & calls & Htr & Hall).
    split; [exact HQ |]. split; [exact HI |].
    exists (c :: calls). split; [| by constructor].
    rewrite Htr. simpl. rewrite syscalls_app. simpl. by rewrite <- app_assoc.
  - apply IH; [by apply Hp | exact Hs].
  - destruct Hp as [Hm Hk]. apply (IH (mkState (os s) m (trace s)) Hk Hm).
  - destruct (IH (record (EvLog lvl msg) s) Hp Hs) as (HQ & HI & calls & Htr & Hall).
    split; [exact HQ |]. split; [exact HI |].
    exists calls. split; [| exact Hall].
    rewrite Htr. simpl. rewrite syscalls_app. simpl. by rewrite app_nil_r.
Qed.

Lemma meets_get_self {A : Type} (Q : result A -> Prop) (f : Manager -> M A) :
  (forall m, I m -> meets C I Q (f m)) -> meets C I Q (mbind get_self f).
Proof. intros Hf m Hm. simpl. by apply Hf. Qed.

Lemma meets_modify_self (f : Manager -> Manager) :
  (forall m, I m -> I (f m)) -> meets C I anything (modify_self f).
Proof. intros Hf m Hm. simpl. split; [by apply Hf | exact Logic.I]. Qed.

Lemma meets_for_each {A : Type} (l : list A) (body : A -> M unit) :
  (forall x, meets C I anything (body x)) -> meets C I anything (for_each l body).
Proof.
  intros Hb. induction l as [| x l IH]; simpl; [exact Logic.I |].
  apply (meets_mbind anything); [apply Hb | intros _ _; exact IH | intros; exact Logic.I].
Qed.

End Contracts.

Create HintDb contract.

(** Walks through a method body, one statement at a time; the statements
    before the last one may end as they like. *)
Ltac contract_step :=
  match goal with
  | |- meets _ _ _ (mbind get_self _) => apply meets_get_self; intros ? ?
  | |- meets _ _ _ (mbind _ _) =>
      apply (meets_mbind _ _ anything); [| intros ? _ | intros ? _]
  | |- meets _ _ _ (try_except _ _) =>
      apply (meets_try_except _ _ anything); [| intros ? _ | intros ? _]
  | |- meets _ _ _ (bind _ _) => apply (meets_bind _ _ anything); [| intros ? _]
  | |- meets _ _ _ (if ?b then _ else _) => destruct b
  | |- meets _ _ _ (when ?b _) => destruct b; unfold when
  | |- meets _ _ _ (match ?x with _ => _ end) => destruct x
  | |- meets _ _ anything _ => solve [auto with contract]
  | |- anything _ => exact Logic.I
  | |- meets _ _ _ (ret _) => cbn [meets ret]
  | |- meets _ _ _ (raise _) => cbn [meets raise]
  | |- meets _ _ _ (log _ _) => cbn [meets log]
  end.

Ltac contract_walk := cbv zeta; repeat (contract_step; cbv zeta).

Section MethodContracts.
Context `{H : Host}.
Context (I : Manager -> Prop).
Hypothesis keeps_hostapd : forall m v, I m -> I (set_hostapd_process v m).
Hypothesis keeps_dnsmasq : forall m v, I m -> I (set_dnsmasq_process v m).

Lemma ct_subprocess_run cmd timeout check :
  footprint (Run cmd timeout) -> meets footprint I anything (subprocess_run cmd timeout check).
Proof.
  intros Hc. unfold subprocess_run. simpl. split; [exact Hc |].
  intros [c | f]; [destruct (check && _) |]; exact Logic.I.
Qed.

Lemma ct_sudo_run (b : bool) name args timeout check :
  mem name programs = true -> String.eqb name "sudo" = false ->
  meets footprint I anything (subprocess_run (sudo_prefix b ++ name :: args) timeout check).
Proof.
  intros Hn Hs. apply ct_subprocess_run. unfold footprint, within_footprint.
  destruct b; cbn [sudo_prefix app program_of].
  - change (String.eqb "sudo" "sudo") with true. cbv iota.
    destruct (String.eqb name "-n") eqn:E.
    + apply String.eqb_eq in E. subst name. discriminate Hn.
    + exact Hn.
  - by rewrite Hs.
Qed.

Lemma ct_write_file path content :
  footprint (WriteFile path content) -> meets footprint I anything (write_file path content).
Proof. intros Hc. simpl. split; [exact Hc |]. intros [[] | f]; exact Logic.I. Qed.

Lemma ct_path_exists path :
  footprint (PathExists path) -> meets footprint I anything (path_exists path).
Proof. intros Hc. simpl. split; [exact Hc |]. intros b; exact Logic.I. Qed.

Lemma ct_os_remove path :
  footprint (Remove path) -> meets footprint I anything (os_remove path).
Proof. intros Hc. simpl. split; [exact Hc |]. intros [[] | f]; exact Logic.I. Qed.

Lemma ct_sleep secs : meets footprint I anything (sleep secs).
Proof. simpl. split; [reflexivity |]. intros u; exact Logic.I. Qed.

Lemma ct_get_self : meets footprint I anything get_self.
Proof. simpl. intros m _. exact Logic.I. Qed.

Lemma ct_py_in v s : meets footprint I anything (py_in v s).
Proof. destruct v; exact Logic.I. Qed.

Lemma ct_log lvl msg : meets footprint I anything (log lvl msg).
Proof. exact Logic.I. Qed.

Lemma ct_ret {A : Type} (a : A) : meets footprint I anything (ret a).
Proof. exact Logic.I. Qed.

Lemma ct_raise {A : Type} e : meets footprint I anything (@raise A e).
Proof. exact Logic.I. Qed.

Lemma ct_popen_terminate p : meets footprint I anything (popen_terminate p).
Proof. simpl. split; [reflexivity |]. intros [[] | f]; exact Logic.I. Qed.

Lemma ct_popen_wait p t : meets footprint I anything (popen_wait p t).
Proof. simpl. split; [reflexivity |]. intros [n | f]; exact Logic.I. Qed.

Lemma ct_popen_kill p : meets footprint I anything (popen_kill p).
Proof. simpl. split; [reflexivity |]. intros [[] | f]; exact Logic.I. Qed.

Hint Resolve ct_sleep ct_get_self ct_py_in ct_log ct_ret ct_raise
  ct_popen_terminate ct_popen_wait ct_popen_kill : contract.
Hint Extern 1 (meets footprint _ anything (subprocess_run (sudo_prefix _ ++ _) _ _)) =>
  (apply ct_sudo_run; reflexivity) : contract.
Hint Extern 2 (meets footprint _ anything (subprocess_run _ _ _)) =>
  (apply ct_subprocess_run; reflexivity) : contract.
Hint Extern 1 (meets footprint _ anything (write_file _ _)) =>
  (apply ct_write_file; reflexivity) : contract.
Hint Extern 1 (meets footprint _ anything (path_exists _)) =>
  (apply ct_path_exists; reflexivity) : contract.
Hint Extern 1 (meets footprint _ anything (os_remove _)) =>
  (apply ct_os_remove; reflexivity) : contract.

Lemma ct_check_sudo_access : meets footprint I anything _check_sudo_access.
Proof. unfold _check_sudo_access. contract_walk. Qed.
Hint Resolve ct_check_sudo_access : contract.

Lemma ct_is_hotspot_active : meets footprint I anything is_hotspot_active.
Proof. unfold is_hotspot_active. contract_walk. Qed.
Hint Resolve ct_is_hotspot_active : contract.

Lemma ct_disconnect_wifi : meets footprint I anything _disconnect_wifi.
Proof. unfold _disconnect_wifi. contract_walk. Qed.

Lemma ct_configure_interface_ip : meets footprint I anything _configure_interface_ip.
Proof. unfold _configure_interface_ip. contract_walk. Qed.

Lemma ct_create_hostapd_config : meets footprint I anything _create_hostapd_config.
Proof. unfold _create_hostapd_config. contract_walk. Qed.

Lemma ct_create_dnsmasq_config : meets footprint I anything _create_dnsmasq_config.
Proof. unfold _create_dnsmasq_config. contract_walk. Qed.

Lemma ct_decoded_text x : meets footprint I anything (decoded_text x).
Proof. destruct x; exact Logic.I. Qed.
Hint Resolve ct_decoded_text : contract.

Lemma ct_start_hostapd : meets footprint I anything _start_hostapd.
Proof. unfold _start_hostapd, start_daemon. contract_walk. Qed.

Lemma ct_start_dnsmasq : meets footprint I anything _start_dnsmasq.
Proof. unfold _start_dnsmasq, start_daemon. contract_walk. Qed.

Lemma ct_cleanup_config_files : meets footprint I anything _cleanup_config_files.
Proof.
  unfold _cleanup_config_files. contract_walk.
  cbn [for_each]. contract_walk.
Qed.

Hint Resolve ct_disconnect_wifi ct_configure_interface_ip ct_create_hostapd_config
  ct_create_dnsmasq_config ct_start_hostapd ct_start_dnsmasq ct_cleanup_config_files
  : contract.

Lemma ct_terminate_handle p : meets footprint I anything (terminate_handle p).
Proof. unfold terminate_handle. contract_walk. Qed.
Hint Resolve ct_terminate_handle : contract.

Lemma ct_stop_hotspot : meets footprint I anything stop_hotspot.
Proof.
  unfold stop_hotspot. contract_walk;
    apply meets_modify_self; intros m' Hm'; auto.
Qed.
Hint Resolve ct_stop_hotspot : contract.

Lemma ct_start_pipeline : meets footprint I anything start_pipeline.
Proof. unfold start_pipeline. contract_walk. Qed.
Hint Resolve ct_start_pipeline : contract.

Lemma ct_start_hotspot : meets footprint I anything start_hotspot.
Proof. unfold start_hotspot, start_failed. contract_walk. Qed.

Lemma ct_count_lines_with needle ls : meets footprint I anything (count_lines_with needle ls).
Proof. induction ls as [| line ls IH]; cbn [count_lines_with]; contract_walk. Qed.
Hint Resolve ct_count_lines_with : contract.

Lemma ct_get_hotspot_info : meets footprint I anything get_hotspot_info.
Proof. unfold get_hotspot_info. contract_walk. Qed.
Hint Resolve ct_get_hotspot_info : contract.

Lemma ct_get_status : meets footprint I anything get_status.
Proof. unfold get_status. contract_walk. Qed.

Lemma ct_read_lease_file f clients : meets footprint I anything (read_lease_file f clients).
Proof. unfold read_lease_file. contract_walk. Qed.
Hint Resolve ct_read_lease_file : contract.

Lemma ct_read_lease_files files clients :
  meets footprint I anything (read_lease_files files clients).
Proof.
  revert clients. induction files as [| f files IH]; intros clients;
    cbn [read_lease_files]; contract_walk.
Qed.
Hint Resolve ct_read_lease_files : contract.

Lemma ct_get_connected_clients : meets footprint I anything get_connected_clients.
Proof. unfold get_connected_clients. contract_walk. Qed.

Lemma ct_get_interface : meets footprint I anything get_interface.
Proof. unfold get_interface. contract_walk. Qed.

End MethodContracts.

#[global] Hint Resolve ct_sleep ct_get_self ct_py_in ct_log ct_ret ct_raise
  ct_check_sudo_access ct_is_hotspot_active ct_disconnect_wifi ct_configure_interface_ip
  ct_create_hostapd_config ct_create_dnsmasq_config ct_start_hostapd ct_start_dnsmasq
  ct_cleanup_config_files ct_stop_hotspot : contract.
#[global] Hint Extern 2 (meets footprint _ anything (subprocess_run _ _ _)) =>
  (apply ct_subprocess_run; reflexivity) : contract.

Section Frames.
Context `{H : Host}.

Lemma mem_In (x : string) (l : list string) : mem x l = true -> In x l.
Proof.
  unfold mem. intros Hx. apply existsb_exists in Hx as (y & Hy & E).
  apply String.eqb_eq in E. by subst y.
Qed.

Lemma load_config_self (r : load_result) (s : state) :
  self (snd (exec (_load_config r) s)) =
  set_hotspot_config (match r with
                      | Loaded cfg => cfg
                      | LoadFailed _ => default_hotspot_config
                      end) (self s)
  /\ syscalls (trace (snd (exec (_load_config r) s))) = syscalls (trace s).
Proof. destruct r; cbn; rewrite syscalls_app; cbn; by rewrite app_nil_r. Qed.


Lemma invoke_contract (I : Manager -> Prop) (c : method) (s : state) :
  (forall m v, I m -> I (set_hostapd_process v m)) ->
  (forall m v, I m -> I (set_dnsmasq_process v m)) ->
  I (self s) ->
  match c with
  | m_load_config _ => True
  | _ => I (self (invoke c s))
  end
  /\ exists calls,
       syscalls (trace (invoke c s)) = syscalls (trace s) ++ calls
       /\ Forall footprint calls.
Proof.
  intros Hh Hd Hs.
  destruct c; cbn [invoke];
    try (match goal with |- context [exec ?p s] =>
           assert (Hp : meets footprint I anything p)
             by auto using ct_is_hotspot_active, ct_start_hotspot, ct_stop_hotspot,
                  ct_disconnect_wifi, ct_configure_interface_ip, ct_check_sudo_access,
                  ct_create_hostapd_config, ct_create_dnsmasq_config, ct_start_hostapd,
                  ct_start_dnsmasq, ct_cleanup_config_files, ct_get_hotspot_info,
                  ct_get_status, ct_get_connected_clients, ct_get_interface;
           exact (proj2 (meets_exec footprint I anything p s Hp Hs))
         end).
  split; [exact Logic.I |]. exists []. rewrite app_nil_r.
  split; [apply load_config_self | constructor].
Qed.

Lemma init_state (r : load_result) (w : world) (m0 : Manager) :
  snd (exec (__init__ r) (mkState w m0 [])) =
  snd (exec (_load_config r) (mkState w (mkManager "wlan0" ∅ None None) [])).
Proof. reflexivity. Qed.

Lemma reachable_footprint (s : state) :
  reachable s -> Forall footprint (syscalls (trace s)).
Proof.
  induction 1 as [w m0 r | s c _ IH | s w _ IH].
  - rewrite init_state.
    destruct (load_config_self r (mkState w (mkManager "wlan0" ∅ None None) [])) as [_ ->].
    constructor.
  - destruct (invoke_contract (fun _ => True) c s) as (_ & calls & -> & Hall); auto.
    apply Forall_app. by split.
  - exact IH.
Qed.

Lemma invoke_frame (c : method) (s : state) :
  hotspot_config (self (invoke c s)) =
    match c with
    | m_load_config (Loaded cfg) => cfg
    | m_load_config (LoadFailed _) => default_hotspot_config
    | _ => hotspot_config (self s)
    end
  /\ interface (self (invoke c s)) = interface (self s).
Proof.
  pose proof (invoke_contract
                (fun m => hotspot_config m = hotspot_config (self s)
                          /\ interface m = interface (self s)) c s) as Hc.
  cbv beta in Hc.
  destruct Hc as [Hc _]; [by intros m v [? ?] | by intros m v [? ?] | by split |].
  destruct c; try exact Hc.
  cbn [invoke]. destruct (load_config_self r s) as [-> _]. by destruct r.
Qed.

Lemma reachable_interface (s : state) : reachable s -> interface (self s) = "wlan0".
Proof.
  induction 1 as [w m0 r | s c _ IH | s w _ IH].
  - rewrite init_state.
    by destruct (load_config_self r (mkState w (mkManager "wlan0" ∅ None None) [])) as [-> _].
  - destruct (invoke_frame c s) as [_ ->]. exact IH.
  - exact IH.
Qed.

(** X8.  No method but [_load_config] changes the configuration of the
    manager, and none changes its interface: after any other call the
    manager holds the configuration it held before, and after
    [_load_config] the loaded one, or the built-in defaults when loading
    raised. *)
Theorem configuration_changes_only_on_load (c : method) (s : state) :
  hotspot_config (self (invoke c s)) =
    match c with
    | m_load_config (Loaded cfg) => cfg
    | m_load_config (LoadFailed _) => default_hotspot_config
    | _ => hotspot_config (self s)
    end
  /\ interface (self (invoke c s)) = interface (self s).
Proof. apply invoke_frame. Qed.

(** X7.  In every reachable state the interface of the manager is [wlan0],
    whatever the configuration says under [interface]: the constructor sets
    it, no method assigns it, and [get_interface] returns it. *)
Theorem interface_is_always_wlan0 (s : state) :
  reachable s ->
  interface (self s) = "wlan0"
  /\ fst (exec get_interface s) = Ok "wlan0"
  /\ forall c : method, interface (self (invoke c s)) = "wlan0".
Proof.
  intros Hr. pose proof (reachable_interface s Hr) as Hi.
  split; [exact Hi |]. split; [cbn; by rewrite Hi |].
  intros c. apply reachable_interface. by constructor.
Qed.


End Frames.

Section Outcomes.
Context `{H : Host}.

Lemma start_pipeline_not_false :
  meets footprint (fun _ => True) (fun r : result bool => r <> Ok false) start_pipeline.
Proof.
  unfold start_pipeline. contract_walk; try discriminate; auto with contract.
Qed.

(** X9.  [start_hotspot] never returns [False]: it returns [True], or it
    raises a [HotspotError] whose message is [Failed to start hotspot: ]
    followed by the text of the exception that ended the pipeline. *)
Theorem start_hotspot_never_returns_false (s : state) :
  fst (exec start_hotspot s) = Ok true
  \/ exists e : exn,
       fst (exec start_pipeline s) = Raise e
       /\ fst (exec start_hotspot s) =
          Raise (HotspotError ("Failed to start hotspot: " +:+ str_exn e)).
Proof.
  destruct (meets_exec _ _ _ start_pipeline s start_pipeline_not_false Logic.I) as [Hq _].
  destruct (exec start_pipeline s) as [[b | e] s1] eqn:Hpipe; cbn [fst] in *.
  - left. unfold start_hotspot. rewrite exec_try_except, Hpipe.
    destruct b; [reflexivity | congruence].
  - right. exists e. split; [reflexivity |]. by apply (start_hotspot_wraps s s1).
Qed.

Lemma is_hotspot_active_without_address :
  meets footprint no_address (fun r : result bool => r = Ok false) is_hotspot_active.
Proof.
  unfold is_hotspot_active.
  apply (meets_try_except _ _ (fun r => r <> Ok true)).
  - apply (meets_mbind _ _ anything); [auto with contract | intros c _ | discriminate].
    destruct (returncode c =? 0); [| discriminate].
    apply meets_get_self. intros this Hthis.
    apply (meets_mbind _ _ anything); [auto with contract | intros c' _ | discriminate].
    apply (meets_mbind _ _ (fun r => forall b, r <> Ok b)).
    + specialize (Hthis). unfold no_address in Hthis.
      destruct (dict_get (hotspot_config this) "ip_address") eqn:E;
        try (cbn; discriminate).
      by destruct (Hthis s).
    + intros b Hb. by destruct (Hb b).
    + discriminate.
  - intros [|] Ha; [congruence | reflexivity].
  - intros e _. reflexivity.
Qed.

Lemma start_pipeline_without_address :
  meets footprint no_address (fun r : result bool => exists e, r = Raise e) start_pipeline.
Proof.
  assert (Hh : forall m v, no_address m -> no_address (set_hostapd_process v m)) by auto.
  assert (Hd : forall m v, no_address m -> no_address (set_dnsmasq_process v m)) by auto.
  unfold start_pipeline.
  repeat first
    [ match goal with
      | |- meets _ _ _ (mbind is_hotspot_active _) =>
          apply (meets_mbind _ _ (fun r => r = Ok false));
          [ apply is_hotspot_active_without_address
          | intros ? Ha; injection Ha as ->
          | intros ? Ha; discriminate Ha ]
      | |- exists e, Raise _ = Raise e => eexists; reflexivity
      | |- meets _ _ _ (if false then _ else _) => cbv iota
      end
    | progress cbv zeta
    | contract_step ].
Qed.

Lemma start_pipeline_raises_without_address (s : state) :
  no_address (self s) -> exists e s1, exec start_pipeline s = (Raise e, s1).
Proof.
  intros Hs.
  destruct (meets_exec _ _ _ start_pipeline s start_pipeline_without_address Hs)
    as [[e He] _].
  destruct (exec start_pipeline s) as [r s1]. cbn [fst] in He. subst r. by exists e, s1.
Qed.

(** X10.  On a manager whose configuration has no [ip_address] entry, or
    one that is not a string, the activity check answers [False] whatever
    the host says (it looks the address up without a default), so
    [start_hotspot] cannot succeed: the final verification fails at the
    latest, and the method raises [HotspotError]. *)
Theorem start_hotspot_needs_an_address (s : state) :
  no_address (self s) ->
  fst (exec is_hotspot_active s) = Ok false
  /\ exists msg : string,
       fst (exec start_hotspot s) = Raise (HotspotError ("Failed to start hotspot: " +:+ msg)).
Proof.
  intros Hs. split.
  - apply (meets_exec _ _ _ is_hotspot_active s is_hotspot_active_without_address Hs).
  - destruct (start_pipeline_raises_without_address s Hs) as (e & s1 & Hpipe).
    exists (str_exn e). by apply (start_hotspot_wraps s s1).
Qed.

Lemma start_hotspot_not_false (s : state) : fst (exec start_hotspot s) <> Ok false.
Proof.
  destruct (meets_exec _ _ _ start_pipeline s start_pipeline_not_false Logic.I) as [Hq _].
  destruct (exec start_pipeline s) as [[b | e] s1] eqn:Hpipe; cbn [fst] in *.
  - unfold start_hotspot. rewrite exec_try_except, Hpipe. exact Hq.
  - by rewrite (start_hotspot_wraps s s1 e Hpipe).
Qed.

End Outcomes.

(** ** A successful start *)

Section Verified.
Context `{H : Host}.

Lemma exec_mbind_ok {A B : Type} (p : M A) (f : A -> M B) (s s' : state) (b : B) :
  exec (mbind p f) s = (Ok b, s') ->
  exists a s1, exec p s = (Ok a, s1) /\ exec (f a) s1 = (Ok b, s').
Proof.
  rewrite exec_mbind. destruct (exec p s) as [[a | e] s1]; [| discriminate].
  intros E. by exists a, s1.
Qed.

(** A step of the pipeline that returned leaves the manager as it was and
    extends the trace. *)
Lemma step_keeps_self {A : Type} (p : M A) (s0 s s1 : state) (a : A) :
  meets footprint (fun m => m = self s) anything p ->
  exec p s = (Ok a, s1) ->
  (self s = self s0 /\ exists e, trace s = trace s0 ++ e) ->
  self s1 = self s0 /\ exists e, trace s1 = trace s0 ++ e.
Proof.
  intros Hp E [Hself [e He]].
  destruct (meets_exec _ _ _ p s Hp eq_refl) as (_ & Hs & _).
  destruct (exec_extends p s) as [e' He'].
  rewrite E in Hs, He'. cbn [snd] in Hs, He'.
  split; [congruence |]. exists (e ++ e'). by rewrite He', He, app_assoc.
Qed.

(** X12.  [True] from [start_hotspot] means verified: the last thing the
    method did on the host is an activity check that answered [True], run on
    the manager as it was at the call and after what the method had done
    until then; the host is left as that check left it, no command follows
    the probes of that check, and the manager is left as it was. *)
Theorem start_hotspot_true_means_verified (s : state) :
  fst (exec start_hotspot s) = Ok true ->
  exists s0,
    self s0 = self s
    /\ (exists before, trace s0 = trace s ++ before)
    /\ fst (exec is_hotspot_active s0) = Ok true
    /\ os (snd (exec start_hotspot s)) = os (snd (exec is_hotspot_active s0))
    /\ syscalls (trace (snd (exec start_hotspot s))) =
       syscalls (trace (snd (exec is_hotspot_active s0)))
    /\ self (snd (exec start_hotspot s)) = self s.
Proof.
  intros Hok.
  assert (Hpipe : exec start_pipeline s = (Ok true, snd (exec start_hotspot s))).
  { revert Hok. unfold start_hotspot. rewrite exec_try_except.
    destruct (exec start_pipeline s) as [[b | e] s1] eqn:E; cbn [fst snd].
    - by intros [= ->].
    - pose proof (start_hotspot_wraps s s1 e E) as Hw.
      unfold start_hotspot in Hw. rewrite exec_try_except, E in Hw.
      rewrite Hw. discriminate. }
  set (sf := snd (exec start_hotspot s)) in *. clearbody sf. clear Hok.
  unfold start_pipeline in Hpipe.
  apply exec_mbind_ok in Hpipe as ([] & s1 & E1 & Hpipe).
  rewrite exec_log in E1. injection E1 as <-.
  set (s1 := record (EvLog INFO "=== Starting WiFi Hotspot Process ===") s) in *.
  assert (J1 : self s1 = self s /\ exists e, trace s1 = trace s ++ e)
    by (split; [reflexivity | by eexists]).
  apply exec_mbind_ok in Hpipe as (active & s2 & E2 & Hpipe).
  destruct (is_hotspot_active_run s1) as (s3 & E3 & Hself3 & _).
  rewrite E2 in E3. injection E3 as Hact <-.
  destruct active.
  { exists s1. cbn in Hpipe. injection Hpipe as <-. rewrite E2. cbn [fst snd].
    destruct J1 as [J1 J1']. split; [exact J1 |]. split; [exact J1' |].
    split; [reflexivity |]. split; [reflexivity |].
    split; [cbn; rewrite syscalls_app; cbn; by rewrite app_nil_r | cbn; congruence]. }
  assert (J2 : self s2 = self s /\ exists e, trace s2 = trace s ++ e).
  { destruct J1 as [J1 [e1 J1']]. split; [congruence |].
    destruct (exec_extends is_hotspot_active s1) as [e' He'].
    rewrite E2 in He'. cbn [snd] in He'. exists (e1 ++ e').
    by rewrite He', J1', app_assoc. }
  clear J1 E2 Hself3 Hact.
  repeat match type of Hpipe with
         | exec (mbind is_hotspot_active _) _ = _ => fail 1
         | exec (mbind ?p _) ?st = _ =>
             let a := fresh "a" in
             let st' := fresh "st" in
             let E := fresh "E" in
             let J := fresh "J" in
             apply exec_mbind_ok in Hpipe as (a & st' & E & Hpipe);
             assert (J : self st' = self s /\ exists e, trace st' = trace s ++ e)
               by (apply (step_keeps_self p s st st' a);
                   [ first [ exact Logic.I
                           | destruct a; exact Logic.I
                           | match goal with |- context [if ?b then _ else _] =>
                               destruct b; exact Logic.I end
                           | auto with contract ]
                   | exact E
                   | assumption ]);
             clear E
         end.
  apply exec_mbind_ok in Hpipe as (active & s3 & E3 & Hpipe).
  match type of E3 with exec is_hotspot_active ?st = _ =>
    exists st; destruct (is_hotspot_active_run st) as (s4 & E4 & Hself4 & _);
    match goal with J : self st = self s /\ _ |- _ => destruct J as [Jself Jtrace] end
  end.
  rewrite E3. cbn [fst snd].
  destruct active; [| cbn in Hpipe; discriminate Hpipe].
  cbn in Hpipe. injection Hpipe as <-.
  rewrite E3 in E4. injection E4 as _ <-.
  split; [exact Jself |]. split; [exact Jtrace |].
  split; [reflexivity |]. split; [reflexivity |].
  split; [| cbn; congruence].
  cbn. rewrite !syscalls_app. cbn. by rewrite !app_nil_r.
Qed.

End Verified.

(** ** The commands of the interface step *)

Section InterfaceCommands.
Context `{H : Host}.


End InterfaceCommands.

(** ** The probes of the read-only methods *)

Section Probing.
Context `{H : Host}.

Lemma read_lease_files_trace (files : list string) (clients : list ClientLease) (s : state) :
  trace (snd (exec (read_lease_files files clients) s)) =
    trace s ++ map EvSys (lease_reads files (os s))
  /\ self (snd (exec (read_lease_files files clients) s)) = self s.
Proof.
  revert clients s. induction files as [| f files IH]; intros clients s.
  - cbn. by rewrite app_nil_r.
  - cbn [read_lease_files lease_reads]. rewrite exec_mbind.
    unfold read_lease_file, sudo_cat. cbn.
    destruct (perform (Run ["sudo"; "cat"; f] (Some 5)) (os s)) as [[c | flt] w]; cbn.
    + destruct (returncode c =? 0); cbn; [done |].
      destruct (IH clients (mkState w (self s) (trace s ++ [EvSys (Run ["sudo"; "cat"; f] (Some 5))])))
        as [-> ->]. cbn. by rewrite <- app_assoc.
    + destruct (IH clients (mkState w (self s) (trace s ++ [EvSys (Run ["sudo"; "cat"; f] (Some 5))])))
        as [-> ->]. cbn. by rewrite <- app_assoc.
Qed.

Lemma lease_reads_candidates (files : list string) (w : world) :
  (List.length (lease_reads files w) <= List.length files)%nat
  /\ Forall (fun c => exists f, In f files /\ c = sudo_cat f) (lease_reads files w).
Proof.
  revert w. induction files as [| f files IH]; intros w; cbn [lease_reads].
  - split; [cbn; lia | constructor].
  - destruct (perform (sudo_cat f) w) as [[c | flt] w'].
    + destruct (returncode c =? 0).
      * split; [cbn; lia |]. constructor; [| constructor]. exists f. split; [by left | done].
      * destruct (IH w') as [Hlen Hall]. split; [cbn; lia |].
        constructor; [exists f; split; [by left | done] |].
        eapply Forall_impl; [exact Hall |]. intros c' (f' & Hin & ->). exists f'.
        split; [by right | done].
    + destruct (IH w') as [Hlen Hall]. split; [cbn; lia |].
      constructor; [exists f; split; [by left | done] |].
      eapply Forall_impl; [exact Hall |]. intros c' (f' & Hin & ->). exists f'.
      split; [by right | done].
Qed.


(** X27.  The activity check never raises and leaves the manager as it was.
    It issues the name-pattern probe for [hostapd] and, only when that probe
    exits with 0, the address listing of the interface: nothing is asked
    about the interface while no access-point daemon is found, and no other
    command is ever issued. *)
Theorem is_hotspot_active_probes_in_order (s : state) :
  (exists b, fst (exec is_hotspot_active s) = Ok b)
  /\ self (snd (exec is_hotspot_active s)) = self s
  /\ syscalls (trace (snd (exec is_hotspot_active s))) =
     syscalls (trace s) ++
     (if exits_zero pgrep_hostapd (os s)
      then [pgrep_hostapd; ip_addr_show (interface (self s))]
      else [pgrep_hostapd])
  /\ os (snd (exec is_hotspot_active s)) =
     run_calls (if exits_zero pgrep_hostapd (os s)
                then [pgrep_hostapd; ip_addr_show (interface (self s))]
                else [pgrep_hostapd]) (os s).
Proof.
  destruct (is_hotspot_active_run s) as (s' & E & Hself & Htr & Hos).
  rewrite E. cbn [fst snd]. split; [by eexists |]. split; [exact Hself |].
  change (exits_zero pgrep_hostapd (os s)) with (ap_daemon_found (os s)).
  rewrite Htr, Hos. by destruct (ap_daemon_found (os s)).
Qed.

End Probing.

(** ** Lease text *)

Section Words.
Context `{H : Host}.

#[local] Arguments append : simpl nomatch.

Lemma split_on_nonempty (sep : ascii) (s : string) : PyStr.split_on sep s <> [].
Proof.
  destruct s as [| c s]; simpl; [discriminate |].
  destruct (Ascii.eqb c sep); [discriminate |].
  destruct (PyStr.split_on sep s); discriminate.
Qed.

Lemma split_on_app (sep : ascii) (a b : string) :
  PyStr.split_on sep (a +:+ String sep b) = PyStr.split_on sep a ++ PyStr.split_on sep b.
Proof.
  induction a as [| c a IH]; simpl.
  - by rewrite Ascii.eqb_refl.
  - rewrite IH. destruct (Ascii.eqb c sep); [reflexivity |].
    pose proof (split_on_nonempty sep a) as Hne.
    destruct (PyStr.split_on sep a) as [| w ws]; [done | reflexivity].
Qed.

Lemma lines_app (a b : string) :
  PyStr.lines (a +:+ nl +:+ b) = PyStr.lines a ++ PyStr.lines b.
Proof. apply split_on_app. Qed.

Lemma parse_leases_app (a b : string) :
  parse_leases (a +:+ nl +:+ b) = parse_leases a ++ parse_leases b.
Proof.
  unfold parse_leases. rewrite lines_app, List.filter_app. apply omap_app.
Qed.


Lemma split_go_words (s : string) :
  spaceless (fst (PyStr.split_go s)) = true
  /\ Forall (fun w => is_word w = true) (snd (PyStr.split_go s)).
Proof.
  induction s as [| c s [IHw IHws]]; simpl; [by split |].
  destruct (PyStr.split_go s) as [w ws]. simpl in *.
  destruct (PyStr.is_space c) eqn:Hc; simpl.
  - split; [reflexivity |]. destruct w as [| c' w]; simpl; [exact IHws |].
    constructor; [| exact IHws]. exact IHw.
  - split; [| exact IHws]. by rewrite Hc.
Qed.

Lemma split_words (s : string) : Forall (fun w => is_word w = true) (PyStr.split s).
Proof.
  unfold PyStr.split. destruct (split_go_words s) as [Hw Hws].
  destruct (PyStr.split_go s) as [w ws]. simpl in *.
  destruct w as [| c w]; simpl; [exact Hws |].
  constructor; [exact Hw | exact Hws].
Qed.

Lemma digit_is_digit (n : Z) : PyStr.is_digit_char (digit n) = true.
Proof.
  unfold digit. pose proof (Z.mod_pos_bound n 10 ltac:(lia)) as Hb.
  assert (Hn : (Z.to_nat (n mod 10) < 10)%nat) by lia.
  destruct (Z.to_nat (n mod 10)) as [|[|[|[|[|[|[|[|[|[|k]]]]]]]]]]; try reflexivity; lia.
Qed.

Lemma format_timestamp_shape (t : Z) :
  _format_timestamp t = "unknown"
  \/ has_shape "dddd-dd-dd dd:dd:dd" (_format_timestamp t) = true.
Proof.
  unfold _format_timestamp.
  destruct (civil_from_days _) as [[y m] d].
  destruct ((1 <=? y) && (y <=? 9999)); [right | by left].
  unfold four_digits, two_digits. cbn.
  by rewrite !digit_is_digit.
Qed.

(** X15.  Every record that comes out of a lease text is well formed: mac,
    ip and hostname are words (not empty, no whitespace), and the connection
    time is either [unknown] or a text of the shape
    [YYYY-MM-DD HH:MM:SS]. *)
Theorem client_records_are_well_formed (out : string) (r : ClientLease) :
  In r (parse_leases out) ->
  is_word (mac r) = true
  /\ is_word (ip r) = true
  /\ is_word (hostname r) = true
  /\ (connected_since r = "unknown"
      \/ has_shape "dddd-dd-dd dd:dd:dd" (connected_since r) = true).
Proof.
  unfold parse_leases. intros Hin.
  apply list_elem_of_In, list_elem_of_omap in Hin as (line & _ & Hline).
  unfold parse_lease in Hline.
  pose proof (split_words line) as Hw.
  destruct (PyStr.split line) as [| t [| m [| i rest]]]; try discriminate.
  injection Hline as <-. cbn [mac ip hostname connected_since].
  inversion Hw as [| ? ? _ Hw1]; subst. inversion Hw1 as [| ? ? Hm Hw2]; subst.
  inversion Hw2 as [| ? ? Hi Hw3]; subst.
  split; [exact Hm |]. split; [exact Hi |]. split.
  - destruct rest as [| h rest]; [reflexivity |]. by inversion Hw3.
  - destruct (PyStr.isdigit t); [apply format_timestamp_shape | by left].
Qed.

End Words.

(** ** Configuration file, rfkill and the start endpoint *)

Section Loading.
Context `{H : Host}.

Lemma load_hotspot_config_run (f : read_outcome) (s : state) :
  exists s',
    exec (load_hotspot_config f) s = (Ok (configured f), s')
    /\ os s' = os s /\ self s' = self s
    /\ syscalls (trace s') = syscalls (trace s).
Proof.
  destruct f as [[[cfg |] | v |] | e]; cbn;
    (eexists; split; [reflexivity |]); by trace_facts.
Qed.

Lemma construct_run (f : read_outcome) (s : state) :
  exists s',
    exec (construct f) s = (Ok tt, s')
    /\ os s' = os s
    /\ self s' = mkManager "wlan0" (configured f) None None
    /\ syscalls (trace s') = syscalls (trace s).
Proof.
  unfold construct. cbn [exec]. rewrite exec_bind.
  destruct (load_hotspot_config_run f (mkState (os s) (mkManager "wlan0" ∅ None None) (trace s)))
    as (s1 & -> & Hos & Hself & Htr).
  destruct s1 as [w1 m1 t1]. cbn in *. subst w1 m1.
  eexists. split; [reflexivity |]. cbn. rewrite syscalls_app. cbn.
  by rewrite app_nil_r.
Qed.


End Loading.

Section Rfkill.
Context `{H : Host}.

Lemma scan_line_holds (status : gmap string pyval) (e s h : bool) (line : string) :
  status_holds status e s h ->
  status_holds (scan_line status line)
               (e || device_line line) (s || soft_line line) (h || hard_line line).
Proof.
  intros (He & Hb & Hs & Hh & Herr).
  unfold scan_line, soft_line, hard_line, device_line.
  destruct (String.prefix "0:" line); cbn [andb].
  2: { rewrite !orb_false_r. by repeat split. }
  destruct (PyStr.contains "Soft blocked: yes" line); cbn [andb negb].
  { rewrite ?orb_true_r, ?orb_false_r. unfold status_holds. simpl_map.
    rewrite ?orb_true_r, ?orb_false_r. by split_and!. }
  destruct (PyStr.contains "Hard blocked: yes" line).
  { rewrite ?orb_true_r, ?orb_false_r. unfold status_holds. simpl_map.
    rewrite ?orb_true_r, ?orb_false_r. by split_and!. }
  rewrite ?orb_true_r, ?orb_false_r. unfold status_holds. simpl_map. by split_and!.
Qed.

Lemma scan_holds (ls : list string) (status : gmap string pyval) (e s h : bool) :
  status_holds status e s h ->
  status_holds (fold_left scan_line ls status)
               (e || existsb device_line ls) (s || existsb soft_line ls)
               (h || existsb hard_line ls).
Proof.
  revert status e s h. induction ls as [| line ls IH]; intros status e s h Hst; cbn.
  - by rewrite !orb_false_r.
  - rewrite !orb_assoc. apply IH. by apply scan_line_holds.
Qed.

Lemma initial_status_holds (ls : list string) :
  status_holds (fold_left scan_line ls initial_status)
               (existsb device_line ls) (existsb soft_line ls) (existsb hard_line ls).
Proof.
  apply (scan_holds ls initial_status false false false).
  unfold status_holds, initial_status. simpl_map. by split_and!.
Qed.

Lemma check_wifi_status_run (s : state) :
  exists s',
    exec RfkillChecker.check_wifi_status s =
    (Ok match fst (perform rfkill_list (os s)) with
        | Returned c =>
            if returncode c =? 0
            then fold_left scan_line (rfkill_lines c) initial_status
            else unavailable "rfkill not available"
        | Raised f => unavailable (str_exn (exn_of_fault f))
        end, s')
    /\ os s' = snd (perform rfkill_list (os s))
    /\ self s' = self s
    /\ syscalls (trace s') = syscalls (trace s) ++ [rfkill_list].
Proof.
  unfold RfkillChecker.check_wifi_status, rfkill_list, rfkill_lines. cbn.
  destruct (perform (Run ["rfkill"; "list"; "wifi"] None) (os s)) as [[c | [msg | msg]] w]; cbn.
  - destruct (returncode c =? 0); cbn; (eexists; split; [reflexivity |]); by trace_facts.
  - (eexists; split; [reflexivity |]); by trace_facts.
  - (eexists; split; [reflexivity |]); by trace_facts.
Qed.

(** X18.  [RfkillChecker.check_wifi_status] never raises, issues
    [rfkill list wifi] and nothing else, and leaves the manager alone.  When
    the command exits with 0 the status has no [error] entry, [exists] says
    whether some line of the output starts with [0:], [soft_blocked] and
    [hard_blocked] say whether such a line also holds the respective flag
    (the soft one taking precedence on a line), and [blocked] is their
    disjunction.  When the command exits otherwise the status is the
    three-entry one with [rfkill not available], and when it cannot be
    launched the one with the text of the failure. *)
Theorem check_wifi_status_never_raises (s : state) :
  exists status,
    fst (exec RfkillChecker.check_wifi_status s) = Ok status
    /\ os (snd (exec RfkillChecker.check_wifi_status s)) = snd (perform rfkill_list (os s))
    /\ self (snd (exec RfkillChecker.check_wifi_status s)) = self s
    /\ syscalls (trace (snd (exec RfkillChecker.check_wifi_status s))) = syscalls (trace s) ++ [rfkill_list]
    /\ match fst (perform rfkill_list (os s)) with
       | Returned c =>
           if returncode c =? 0
           then status_holds status (existsb device_line (rfkill_lines c))
                             (existsb soft_line (rfkill_lines c))
                             (existsb hard_line (rfkill_lines c))
           else status = unavailable "rfkill not available"
       | Raised f => status = unavailable (str_exn (exn_of_fault f))
       end.
Proof.
  destruct (check_wifi_status_run s) as (s' & -> & Hos & Hself & Htr).
  eexists. split; [reflexivity |]. cbn [snd]. repeat (split; [assumption |]).
  destruct (fst (perform rfkill_list (os s))) as [c | f]; [| reflexivity].
  destruct (returncode c =? 0); [apply initial_status_holds | reflexivity].
Qed.

Lemma exec_lift {A : Type} (p : M A) (s : state) :
  exec (RfkillChecker.lift p) s =
  (match fst (exec p s) with Ok a => Fine a | Raise e => Failed (Other e) end,
   snd (exec p s)).
Proof.
  unfold RfkillChecker.lift. rewrite exec_bind. by destruct (exec p s) as [[a | e] s'].
Qed.

Lemma exec_rbind {A B : Type} (p : prog (reply A)) (f : A -> prog (reply B)) (s : state) :
  exec (RfkillChecker.rbind p f) s =
  match exec p s with
  | (Fine a, s') => exec (f a) s'
  | (Failed e, s') => (Failed e, s')
  end.
Proof.
  unfold RfkillChecker.rbind. rewrite exec_bind. by destruct (exec p s) as [[a | e] s'].
Qed.

Lemma check_rfkill_run (s : state) :
  exists s',
    exec RfkillChecker.check_rfkill s =
    (match fst (perform rfkill_list (os s)) with
     | Returned c =>
         if returncode c =? 0 then
           if existsb hard_line (rfkill_lines c)
           then Failed (RfkillBlockedException "WiFi is hard-blocked (physical switch)")
           else if existsb soft_line (rfkill_lines c)
           then Failed (RfkillBlockedException "WiFi is soft-blocked")
           else Fine (fold_left scan_line (rfkill_lines c) initial_status)
         else Failed (KeyError "hard_blocked")
     | Raised _ => Failed (KeyError "hard_blocked")
     end, s')
    /\ os s' = snd (perform rfkill_list (os s))
    /\ self s' = self s
    /\ syscalls (trace s') = syscalls (trace s) ++ [rfkill_list].
Proof.
  destruct (check_wifi_status_run s) as (s' & E & Hos & Hself & Htr).
  exists s'. split; [| by repeat split].
  unfold RfkillChecker.check_rfkill. rewrite exec_rbind, exec_lift, E. cbn [fst snd].
  destruct (fst (perform rfkill_list (os s))) as [c | f]; [| reflexivity].
  destruct (returncode c =? 0); [| reflexivity].
  destruct (initial_status_holds (rfkill_lines c)) as (_ & _ & Hs & Hh & _).
  unfold RfkillChecker.subscript. cbn. rewrite Hh. cbn.
  destruct (existsb hard_line (rfkill_lines c)); cbn; [reflexivity |].
  rewrite Hs. cbn. by destruct (existsb soft_line (rfkill_lines c)).
Qed.

(** X19.  When [rfkill list wifi] does not exit with 0, the status has no
    [hard_blocked] entry and [check_rfkill] of [rfkill_checker.py] raises
    [KeyError] on it; [is_wifi_available] answers [False], and
    [check_rfkill] of [hotspot.py] returns the status with its [error]
    entry. *)
Theorem rfkill_failure_is_a_key_error (s : state) :
  exits_zero rfkill_list (os s) = false ->
  fst (exec RfkillChecker.check_rfkill s) = Failed (KeyError "hard_blocked")
  /\ fst (exec RfkillChecker.is_wifi_available s) = Fine (PBool false)
  /\ exists status,
       fst (exec check_rfkill s) = Ok status
       /\ is_Some (status !! "error")
       /\ status !! "hard_blocked" = None.
Proof.
  intros Hz. unfold exits_zero, rfkill_list in Hz.
  destruct (check_rfkill_run s) as (s1 & E1 & _).
  destruct (check_wifi_status_run s) as (s2 & E & _).
  unfold RfkillChecker.is_wifi_available, check_rfkill.
  rewrite E1. rewrite exec_rbind. rewrite exec_lift. rewrite E. cbn [fst snd].
  unfold rfkill_list.
  destruct (fst (perform (Run ["rfkill"; "list"; "wifi"] None) (os s))) as [c | f].
  - rewrite Hz. split; [reflexivity |]. split; [reflexivity |].
    eexists. split; [reflexivity |]. unfold unavailable. simpl_map. by split.
  - split; [reflexivity |]. split; [reflexivity |].
    eexists. split; [reflexivity |]. unfold unavailable. simpl_map. by split.
Qed.

(** X20.  When [rfkill list wifi] exits with 0, [check_rfkill] raises
    [RfkillBlockedException] exactly when a line that starts with [0:] holds
    a block flag itself, the hard one being reported first.  A flag on a
    line of its own is not seen: if no line that starts with [0:] holds a
    flag, the adapter is reported as not blocked, and as available when
    there is such a line. *)
Theorem check_rfkill_reads_the_device_line (s : state) (c : completed) :
  fst (perform rfkill_list (os s)) = Returned c ->
  returncode c = 0 ->
  fst (exec RfkillChecker.check_rfkill s) =
    (if existsb hard_line (rfkill_lines c)
     then Failed (RfkillBlockedException "WiFi is hard-blocked (physical switch)")
     else if existsb soft_line (rfkill_lines c)
     then Failed (RfkillBlockedException "WiFi is soft-blocked")
     else Fine (fold_left scan_line (rfkill_lines c) initial_status))
  /\ ((forall line, In line (rfkill_lines c) -> device_line line = true ->
         PyStr.contains "Soft blocked: yes" line = false
         /\ PyStr.contains "Hard blocked: yes" line = false) ->
      exists status,
        fst (exec RfkillChecker.check_rfkill s) = Fine status
        /\ status !! "blocked" = Some (PBool false)
        /\ fst (exec RfkillChecker.is_wifi_available s) =
           Fine (PBool (existsb device_line (rfkill_lines c)))).
Proof.
  intros Hret Hrc.
  destruct (check_rfkill_run s) as (s1 & E1 & _).
  destruct (check_wifi_status_run s) as (s2 & E2 & _).
  rewrite Hret, Hrc in E1, E2. change (0 =? 0) with true in E1, E2.
  cbv beta iota in E1, E2.
  split; [by rewrite E1 |].
  intros Hlines.
  assert (Hsoft : existsb soft_line (rfkill_lines c) = false).
  { apply not_true_is_false. intros Hex. apply existsb_exists in Hex as (l & Hin & Hl).
    unfold soft_line in Hl. apply andb_true_iff in Hl as [Hd Hc].
    destruct (Hlines l Hin Hd) as [Hs _]. congruence. }
  assert (Hhard : existsb hard_line (rfkill_lines c) = false).
  { apply not_true_is_false. intros Hex. apply existsb_exists in Hex as (l & Hin & Hl).
    unfold hard_line in Hl. apply andb_true_iff in Hl as [Hl Hc].
    apply andb_true_iff in Hl as [Hd _].
    destruct (Hlines l Hin Hd) as [_ Hh]. congruence. }
  destruct (initial_status_holds (rfkill_lines c)) as (He & Hb & _).
  rewrite Hsoft, Hhard in *. eexists. split; [by rewrite E1 |].
  split; [exact Hb |].
  unfold RfkillChecker.is_wifi_available. rewrite exec_rbind, exec_lift, E2. cbn [fst snd].
  unfold RfkillChecker.subscript. cbn. rewrite He. cbn.
  destruct (existsb device_line (rfkill_lines c)); cbn; [| reflexivity].
  rewrite Hb. reflexivity.
Qed.

End Rfkill.

Section EndpointProperties.
Context `{H : Host}.

Lemma start_error_run (error_msg : string) (s : state) :
  exec (start_error error_msg) s =
  ((JObj [("success", JBool false);
          ("error", JStr (fst (classify error_msg)));
          ("debug_info", if snd (classify error_msg) =? 500 then JStr error_msg else JNull)],
    snd (classify error_msg)),
   record (EvLog ERROR ("API: Error starting hotspot: " +:+ error_msg)) s).
Proof. unfold start_error. cbn [exec]. by destruct (classify error_msg). Qed.

Lemma classify_codes (error_msg : string) :
  In (snd (classify error_msg)) [400; 403; 409; 500].
Proof.
  unfold classify.
  repeat match goal with |- context [if ?b then _ else _] => destruct b end;
    cbn; auto.
Qed.

Lemma record_syscalls (ev_lvl : level) (msg : string) (s : state) :
  syscalls (trace (record (EvLog ev_lvl msg) s)) = syscalls (trace s).
Proof. cbn. rewrite syscalls_app. cbn. by rewrite app_nil_r. Qed.

(** X21.  The start endpoint when [rfkill list wifi] does not exit with 0:
    the [KeyError] of [check_rfkill] reaches the outer handler, and its text
    ['hard_blocked'] is classified as a blocked adapter.  The answer is
    status 400 with the unblock advice and no debug information; no manager
    is constructed and no other command is issued. *)
Theorem api_start_reports_missing_rfkill_as_blocked (f : read_outcome) (s : state) :
  exits_zero rfkill_list (os s) = false ->
  fst (exec (api_start_hotspot f) s) =
    (JObj [("success", JBool false);
           ("error", JStr blocked_message);
           ("debug_info", JNull)], 400)
  /\ syscalls (trace (snd (exec (api_start_hotspot f) s))) = syscalls (trace s) ++ [rfkill_list]
  /\ self (snd (exec (api_start_hotspot f) s)) = self s.
Proof.
  intros Hz. unfold exits_zero in Hz.
  unfold api_start_hotspot. cbn [exec]. rewrite exec_bind.
  set (s0 := record (EvLog INFO "API: Starting WiFi hotspot...") s).
  destruct (check_rfkill_run s0) as (s1 & E1 & _ & Hself & Htr).
  rewrite E1. change (os s0) with (os s).
  assert (Hk : match fst (perform rfkill_list (os s)) with
               | Returned c =>
                   if returncode c =? 0 then
                     if existsb hard_line (rfkill_lines c)
                     then Failed (RfkillBlockedException "WiFi is hard-blocked (physical switch)")
                     else if existsb soft_line (rfkill_lines c)
                     then Failed (RfkillBlockedException "WiFi is soft-blocked")
                     else Fine (fold_left scan_line (rfkill_lines c) initial_status)
                   else Failed (KeyError "hard_blocked")
               | Raised _ => Failed (KeyError "hard_blocked")
               end = Failed (KeyError "hard_blocked")).
  { unfold rfkill_list in *.
    destruct (fst (perform (Run ["rfkill"; "list"; "wifi"] None) (os s))) as [c | flt];
      [by rewrite Hz | reflexivity]. }
  rewrite Hk. rewrite start_error_run.
  cbn [fst snd]. split; [reflexivity |].
  rewrite record_syscalls, Htr. unfold s0. rewrite record_syscalls.
  split; [reflexivity | exact Hself].
Qed.

(** X22.  The start endpoint always answers with status 200, 400, 403, 409
    or 500; status 200 goes with [success: true] and no other status does;
    and the answer of its [else] branch, a plain [Failed to start hotspot]
    with status 500, is never given, since [start_hotspot] does not return
    [False]. *)
Theorem api_start_never_reports_a_plain_failure (f : read_outcome) (s : state) :
  In (snd (fst (exec (api_start_hotspot f) s))) [200; 400; 403; 409; 500]
  /\ fst (exec (api_start_hotspot f) s) <>
     (JObj [("success", JBool false); ("error", JStr "Failed to start hotspot")], 500)
  /\ (snd (fst (exec (api_start_hotspot f) s)) = 200 <->
      exists fields,
        fst (fst (exec (api_start_hotspot f) s)) = JObj (("success", JBool true) :: fields)).
Proof.
  assert (Hcode : forall msg, In (snd (classify msg)) [200; 400; 403; 409; 500])
    by (intros msg; right; apply classify_codes).
  assert (Hne : forall msg, snd (classify msg) <> 200).
  { intros msg E. pose proof (classify_codes msg) as Hin. rewrite E in Hin.
    cbn in Hin. intuition discriminate. }
  assert (Herr : forall msg s',
            let r := fst (exec (start_error msg) s') in
            In (snd r) [200; 400; 403; 409; 500]
            /\ r <> (JObj [("success", JBool false); ("error", JStr "Failed to start hotspot")], 500)
            /\ (snd r = 200 <->
                exists fields, fst r = JObj (("success", JBool true) :: fields))).
  { intros msg s'. rewrite start_error_run. cbn [fst snd].
    split; [apply Hcode |]. split; [discriminate |].
    split; [intros E; by destruct (Hne msg) | intros [fields E]; discriminate E]. }
  unfold api_start_hotspot. cbn [exec]. rewrite exec_bind.
  destruct (exec RfkillChecker.check_rfkill _) as [[st | [key | msg | e]] s1];
    try apply Herr.
  2: { cbn. split; [auto |]. split; [discriminate |].
       split; [discriminate | intros [fields E]; discriminate E]. }
  rewrite exec_bind. destruct (exec (construct f) s1) as [[[] | e] s2]; [| apply Herr].
  rewrite exec_bind. pose proof (start_hotspot_not_false s2) as Hnf.
  destruct (exec start_hotspot s2) as [[[|] | e] s3]; cbn [fst] in Hnf;
    [| congruence | apply Herr].
  rewrite exec_bind. destruct (exec get_status s3) as [[status | e] s4]; [| apply Herr].
  cbn. split; [auto |]. split; [discriminate |].
  split; [intros _; eexists; reflexivity | reflexivity].
Qed.

(** X23.  The start endpoint without password-less [sudo]: when the adapter
    is not blocked, the hotspot is not active and the [sudo] check fails,
    the answer is status 403 with the administrator-privileges message and
    no debug information. *)
Theorem api_start_without_sudo_is_forbidden (f : read_outcome) (s : state)
    (status : gmap string pyval) :
  let w1 := snd (perform rfkill_list (os s)) in
  let s1 := mkState w1 (mkManager "wlan0" (configured f) None None) [] in
  fst (exec RfkillChecker.check_rfkill s) = Fine status ->
  fst (exec is_hotspot_active s1) = Ok false ->
  exits_zero sudo_probe (os (snd (exec is_hotspot_active s1))) = false ->
  fst (exec (api_start_hotspot f) s) =
    (JObj [("success", JBool false);
           ("error", JStr privileges_message);
           ("debug_info", JNull)], 403).
Proof.
  intros w1 s1 Hrf Hact Hsudo.
  unfold api_start_hotspot. cbn [exec]. rewrite exec_bind.
  set (s0 := record (EvLog INFO "API: Starting WiFi hotspot...") s).
  assert (Hrf0 : fst (exec RfkillChecker.check_rfkill s0) = Fine status).
  { rewrite <- Hrf. by apply exec_result_independent_of_trace. }
  destruct (check_rfkill_run s0) as (s2 & E2 & Hos2 & _).
  rewrite E2 in Hrf0 |- *. cbn [fst] in Hrf0. rewrite Hrf0.
  rewrite exec_bind. destruct (construct_run f s2) as (s3 & E3 & Hos3 & Hself3 & _).
  rewrite E3. rewrite exec_bind.
  assert (Hos : os s3 = os s1) by (rewrite Hos3, Hos2; reflexivity).
  assert (Hself : self s3 = self s1) by exact Hself3.
  assert (Hact3 : fst (exec is_hotspot_active s3) = Ok false).
  { rewrite <- Hact. by apply exec_result_independent_of_trace. }
  assert (Hsudo3 : exits_zero sudo_probe (os (snd (exec is_hotspot_active s3))) = false).
  { rewrite <- Hsudo. f_equal.
    destruct (is_hotspot_active_run s3) as (s4 & E4 & _ & _ & Hos4).
    destruct (is_hotspot_active_run s1) as (s5 & E5 & _ & _ & Hos5).
    rewrite E4, E5. cbn [snd]. by rewrite Hos4, Hos5, Hos, Hself. }
  destruct (start_pipeline_without_sudo s3 Hact3 Hsudo3) as (s4 & Hpipe & _).
  pose proof (start_hotspot_wraps s3 s4 _ Hpipe) as Hres.
  destruct (exec start_hotspot s3) as [r s5]. cbn [fst] in Hres. subst r.
  rewrite start_error_run. cbn [fst]. reflexivity.
Qed.

End EndpointProperties.

Section Unreadable.
Context `{H : Host}.

(** X17.  A manager constructed while the hotspot file is unreadable (or
    holds no mapping, or has no [hotspot] key) holds the empty
    configuration; on whatever host it is then used, its activity check
    answers [False] and [start_hotspot] raises. *)
Theorem hotspot_cannot_start_on_an_unreadable_configuration
    (f : read_outcome) (s0 : state) (w : world) (t : list event) :
  (forall cfg, f <> Parsed (YMapping (Some cfg))) ->
  let m := self (snd (exec (construct f) s0)) in
  hotspot_config m = ∅
  /\ fst (exec is_hotspot_active (mkState w m t)) = Ok false
  /\ exists msg : string,
       fst (exec start_hotspot (mkState w m t)) =
       Raise (HotspotError ("Failed to start hotspot: " +:+ msg)).
Proof.
  intros Hf m.
  destruct (construct_run f s0) as (s1 & E & _ & Hself & _).
  assert (Hm : m = mkManager "wlan0" ∅ None None).
  { unfold m. rewrite E. cbn [snd]. rewrite Hself.
    destruct f as [[[cfg |] | v |] | e]; try reflexivity. by destruct (Hf cfg). }
  assert (Hna : no_address (self (mkState w m t))).
  { rewrite Hm. intros addr. cbn. unfold dict_get. by rewrite lookup_empty. }
  split; [by rewrite Hm |]. split.
  - apply (meets_exec _ _ _ is_hotspot_active _ is_hotspot_active_without_address Hna).
  - destruct (start_pipeline_raises_without_address _ Hna) as (e & s2 & Hpipe).
    exists (str_exn e). by apply (start_hotspot_wraps _ s2).
Qed.

End Unreadable.

(** ** The stop endpoint *)

Section StopEndpointProperties.
Context `{H : Host}.


End StopEndpointProperties.

(** ** The logger *)

Section Logging.

Lemma after_setups_handlers (calls : list (bool * bool)) (lg : Logger) :
  handlers (after_setups calls lg) =
  handlers lg ++ map (fun c : bool * bool => if snd c then DEBUG_no else levelno INFO) calls
  /\ (calls <> [] -> logger_level (after_setups calls lg) <= levelno INFO).
Proof.
  revert lg. induction calls as [| [v d] calls IH]; intros lg; cbn.
  - by rewrite app_nil_r.
  - destruct (IH (setup_logger v d lg)) as [Hh Hl]. split.
    + unfold after_setups in Hh. rewrite Hh. cbn. rewrite <- app_assoc. cbn.
      by destruct d, v.
    + intros _. destruct calls as [| c calls]; [destruct d, v; cbv; discriminate |].
      apply Hl. discriminate.
Qed.

Lemma filter_keeps_all {A : Type} (f : A -> bool) (l : list A) :
  (forall x, In x l -> f x = true) -> List.filter f l = l.
Proof.
  induction l as [| x l IH]; intros Hall; cbn; [reflexivity |].
  rewrite (Hall x (or_introl eq_refl)). f_equal. apply IH. intros y Hy. apply Hall. by right.
Qed.

(** X25.  Every call of [setup_logger] adds one more handler to the same
    logger, so after [n] calls every record the program logs is written [n]
    times, whatever the arguments of the calls; and [verbose] has no effect
    at all. *)
Theorem setup_logger_adds_a_handler_each_time
    (calls : list (bool * bool)) (verbose debug : bool) (l : level) (lg : Logger) :
  lines_written (after_setups calls (mkLogger (logger_level lg) [])) l = List.length calls
  /\ List.length (handlers (setup_logger verbose debug lg)) = S (List.length (handlers lg))
  /\ setup_logger verbose debug lg = setup_logger (negb verbose) debug lg.
Proof.
  split; [| split].
  - destruct (after_setups_handlers calls (mkLogger (logger_level lg) [])) as [Hh Hl].
    unfold lines_written. rewrite Hh. cbn [handlers app].
    destruct calls as [| c calls]; [by destruct (_ <? _) |].
    assert (Hlvl : (levelno l <? logger_level
                      (after_setups (c :: calls) (mkLogger (logger_level lg) []))) = false).
    { apply Z.ltb_ge. specialize (Hl ltac:(discriminate)). destruct l; unfold levelno in *; lia. }
    rewrite Hlvl.
    rewrite <- (length_map (fun c : bool * bool => if snd c then DEBUG_no else levelno INFO) (c :: calls)).
    f_equal. apply filter_keeps_all. intros h Hin.
    apply in_map_iff in Hin as ([v d] & <- & _). cbn. destruct d, l; reflexivity.
  - unfold setup_logger. cbn. rewrite length_app. cbn. lia.
  - by destruct verbose, debug.
Qed.

End Logging.

(** ** Examples *)

Section SimExamples.
Import Sim.

(** On a freshly booted device [hostapd] finds no configuration file and
    says so on its error stream: the failure comes out as the
    [AttributeError]. *)
Lemma start_daemon_launch_failure_witness :
  let s := boot default_hotspot_config fresh in
  fst (exec _start_hostapd s) = Raise no_decode
  /\ syscalls (trace (snd (exec _start_hostapd s))) =
     [sudo_probe; launch true "hostapd" ["-B"; "-f"; hostapd_log_path; hostapd_conf_path]].
Proof.
  intros s.
  pose (c := Completed 1 EmptyString
               ("Could not open configuration file " +:+ hostapd_conf_path +:+ nl)).
  assert (Hret : fst (perform (launch (exits_zero sudo_probe (os s)) "hostapd"
                                      ["-B"; "-f"; hostapd_log_path; hostapd_conf_path])
                              (run_calls [sudo_probe] (os s))) = Returned c)
    by (vm_compute; reflexivity).
  assert (Hrc : returncode c <> 0) by (cbn; lia).
  destruct (start_daemon_launch_failure "hostapd"
              ["-B"; "-f"; hostapd_log_path; hostapd_conf_path] s c Hret Hrc) as [Hres Htr].
  split; [exact Hres | exact Htr].
Defined.

(** A start on the device without password-less [sudo]. *)
Lemma start_hotspot_requires_sudo_witness :
  let s := boot default_hotspot_config no_sudo in
  fst (exec start_hotspot s) =
  Raise (HotspotError ("Failed to start hotspot: " +:+ sudo_required_msg))
  /\ syscalls (trace (snd (exec start_pipeline s))) = [pgrep_hostapd; sudo_probe].
Proof.
  intros s.
  assert (Hact : fst (exec is_hotspot_active s) = Ok false) by (vm_compute; reflexivity).
  assert (Hsudo : exits_zero sudo_probe (os (snd (exec is_hotspot_active s))) = false)
    by (vm_compute; reflexivity).
  destruct (start_hotspot_requires_sudo s Hact Hsudo) as (_ & Hres & Htr).
  split; [exact Hres |]. rewrite Htr. vm_compute. reflexivity.
Defined.

(** A manager whose configuration names [wlan1], after a start. *)
Lemma interface_is_always_wlan0_witness :
  let cfg := <["interface" := PStr "wlan1"]> default_hotspot_config in
  let s := invoke m_start_hotspot
             (snd (exec (__init__ (Loaded cfg))
                        (mkState fresh (mkManager EmptyString ∅ None None) []))) in
  reachable s
  /\ dict_get (hotspot_config (self s)) "interface" = PStr "wlan1"
  /\ interface (self s) = "wlan0"
  /\ fst (exec get_interface s) = Ok "wlan0".
Proof.
  intros cfg s.
  assert (Hr : reachable s) by (apply reach_call, reach_init).
  destruct (interface_is_always_wlan0 s Hr) as (Hi & Hg & _).
  split; [exact Hr |]. split; [vm_compute; reflexivity |].
  split; [exact Hi | exact Hg].
Defined.

(** A start with the empty configuration on a device that answers. *)
Lemma start_hotspot_needs_an_address_witness :
  let s := boot ∅ fresh in
  no_address (self s)
  /\ fst (exec is_hotspot_active s) = Ok false
  /\ exists msg : string,
       fst (exec start_hotspot s) = Raise (HotspotError ("Failed to start hotspot: " +:+ msg)).
Proof.
  intros s.
  assert (Hs : no_address (self s)).
  { intros addr. cbn. unfold dict_get. by rewrite lookup_empty. }
  split; [exact Hs |]. exact (start_hotspot_needs_an_address s Hs).
Defined.


(** A start on a freshly booted device. *)
Lemma start_hotspot_true_means_verified_witness :
  let s := boot default_hotspot_config fresh in
  fst (exec start_hotspot s) = Ok true
  /\ exists s0,
       self s0 = self s
       /\ fst (exec is_hotspot_active s0) = Ok true
       /\ os (snd (exec start_hotspot s)) = os (snd (exec is_hotspot_active s0))
       /\ syscalls (trace (snd (exec start_hotspot s))) =
          syscalls (trace (snd (exec is_hotspot_active s0))).
Proof.
  intros s.
  assert (Hok : fst (exec start_hotspot s) = Ok true) by (vm_compute; reflexivity).
  destruct (start_hotspot_true_means_verified s Hok)
    as (s0 & Hself & _ & Hact & Hos & Htr & _).
  split; [exact Hok |]. exists s0. by repeat split.
Defined.

(** The record of the sample lease line. *)
Lemma client_records_are_well_formed_witness :
  let r := mkClientLease "aa:bb:cc:dd:ee:ff" "192.168.4.23" "my-phone" "2023-11-14 22:13:20" in
  In r (parse_leases (lease_line +:+ nl +:+ short_line +:+ nl))
  /\ is_word (mac r) = true
  /\ is_word (hostname r) = true
  /\ has_shape "dddd-dd-dd dd:dd:dd" (connected_since r) = true.
Proof.
  intros r.
  assert (Hin : In r (parse_leases (lease_line +:+ nl +:+ short_line +:+ nl)))
    by (vm_compute; left; reflexivity).
  destruct (client_records_are_well_formed _ r Hin) as (Hm & _ & Hh & _).
  split; [exact Hin |]. split; [exact Hm |]. split; [exact Hh |].
  vm_compute. reflexivity.
Defined.

(** A hotspot file that cannot be opened, and a device on which the hotspot
    is up: the manager does not see it. *)
Lemma hotspot_cannot_start_on_an_unreadable_configuration_witness :
  let f := ReadRaised (OSError "[Errno 13] Permission denied: '/root/pibridge/hotspot.yaml'") in
  let m := self (snd (exec (construct f) (boot default_hotspot_config fresh))) in
  (forall cfg, f <> Parsed (YMapping (Some cfg)))
  /\ hotspot_config m = ∅
  /\ fst (exec is_hotspot_active (mkState up m [])) = Ok false.
Proof.
  intros f m.
  assert (Hf : forall cfg, f <> Parsed (YMapping (Some cfg))) by (intros cfg; discriminate).
  destruct (hotspot_cannot_start_on_an_unreadable_configuration f
              (boot default_hotspot_config fresh) up [] Hf) as (Hcfg & Hact & _).
  split; [exact Hf |]. split; [exact Hcfg | exact Hact].
Defined.

(** The simulated device has no [rfkill]. *)
Lemma rfkill_failure_is_a_key_error_witness :
  let s := boot default_hotspot_config fresh in
  exits_zero rfkill_list (os s) = false
  /\ fst (exec RfkillChecker.check_rfkill s) = Failed (KeyError "hard_blocked")
  /\ fst (exec RfkillChecker.is_wifi_available s) = Fine (PBool false).
Proof.
  intros s.
  assert (Hz : exits_zero rfkill_list (os s) = false) by (vm_compute; reflexivity).
  destruct (rfkill_failure_is_a_key_error s Hz) as (Hk & Ha & _).
  split; [exact Hz |]. split; [exact Hk | exact Ha].
Defined.

(** The start endpoint on the simulated device, which has no [rfkill]. *)
Lemma api_start_reports_missing_rfkill_as_blocked_witness :
  let s := boot default_hotspot_config fresh in
  exits_zero rfkill_list (os s) = false
  /\ fst (exec (api_start_hotspot (Parsed (YMapping (Some default_hotspot_config)))) s) =
     (JObj [("success", JBool false);
            ("error", JStr blocked_message);
            ("debug_info", JNull)], 400).
Proof.
  intros s.
  assert (Hz : exits_zero rfkill_list (os s) = false) by (vm_compute; reflexivity).
  destruct (api_start_reports_missing_rfkill_as_blocked
              (Parsed (YMapping (Some default_hotspot_config))) s Hz) as (Hres & _).
  split; [exact Hz | exact Hres].
Defined.

End SimExamples.

Section ReplayExamples.
Import Replay.

(** The listing of a soft-blocked adapter, flags on lines of their own: the
    adapter is reported as available. *)
Lemma check_rfkill_reads_the_device_line_witness :
  let s := replay [exited 0 soft_blocked_listing] in
  let c := Completed 0 soft_blocked_listing EmptyString in
  fst (perform rfkill_list (os s)) = Returned c
  /\ returncode c = 0
  /\ exists status,
       fst (exec RfkillChecker.check_rfkill s) = Fine status
       /\ status !! "blocked" = Some (PBool false)
       /\ fst (exec RfkillChecker.is_wifi_available s) = Fine (PBool true).
Proof.
  intros s c.
  assert (Hret : fst (perform rfkill_list (os s)) = Returned c) by reflexivity.
  assert (Hrc : returncode c = 0) by reflexivity.
  destruct (check_rfkill_reads_the_device_line s c Hret Hrc) as [_ Hmiss].
  split; [exact Hret |]. split; [exact Hrc |].
  destruct Hmiss as (status & Hs & Hb & Ha).
  { intros line Hin Hd.
    assert (Hl : rfkill_lines c =
                 ["0: phy0: Wireless LAN";
                  String (ascii_of_nat 9) "Soft blocked: yes";
                  String (ascii_of_nat 9) "Hard blocked: no"])
      by (vm_compute; reflexivity).
    rewrite Hl in Hin.
    destruct Hin as [<- | [<- | [<- | []]]];
      first [ split; vm_compute; reflexivity | discriminate Hd ]. }
  exists status. split; [exact Hs |]. split; [exact Hb |].
  rewrite Ha. vm_compute. reflexivity.
Defined.

(** The adapter is listed as not blocked, no access point daemon runs, and
    the [sudo] check exits with 1. *)
Lemma api_start_without_sudo_is_forbidden_witness :
  let s := replay [exited 0 unblocked_listing; exited 1 EmptyString; exited 1 EmptyString] in
  let f := Parsed (YMapping (Some default_hotspot_config)) in
  fst (exec (api_start_hotspot f) s) =
  (JObj [("success", JBool false);
         ("error", JStr privileges_message);
         ("debug_info", JNull)], 403).
Proof.
  intros s f.
  assert (Hrf : fst (exec RfkillChecker.check_rfkill s) =
                Fine (fold_left scan_line
                        (rfkill_lines (Completed 0 unblocked_listing EmptyString))
                        initial_status))
    by (vm_compute; reflexivity).
  refine (api_start_without_sudo_is_forbidden f s _ Hrf _ _); vm_compute; reflexivity.
Defined.

End ReplayExamples.
